(** * Guitar Trainer: the practice-session engine

    A shallow embedding of the core of [guitar_trainer_0.1.py] (class
    [ModernGuitarTrainerV2]): time formatting, the session timer, the
    metronome tempo, the workout log with its markdown persistence, the
    statistics derived from the log and the exercise catalog.

    Conventions of the embedding:
    - a Python [str] is a [list ascii]; a character stands for the code
      point of the same number, so the strings of the model are the Python
      strings over code points below 256;
    - a Python [int] is a [Z];
    - a call that may raise is a computation in the monad [exc];
    - the fields of the application object that the modelled methods read
      or write are the fields of the record [trainer]; widgets are left out,
      apart from the text of the timer label and the message boxes shown. *)

From Stdlib Require Import ZArith List Ascii String Bool Lia Sorted.
From stdpp Require Import base tactics option list gmap strings.
Import ListNotations.

#[local] Open Scope Z_scope.
#[local] Open Scope list_scope.

(** ** Python strings *)

Module PyStr.

Abbreviation pystr := (list ascii).

(** A string literal of the source. *)
Definition py (s : string) : pystr := list_ascii_of_string s.

Definition code (c : ascii) : Z := Z.of_nat (nat_of_ascii c).

(** [str.isspace] on one character (code points below 256). *)
Definition is_space (c : ascii) : bool :=
  let n := code c in
  ((9 <=? n) && (n <=? 13)) || ((28 <=? n) && (n <=? 32))
  || (n =? 133) || (n =? 160).

(** The characters [int()] reads as decimal digits. *)
Definition is_decimal (c : ascii) : bool :=
  let n := code c in (48 <=? n) && (n <=? 57).

(** [str.isdigit] on one character: the decimal digits and the superscript
    digits U+00B2, U+00B3 and U+00B9. *)
Definition is_digit_char (c : ascii) : bool :=
  let n := code c in
  is_decimal c || (n =? 178) || (n =? 179) || (n =? 185).

(** [s.isdigit()]: not empty, and every character is a digit. *)
Definition isdigit (s : pystr) : bool :=
  match s with
  | [] => false
  | _ => forallb is_digit_char s
  end.

Definition ascii_eqb (a b : ascii) : bool := Ascii.eqb a b.

(** [s.startswith(p)]. *)
Fixpoint startswith (p s : pystr) : bool :=
  match p, s with
  | [], _ => true
  | _ :: _, [] => false
  | a :: p', b :: s' => ascii_eqb a b && startswith p' s'
  end.

(** [p in s] for strings. *)
Fixpoint contains (p s : pystr) : bool :=
  startswith p s ||
  match s with
  | [] => false
  | _ :: s' => contains p s'
  end.

(** Dropping from the ends of a string the characters that [p] accepts. *)
Fixpoint lstrip_by (p : ascii → bool) (s : pystr) : pystr :=
  match s with
  | c :: s' => if p c then lstrip_by p s' else s
  | [] => []
  end.

Definition rstrip_by (p : ascii → bool) (s : pystr) : pystr :=
  rev (lstrip_by p (rev s)).

Definition strip_by (p : ascii → bool) (s : pystr) : pystr :=
  rstrip_by p (lstrip_by p s).

(** [s.lstrip()], [s.rstrip()] and [s.strip()]. *)
Abbreviation lstrip := (lstrip_by is_space).
Abbreviation rstrip := (rstrip_by is_space).
Abbreviation strip := (strip_by is_space).

(** The white space that [int()] passes over at the ends of a string: of
    the characters below 128 those of C's [isspace], which leaves out the
    separators U+001C to U+001F. *)
Definition is_int_space (c : ascii) : bool :=
  let n := code c in
  ((9 <=? n) && (n <=? 13)) || (n =? 32) || (n =? 133) || (n =? 160).

(** [s.split(sep)] for a separator of one character. *)
Fixpoint split_on (sep : ascii) (s : pystr) : list pystr :=
  match s with
  | [] => [[]]
  | c :: s' =>
      if ascii_eqb c sep then [] :: split_on sep s'
      else match split_on sep s' with
           | f :: fs => (c :: f) :: fs
           | [] => [[c]]
           end
  end.

(** [a == b] on strings. *)
Definition pystr_eqb (a b : pystr) : bool := bool_decide (a = b).

(** [s.lower()] on the letters A to Z. *)
Definition lower_char (c : ascii) : ascii :=
  let n := code c in
  if (65 <=? n) && (n <=? 90) then ascii_of_nat (nat_of_ascii c + 32) else c.

Definition lower (s : pystr) : pystr := map lower_char s.

(** [s.split()]: the maximal runs of characters that are not white space;
    [cur] holds the run being read, last character first. *)
Fixpoint words_aux (cur : pystr) (s : pystr) : list pystr :=
  match s with
  | [] => match cur with [] => [] | _ => [rev cur] end
  | c :: s' =>
      if is_space c
      then match cur with [] => words_aux [] s' | _ => rev cur :: words_aux [] s' end
      else words_aux (c :: cur) s'
  end.

Definition words (s : pystr) : list pystr := words_aux [] s.

(** Every character is a decimal digit. *)
Definition all_decimal (s : pystr) : bool := forallb is_decimal s.

(** [str(n)] for an integer: its digits, after a minus sign when it is
    negative. The digits are produced from the last one, [fuel] bounding
    their number. *)
Definition digit_char (d : Z) : ascii := ascii_of_nat (48 + Z.to_nat d).

Fixpoint dec_digits (fuel : nat) (n : Z) : pystr :=
  match fuel with
  | O => []
  | S f =>
      if n <? 10 then [digit_char n]
      else dec_digits f (n / 10) ++ [digit_char (n mod 10)]
  end.

Definition digits_of (n : Z) : pystr :=
  dec_digits (S (Z.to_nat (Z.log2 n))) n.

Definition str_of_int (n : Z) : pystr :=
  if n <? 0 then "-"%char :: digits_of (- n) else digits_of n.

(** [format(n, '0{w}d')]: zero padding after the sign, up to width [w]. *)
Definition zfill (w : nat) (s : pystr) : pystr :=
  repeat "0"%char (w - length s) ++ s.

Definition format_0d (w : nat) (n : Z) : pystr :=
  if n <? 0 then "-"%char :: zfill (w - 1) (digits_of (- n))
  else zfill w (digits_of n).

(** A string with no white space at its ends is its own [strip]. *)
Definition trimmed (s : pystr) : Prop := strip s = s.

(** No character of [s] is [sep]. *)
Definition avoids (sep : ascii) (s : pystr) : bool :=
  forallb (fun c => negb (ascii_eqb c sep)) s.

Definition no_space (s : pystr) : bool := forallb (fun c => negb (is_space c)) s.

(** A character that is neither white space, nor a vertical bar, nor the
    letter B. *)
Definition plain_char (c : ascii) : bool :=
  negb (is_space c) && negb (ascii_eqb c "|") && negb (ascii_eqb c "B").

End PyStr.
Export PyStr.

(** ** Exceptions *)

Inductive exn : Type := ValueError.

Inductive exc (A : Type) : Type :=
| Return (a : A)
| Raise (e : exn).
Arguments Return {A} a.
Arguments Raise {A} e.

#[global] Instance exc_ret : MRet exc := fun A a => Return a.

#[global] Instance exc_fmap : FMap exc := fun A B f m =>
  match m with
  | Return a => Return (f a)
  | Raise e => Raise e
  end.

#[global] Instance exc_bind : MBind exc := fun A B k m =>
  match m with
  | Return a => k a
  | Raise e => Raise e
  end.

(** The value of a decimal digit. *)
Definition digit_val (c : ascii) : Z := code c - 48.

(** The digits of a numeral after the first one, with the single
    underscores that [int] allows between two digits. *)
Fixpoint int_tail (acc : Z) (s : pystr) : option Z :=
  match s with
  | [] => Some acc
  | c :: r =>
      if is_decimal c then int_tail (10 * acc + digit_val c) r
      else if ascii_eqb c "_" then
        match r with
        | d :: r' =>
            if is_decimal d then int_tail (10 * acc + digit_val d) r'
            else None
        | [] => None
        end
      else None
  end.

Definition int_digits (s : pystr) : option Z :=
  match s with
  | d :: r => if is_decimal d then int_tail (digit_val d) r else None
  | [] => None
  end.

(** [int(s)] for a string: surrounding white space, an optional sign, then
    decimal digits, where single underscores may separate digits. *)
Definition int (s : pystr) : exc Z :=
  let t := strip_by is_int_space s in
  let r :=
    match t with
    | c :: body =>
        if ascii_eqb c "-" then Z.opp <$> int_digits body
        else if ascii_eqb c "+" then int_digits body
        else int_digits t
    | [] => None
    end in
  match r with
  | Some n => Return n
  | None => Raise ValueError
  end.

(** ** Time formatting *)

(** [_format_time]: seconds as MM:SS, or HH:MM:SS from one hour on. [//] and
    [%] of Python round towards minus infinity, as [Z.div] and [Z.modulo]
    do for a positive divisor. *)
Definition _format_time (seconds : Z) : pystr :=
  let hours := seconds / 3600 in
  let minutes := (seconds mod 3600) / 60 in
  let secs := seconds mod 60 in
  if 0 <? hours
  then format_0d 2 hours ++ py ":" ++ format_0d 2 minutes ++ py ":" ++ format_0d 2 secs
  else format_0d 2 minutes ++ py ":" ++ format_0d 2 secs.

(** [_parse_time]: MM:SS or HH:MM:SS to seconds, [0] for any other number
    of fields. *)
Definition _parse_time (time_str : pystr) : exc Z :=
  let parts := split_on ":" time_str in
  match parts with
  | [p0; p1] =>
      a ← int p0; b ← int p1; Return (a * 60 + b)
  | [p0; p1; p2] =>
      a ← int p0; b ← int p1; c ← int p2;
      Return (a * 3600 + b * 60 + c)
  | _ => Return 0
  end.


(** ** Dates *)

(** The part of the [datetime] module that the program uses. A value of
    Python's [datetime] class is a record of its fields; the month is kept
    as an enumeration, which is what makes [%B] total. A time stamp is
    stored by the program as [dt.isoformat()] and read back with
    [datetime.fromisoformat], which are inverse to each other, so the
    ['timestamp'] field of an entry is modelled by the [datetime] it
    denotes. *)
Module Datetime.

Inductive month : Type :=
| January | February | March | April | May | June
| July | August | September | October | November | December.

#[global] Instance month_eq_dec : EqDecision month.
Proof. solve_decision. Defined.

Definition months : list month :=
  [January; February; March; April; May; June;
   July; August; September; October; November; December].

Definition month_number (m : month) : Z :=
  match m with
  | January => 1 | February => 2 | March => 3 | April => 4
  | May => 5 | June => 6 | July => 7 | August => 8
  | September => 9 | October => 10 | November => 11 | December => 12
  end.

(** The full month names of [%B] in the C locale. [strptime] matches them
    without regard to case. *)
Definition month_name (m : month) : pystr :=
  match m with
  | January => py "January" | February => py "February"
  | March => py "March" | April => py "April" | May => py "May"
  | June => py "June" | July => py "July" | August => py "August"
  | September => py "September" | October => py "October"
  | November => py "November" | December => py "December"
  end.

Record datetime : Type := mk_datetime {
  year : Z;
  month_of : month;
  day : Z;
  hour : Z;
  minute : Z;
  second : Z;
  microsecond : Z
}.

#[global] Instance datetime_eq_dec : EqDecision datetime.
Proof. solve_decision. Defined.

Definition is_leap (y : Z) : bool :=
  ((y mod 4 =? 0) && negb (y mod 100 =? 0)) || (y mod 400 =? 0).

Definition days_in_month (y : Z) (m : month) : Z :=
  match m with
  | February => if is_leap y then 29 else 28
  | April | June | September | November => 30
  | _ => 31
  end.

(** The dates that a [datetime] object can hold. *)
Definition valid_date (dt : datetime) : bool :=
  (1 <=? year dt) && (year dt <=? 9999)
  && (1 <=? day dt) && (day dt <=? days_in_month (year dt) (month_of dt)).

(** [datetime(y, m, d)]: midnight of a day. *)
Definition midnight (y : Z) (m : month) (d : Z) : datetime :=
  mk_datetime y m d 0 0 0 0.

(** [datetime.min]. *)
Definition datetime_min : datetime := midnight 1 January 1.

(** The calendar day of a time stamp. *)
Definition date_of (dt : datetime) : Z * month * Z :=
  (year dt, month_of dt, day dt).

Definition fields (dt : datetime) : list Z :=
  [year dt; month_number (month_of dt); day dt;
   hour dt; minute dt; second dt; microsecond dt].

Fixpoint lex_ltb (a b : list Z) : bool :=
  match a, b with
  | x :: a', y :: b' => (x <? y) || ((x =? y) && lex_ltb a' b')
  | [], _ :: _ => true
  | _, [] => false
  end.

(** [a < b] on [datetime] objects. *)
Definition datetime_ltb (a b : datetime) : bool := lex_ltb (fields a) (fields b).

(** [dt.strftime('%d %B %Y')], with the year on four digits. *)
Definition strftime (dt : datetime) : pystr :=
  format_0d 2 (day dt) ++ py " " ++ month_name (month_of dt) ++ py " "
  ++ format_0d 4 (year dt).

Definition parse_month (s : pystr) : option month :=
  find (fun m => pystr_eqb (lower (month_name m)) (lower s)) months.

(** [datetime.strptime(s, '%d %B %Y')] on a string without white space at
    either end (the program strips the string first): one or two digits of
    a day from 1 to 31, a month name, four digits of a year, separated by
    white space, and the day must exist in that month. [None] stands for
    the [ValueError] raised otherwise. *)
Definition strptime (s : pystr) : option datetime :=
  match words s with
  | [d; b; y] =>
      if all_decimal d && (1 <=? Z.of_nat (length d)) && (Z.of_nat (length d) <=? 2)
         && all_decimal y && (Z.of_nat (length y) =? 4)
      then
        m ← parse_month b;
        dv ← int_digits d;
        yv ← int_digits y;
        let dt := midnight yv m dv in
        if valid_date dt then Some dt else None
      else None
  | _ => None
  end.

End Datetime.
Export Datetime.

(** ** The application state *)

(** An element of [self.workout_data]: a dict with the keys ['exercise'],
    ['time'], ['bpm'] and ['timestamp']. Both places that build one
    ([_create_exercise_data] and [load_data]) set the four keys. *)
Record workout : Type := mk_workout {
  exercise : pystr;
  time : pystr;
  bpm : pystr;
  timestamp : datetime
}.

#[global] Instance workout_eq_dec : EqDecision workout.
Proof. solve_decision. Defined.

(** The message boxes that the modelled methods open. *)
Inductive message : Type :=
| showerror (title text : pystr)
| showinfo (title text : pystr).

(** The fields of the application object, followed by what the methods do
    to the outside: the text of the timer label, the content of the file
    [self.data_file] ([None] while the file does not exist), the number of
    times that file was written and the message boxes shown. *)
Record trainer : Type := mk_trainer {
  current_exercise : pystr;
  timer_running : bool;
  elapsed_time : Z;
  workout_data : list workout;
  metronome_running : bool;
  metronome_bpm : Z;
  metronome_was_running_before_pause : bool;
  time_label : pystr;
  data_file : option pystr;
  data_file_writes : nat;
  messages : list message
}.

Definition set_current_exercise (v : pystr) (a : trainer) : trainer :=
  mk_trainer v (timer_running a) (elapsed_time a) (workout_data a)
    (metronome_running a) (metronome_bpm a)
    (metronome_was_running_before_pause a) (time_label a) (data_file a)
    (data_file_writes a) (messages a).

Definition set_timer_running (v : bool) (a : trainer) : trainer :=
  mk_trainer (current_exercise a) v (elapsed_time a) (workout_data a)
    (metronome_running a) (metronome_bpm a)
    (metronome_was_running_before_pause a) (time_label a) (data_file a)
    (data_file_writes a) (messages a).

Definition set_elapsed_time (v : Z) (a : trainer) : trainer :=
  mk_trainer (current_exercise a) (timer_running a) v (workout_data a)
    (metronome_running a) (metronome_bpm a)
    (metronome_was_running_before_pause a) (time_label a) (data_file a)
    (data_file_writes a) (messages a).

Definition set_workout_data (v : list workout) (a : trainer) : trainer :=
  mk_trainer (current_exercise a) (timer_running a) (elapsed_time a) v
    (metronome_running a) (metronome_bpm a)
    (metronome_was_running_before_pause a) (time_label a) (data_file a)
    (data_file_writes a) (messages a).

Definition set_metronome_running (v : bool) (a : trainer) : trainer :=
  mk_trainer (current_exercise a) (timer_running a) (elapsed_time a)
    (workout_data a) v (metronome_bpm a)
    (metronome_was_running_before_pause a) (time_label a) (data_file a)
    (data_file_writes a) (messages a).

Definition set_metronome_bpm (v : Z) (a : trainer) : trainer :=
  mk_trainer (current_exercise a) (timer_running a) (elapsed_time a)
    (workout_data a) (metronome_running a) v
    (metronome_was_running_before_pause a) (time_label a) (data_file a)
    (data_file_writes a) (messages a).

Definition set_time_label (v : pystr) (a : trainer) : trainer :=
  mk_trainer (current_exercise a) (timer_running a) (elapsed_time a)
    (workout_data a) (metronome_running a) (metronome_bpm a)
    (metronome_was_running_before_pause a) v (data_file a)
    (data_file_writes a) (messages a).

(** Opening [self.data_file] with mode ['w'] and writing [content]. *)
Definition write_data_file (content : pystr) (a : trainer) : trainer :=
  mk_trainer (current_exercise a) (timer_running a) (elapsed_time a)
    (workout_data a) (metronome_running a) (metronome_bpm a)
    (metronome_was_running_before_pause a) (time_label a) (Some content)
    (S (data_file_writes a)) (messages a).

Definition messagebox (m : message) (a : trainer) : trainer :=
  mk_trainer (current_exercise a) (timer_running a) (elapsed_time a)
    (workout_data a) (metronome_running a) (metronome_bpm a)
    (metronome_was_running_before_pause a) (time_label a) (data_file a)
    (data_file_writes a) (messages a ++ [m]).

(** The fields as [__init__] sets them, before the files are loaded. *)
Definition init_trainer (file : option pystr) : trainer :=
  mk_trainer [] false 0 [] false 120 false [] file 0 [].

(** ** The session timer *)

(** [update_timer]: the label shows the elapsed time, then the elapsed time
    grows by one. The callback schedules itself again after a second; the
    runs that follow are further applications of the function. *)
Definition update_timer (a : trainer) : trainer :=
  if timer_running a
  then set_elapsed_time (elapsed_time a + 1)
         (set_time_label (_format_time (elapsed_time a)) a)
  else a.

(** The end of [start_timer]: the timer is switched on, the elapsed time is
    reset, and [update_timer] runs for the first time. *)
Definition reset_timer (a : trainer) : trainer :=
  set_elapsed_time 0 (set_timer_running true a).

Definition start_timer (a : trainer) : trainer := update_timer (reset_timer a).

(** [n] runs of the callback [update_timer]. *)
Definition ticks (n : nat) (a : trainer) : trainer := Nat.iter n update_timer a.

Definition _stop_metronome (a : trainer) : trainer := set_metronome_running false a.

Definition finish_exercise (a : trainer) : trainer := set_timer_running false a.

Definition cancel_exercise (a : trainer) : trainer :=
  _stop_metronome (set_timer_running false a).

(** [_create_exercise_data]; [now] is the value of [datetime.now()]. *)
Definition _create_exercise_data (now : datetime) (bpm : pystr) (a : trainer) : workout :=
  let time_str := _format_time (elapsed_time a - 1) in
  mk_workout (current_exercise a) time_str bpm now.

(** ** The metronome tempo *)

Definition change_bpm (delta : Z) (a : trainer) : trainer :=
  let new_bpm := metronome_bpm a + delta in
  if (30 <=? new_bpm) && (new_bpm <=? 200)
  then set_metronome_bpm new_bpm a
  else a.

Definition bpm_in_range (a : trainer) : Prop := 30 <= metronome_bpm a <= 200.

(** The states that a sequence of tempo changes goes through. *)
Fixpoint bpm_trace (a : trainer) (deltas : list Z) : list trainer :=
  a :: match deltas with
       | [] => []
       | delta :: deltas' => bpm_trace (change_bpm delta a) deltas'
       end.

(** ** The workout log and its markdown file *)

(** A Python dict from day texts to lists, in insertion order.
    [setdefault_append k v d] is [d.setdefault(k, []).append(v)]. *)
Fixpoint setdefault_append (k : pystr) (v : workout)
    (d : list (pystr * list workout)) : list (pystr * list workout) :=
  match d with
  | [] => [(k, [v])]
  | (k', vs) :: d' =>
      if pystr_eqb k k' then (k', vs ++ [v]) :: d'
      else (k', vs) :: setdefault_append k v d'
  end.

(** [d[k]]; the keys asked for are keys of [d]. *)
Fixpoint getitem (d : list (pystr * list workout)) (k : pystr) : list workout :=
  match d with
  | [] => []
  | (k', vs) :: d' => if pystr_eqb k k' then vs else getitem d' k
  end.

Definition keys (d : list (pystr * list workout)) : list pystr := map fst d.

Definition _group_data_by_days (data : list workout) : list (pystr * list workout) :=
  fold_left (fun days_data w => setdefault_append (strftime (timestamp w)) w days_data)
    data [].

(** The key function of [_sort_dates]. *)
Definition date_key (date_str : pystr) : datetime :=
  match strptime date_str with
  | Some dt => dt
  | None => datetime_min
  end.

(** [sorted(l, key=date_key, reverse=True)]: a stable sort, greatest key
    first; elements with equal keys keep their order. *)
Fixpoint insert_desc (x : pystr) (l : list pystr) : list pystr :=
  match l with
  | [] => [x]
  | y :: l' =>
      if datetime_ltb (date_key x) (date_key y) then y :: insert_desc x l'
      else x :: y :: l'
  end.

Definition _sort_dates (date_strings : list pystr) : list pystr :=
  fold_right insert_desc [] date_strings.

(** Line feed and carriage return. *)
Definition NL : ascii := "010"%char.

Definition CR : ascii := "013"%char.

(** One row of the table, as [save_data] writes it. *)
Definition row_text (w : workout) : pystr :=
  py "| " ++ exercise w ++ py " | " ++ time w ++ py " | " ++ bpm w ++ py " |" ++ [NL].

Definition day_text (days_data : list (pystr * list workout)) (date : pystr) : pystr :=
  py "## " ++ date ++ [NL; NL]
  ++ py "| Exercise Name | Time  | BPM |" ++ [NL]
  ++ py "| ------------------- | ------ | --- |" ++ [NL]
  ++ concat (map row_text (getitem days_data date))
  ++ [NL].

(** Everything that [save_data] writes to the file. *)
Definition markdown_of (data : list workout) : pystr :=
  let days_data := _group_data_by_days data in
  py "# Guitar Exercises" ++ [NL; NL]
  ++ match days_data with
     | [] => py "Workout history is empty." ++ [NL]
     | _ => concat (map (day_text days_data) (_sort_dates (keys days_data)))
     end.

(** A row of the table without the line feed at its end. *)
Definition row_line (w : workout) : pystr :=
  py "| " ++ exercise w ++ py " | " ++ time w ++ py " | " ++ bpm w ++ py " |".

(** The day of an entry, as the file names it. *)
Definition day_of (w : workout) : pystr := strftime (timestamp w).

(** Lines, each closed by a line feed. *)
Definition unlines (ls : list pystr) : pystr := concat (map (fun l => l ++ [NL]) ls).

(** The lines of the block of a day. *)
Definition day_lines (days_data : list (pystr * list workout)) (date : pystr) : list pystr :=
  [py "## " ++ date; []; py "| Exercise Name | Time  | BPM |";
   py "| ------------------- | ------ | --- |"]
  ++ map row_line (getitem days_data date) ++ [[]].

(** The lines of the file that [save_data] writes. *)
Definition file_lines (data : list workout) : list pystr :=
  let days_data := _group_data_by_days data in
  [py "# Guitar Exercises"; []]
  ++ match days_data with
     | [] => [py "Workout history is empty."]
     | _ => concat (map (day_lines days_data) (_sort_dates (keys days_data)))
     end.

(** [save_data]. A failure of the file system, which the method reports on
    the console and otherwise ignores, is not modelled. *)
Definition save_data (a : trainer) : trainer :=
  write_data_file (markdown_of (workout_data a)) a.

(** The body of the loop of [load_data] over the lines of the file. The
    state of the loop is the current day header and the entries read so
    far; [now] is the value of [datetime.now()]. *)
Definition load_line (now : datetime)
    (st : option pystr * list workout) (line : pystr) : option pystr * list workout :=
  let '(current_date, data) := st in
  if startswith (py "## ") line then (Some (strip (drop 3 line)), data)
  else
    match current_date with
    | Some ((_ :: _) as date) =>
        if startswith (py "| ") line && negb (startswith (py "| ---") line)
           && negb (contains (py "BPM") line)
        then
          let parts := split_on "|" line in
          match parts with
          | _ :: p1 :: p2 :: p3 :: _ =>
              let exercise := strip p1 in
              if negb (pystr_eqb exercise []) && negb (startswith (py "-") exercise)
                 && negb (pystr_eqb exercise (py "Exercise Name"))
              then
                let timestamp :=
                  match strptime date with
                  | Some dt => dt
                  | None => now
                  end in
                (current_date, data ++ [mk_workout exercise (strip p2) (strip p3) timestamp])
              else st
          | _ => st
          end
        else st
    | _ => st
    end.

(** The time stamp that [load_data] gives to the rows of a day. *)
Definition stamp (now : datetime) (date : pystr) : datetime :=
  match strptime date with
  | Some dt => dt
  | None => now
  end.

(** An entry with another time stamp. *)
Definition relabel (dt : datetime) (w : workout) : workout :=
  mk_workout (exercise w) (time w) (bpm w) dt.

(** An entry as the file keeps it: the time of day is gone, the day
    stays. *)
Definition at_midnight (w : workout) : workout :=
  relabel (midnight (year (timestamp w)) (month_of (timestamp w)) (day (timestamp w))) w.

(** The entries that [load_data] reads from the text of the file. *)
Definition parse_markdown (now : datetime) (content : pystr) : list workout :=
  snd (fold_left (load_line now) (split_on NL content) (None, [])).

(** [load_data]: nothing happens when the file does not exist. The file is
    read in text mode, which hands back the text that was written as long
    as that text has no carriage return in it. *)
Definition load_data (now : datetime) (a : trainer) : trainer :=
  match data_file a with
  | Some content => set_workout_data (parse_markdown now content) a
  | None => a
  end.

(** [_save_workout_data]: the new state and the value returned. *)
Definition _save_workout_data (now : datetime) (bpm : pystr) (a : trainer) : trainer * bool :=
  let a := _stop_metronome a in
  if negb (isdigit bpm)
  then (messagebox (showerror (py "Error") (py "BPM must be a number!")) a, false)
  else
    let a := set_workout_data (workout_data a ++ [_create_exercise_data now bpm a]) a in
    (save_data a, true).

(** [l.remove(x)]: the first element equal to [x] goes. Python raises
    [ValueError] when there is none; the program only removes elements that
    it has found in the list, and the function then returns the list. *)
Fixpoint list_remove {A} `{EqDecision A} (x : A) (l : list A) : list A :=
  match l with
  | [] => []
  | y :: l' => if decide (x = y) then l' else y :: list_remove x l'
  end.

(** [delete_day]; [confirmed] is the answer to the question that
    [messagebox.askyesno] puts. *)
Definition delete_day (date : pystr) (confirmed : bool) (a : trainer) : trainer :=
  let day_workouts :=
    filter (fun d => strftime (timestamp d) = date) (workout_data a) in
  match day_workouts with
  | [] => messagebox (showinfo (py "Information") (py "No workouts found for this day!")) a
  | _ =>
      if confirmed then
        let data := fold_left (fun data w => list_remove w data) day_workouts (workout_data a) in
        let a := save_data (set_workout_data data a) in
        messagebox (showinfo (py "Success")
                      (py "Day " ++ date ++ py " deleted! Deleted "
                       ++ str_of_int (Z.of_nat (length day_workouts)) ++ py " workouts.")) a
      else a
  end.

(** ** Statistics *)

Record stats : Type := mk_stats {
  total_sessions : Z;
  total_time_seconds : Z;
  total_time_formatted : pystr;
  avg_bpm : Z
}.

(** [try: ... except ValueError: ...] *)
Definition try_except {A} (m : exc A) (handler : A) : A :=
  match m with
  | Return a => a
  | Raise ValueError => handler
  end.

(** One turn of the loop of [get_exercise_stats] over the matching
    entries; the state is [(total_seconds, total_bpm, valid_bpm_count)]. *)
Definition stats_step (acc : Z * Z * Z) (data : workout) : exc (Z * Z * Z) :=
  let '(total_seconds, total_bpm, valid_bpm_count) := acc in
  t ← _parse_time (time data);
  let total_seconds := total_seconds + t in
  Return
    (try_except
       (if isdigit (bpm data)
        then n ← int (bpm data);
             Return (total_seconds, total_bpm + n, valid_bpm_count + 1)
        else Return (total_seconds, total_bpm, valid_bpm_count))
       (total_seconds, total_bpm, valid_bpm_count)).

(** A [for] loop whose body may raise. *)
Fixpoint for_each {A S} (body : S → A → exc S) (l : list A) (s : S) : exc S :=
  match l with
  | [] => Return s
  | x :: l' => s' ← body s x; for_each body l' s'
  end.

Definition get_exercise_stats (exercise_name : pystr) (a : trainer) : exc stats :=
  let exercise_data :=
    filter (fun data => exercise data = exercise_name) (workout_data a) in
  match exercise_data with
  | [] => Return (mk_stats 0 0 (py "00:00") 0)
  | _ =>
      '(total_seconds, total_bpm, valid_bpm_count) ←
        for_each stats_step exercise_data (0, 0, 0);
      let total_time_formatted := _format_time total_seconds in
      let avg_bpm :=
        if 0 <? valid_bpm_count then total_bpm / valid_bpm_count else 0 in
      Return (mk_stats (Z.of_nat (length exercise_data)) total_seconds
                total_time_formatted avg_bpm)
  end.

Definition best_step (exercise_name : pystr) (best : Z) (data : workout) : exc Z :=
  if bool_decide (exercise data = exercise_name) && isdigit (bpm data)
  then n ← int (bpm data); Return (Z.max best n)
  else Return best.

Definition get_best_bpm (exercise_name : pystr) (a : trainer) : exc Z :=
  for_each (best_step exercise_name) (workout_data a) 0.

(** The value of a string of decimal digits. *)
Definition horner (s : pystr) : Z :=
  fold_left (fun acc c => 10 * acc + digit_val c) s 0.

(** What the specification calls a numeric bpm: the value of a token that
    is a decimal numeral, read independently of [int]. *)
Definition decimal_value (tok : pystr) : option Z :=
  match tok with
  | [] => None
  | _ => if all_decimal tok then Some (horner tok) else None
  end.

Definition numeric_bpms (exercise_name : pystr) (log : list workout) : list Z :=
  omap (fun w => if decide (exercise w = exercise_name)
                 then decimal_value (bpm w) else None) log.


(** The maximum of the numeric values, [0] without any. *)
Definition spec_best_bpm (exercise_name : pystr) (log : list workout) : Z :=
  fold_right Z.max 0 (numeric_bpms exercise_name log).



(** What the specification calls a positive integer: a decimal numeral of
    a value above zero. *)
Definition positive_integer (b : pystr) : bool :=
  match decimal_value b with
  | Some n => 0 <? n
  | None => false
  end.



(** ** The texts that a row of the table can carry *)

(** A duration text: two or three fields of decimal digits, none empty,
    separated by colons. *)
Definition digits_field (s : pystr) : bool :=
  negb (pystr_eqb s []) && all_decimal s.

Definition valid_duration (t : pystr) : bool :=
  match split_on ":" t with
  | [a; b] => digits_field a && digits_field b
  | [a; b; c] => digits_field a && digits_field b && digits_field c
  | _ => false
  end.

(** A bpm token that [_save_workout_data] accepts. *)
Definition valid_bpm (b : pystr) : bool := isdigit b.

(** An exercise name that survives a row of the table: not empty, no
    vertical bar, line feed or carriage return in it, no white space at
    either end, no ["BPM"] in it, no hyphen in front, and not the title of
    the first column. *)
Definition row_safe_name (n : pystr) : bool :=
  negb (pystr_eqb n [])
  && forallb (fun c => negb (ascii_eqb c "|") && negb (ascii_eqb c NL)
                       && negb (ascii_eqb c CR)) n
  && pystr_eqb (strip n) n
  && negb (contains (py "BPM") n)
  && negb (startswith (py "-") n)
  && negb (pystr_eqb n (py "Exercise Name")).

(** Two entries agree on what the file keeps of an entry. *)
Definition same_row (w w' : workout) : Prop :=
  exercise w' = exercise w ∧ time w' = time w ∧ bpm w' = bpm w
  ∧ date_of (timestamp w') = date_of (timestamp w).

(** An entry whose three texts go through the table unchanged. *)
Definition row_ok (w : workout) : bool :=
  row_safe_name (exercise w) && valid_duration (time w) && valid_bpm (bpm w)
  && valid_date (timestamp w).

(** ** The exercise catalog *)

Module Catalog.

Record info_rec : Type := mk_info { link : pystr; note : pystr }.

(** [self.exercises_structure]: the keys ['root'], ['folders'] and ['info'],
    which [load_exercise_structure] makes sure are present.
    [save_exercise_structure] dumps the structure to a file without
    changing it and is left out. *)
Record catalog : Type := mk_catalog {
  root : list pystr;
  folders : gmap pystr (list pystr);
  info : gmap pystr info_rec
}.

(** The names that [flatten_exercises] collects. The method returns them
    sorted; the program only asks which names are in the result. *)
Definition flatten_exercises (c : catalog) : gset pystr :=
  list_to_set (root c) ∪ ⋃ (list_to_set <$> (map_to_list (folders c)).*2).

(** [if x in l: l.remove(x)] *)
Definition discard (x : pystr) (l : list pystr) : list pystr :=
  if bool_decide (x ∈ l) then list_remove x l else l.

(** [if x not in l: l.append(x)] *)
Definition append_new (x : pystr) (l : list pystr) : list pystr :=
  if bool_decide (x ∈ l) then l else l ++ [x].

(** The loop that replaces the first [old] of a list by [new]. *)
Fixpoint replace_first (old new : pystr) (l : list pystr) : list pystr :=
  match l with
  | [] => []
  | n :: l' => if decide (n = old) then new :: l' else n :: replace_first old new l'
  end.

(** [create_folder], on the text of the entry field. *)
Definition create_folder (text : pystr) (c : catalog) : catalog :=
  let folder_name := strip text in
  match folder_name with
  | [] => c
  | _ =>
      match folders c !! folder_name with
      | Some _ => c
      | None => mk_catalog (root c) (<[folder_name := []]> (folders c)) (info c)
      end
  end.

(** [add_now] of [open_add_exercise_dialog], on the texts of the dialog;
    [folder] is ["Root"] or the name of a folder. The two warnings leave
    the structure as it is. *)
Definition add_now (name_text folder link_text note_text : pystr) (c : catalog) : catalog :=
  let name := strip name_text in
  match name with
  | [] => c
  | _ =>
      if bool_decide (name ∈ flatten_exercises c) then c
      else
        let new_info := mk_info (strip link_text) (strip note_text) in
        if pystr_eqb folder (py "Root")
        then mk_catalog (root c ++ [name]) (folders c) (<[name := new_info]> (info c))
        else
          let items := default [] (folders c !! folder) in
          mk_catalog (root c) (<[folder := items ++ [name]]> (folders c))
            (<[name := new_info]> (info c))
  end.

(** [confirm] of [move_selected_to_folder]. *)
Definition confirm (text folder : pystr) (c : catalog) : catalog :=
  let root' := discard text (root c) in
  let folders' := discard text <$> folders c in
  let folder_list := default [] (folders' !! folder) in
  mk_catalog root' (<[folder := append_new text folder_list]> folders') (info c).

(** Where a dragged exercise is dropped. *)
Inductive target : Type :=
| AllExercises
| FolderNode (name : pystr).

(** The end of [on_drag_release], once the row under the pointer is
    known. *)
Definition on_drag_release (dragged_text : pystr) (t : target) (c : catalog) : catalog :=
  let root' := discard dragged_text (root c) in
  let folders' := discard dragged_text <$> folders c in
  match t with
  | AllExercises => mk_catalog (append_new dragged_text root') folders' (info c)
  | FolderNode name =>
      let folder_list := default [] (folders' !! strip name) in
      mk_catalog root' (<[strip name := append_new dragged_text folder_list]> folders') (info c)
  end.

(** [delete_exercise]; [confirmed] is the answer to the question asked. *)
Definition delete_exercise (exercise : pystr) (confirmed : bool) (c : catalog) : catalog :=
  if confirmed
  then mk_catalog (discard exercise (root c)) (discard exercise <$> folders c)
         (delete exercise (info c))
  else c.

(** [do_rename] of [rename_selected_exercise], on the text typed. *)
Definition do_rename (old_name text : pystr) (c : catalog) : catalog :=
  let new_name := strip text in
  if pystr_eqb new_name [] || pystr_eqb new_name old_name then c
  else
    mk_catalog (replace_first old_name new_name (root c))
      (replace_first old_name new_name <$> folders c)
      (match info c !! old_name with
       | Some i => <[new_name := i]> (delete old_name (info c))
       | None => info c
       end).

(** A place that holds exercise names. *)
Inductive container : Type :=
| Root
| Folder (name : pystr).

Definition holds (c : catalog) (k : container) (x : pystr) : Prop :=
  match k with
  | Root => x ∈ root c
  | Folder f => ∃ items, folders c !! f = Some items ∧ x ∈ items
  end.

(** Every name is in at most one container. *)
Definition single_location (c : catalog) : Prop :=
  ∀ x k1 k2, holds c k1 x → holds c k2 x → k1 = k2.

(** The containers are sets: no list holds a name twice. *)
Definition no_repeats (c : catalog) : Prop :=
  NoDup (root c) ∧ ∀ f items, folders c !! f = Some items → NoDup items.

Definition catalog_ok (c : catalog) : Prop := single_location c ∧ no_repeats c.

(** The structure once [text] is taken out of the root list and of every
    folder. *)
Definition without (text : pystr) (c : catalog) : catalog :=
  mk_catalog (discard text (root c)) (discard text <$> folders c) (info c).

(** The structure once [text] is put in the folder [folder], at the end of
    its list unless it is there already. *)
Definition in_folder (text folder : pystr) (c : catalog) : catalog :=
  mk_catalog (root c)
    (<[folder := append_new text (default [] (folders c !! folder))]> (folders c))
    (info c).

(** The structure once [text] is put in the root list. *)
Definition in_root (text : pystr) (c : catalog) : catalog :=
  mk_catalog (append_new text (root c)) (folders c) (info c).

(** The commands of the catalog. *)
Inductive command : Type :=
| CreateFolder (text : pystr)
| AddExercise (name_text folder link_text note_text : pystr)
| Move (text folder : pystr)
| Drop (dragged_text : pystr) (t : target)
| Delete (exercise : pystr) (confirmed : bool)
| Rename (old_name text : pystr).

Definition run (c : catalog) (k : command) : catalog :=
  match k with
  | CreateFolder text => create_folder text c
  | AddExercise n f l t => add_now n f l t c
  | Move text folder => confirm text folder c
  | Drop d t => on_drag_release d t c
  | Delete e b => delete_exercise e b c
  | Rename o t => do_rename o t c
  end.

Definition is_rename (k : command) : bool :=
  match k with
  | Rename _ _ => true
  | _ => false
  end.

End Catalog.

(** ** Example data *)

Import Catalog.

(** A log with two entries of one day and one entry of the next. *)
Definition two_days : list workout :=
  [mk_workout (py "Scales") (py "00:04") (py "80") (mk_datetime 2024 February 29 10 30 0 0);
   mk_workout (py "Riff") (py "01:04") (py "90") (mk_datetime 2024 March 1 9 0 0 0);
   mk_workout (py "Scales") (py "10:04") (py "100") (mk_datetime 2024 February 29 18 0 0 0)].

(** Two entries of "Scales", with the bpm 80 and 100, on different days. *)
Definition two_scales : list workout :=
  [mk_workout (py "Scales") (py "00:04") (py "80") (mk_datetime 2024 February 29 10 30 0 0);
   mk_workout (py "Riff") (py "01:04") (py "90") (mk_datetime 2024 March 1 9 0 0 0);
   mk_workout (py "Scales") (py "10:04") (py "100") (mk_datetime 2024 March 2 18 0 0 0)].

(** The superscript two, U+00B2. *)
Definition superscript_two : pystr := ["178"%char].

(** A log whose entries all go through the table unchanged. *)
Definition three_rows : list workout :=
  [mk_workout (py "Scales") (py "00:04") (py "80") (mk_datetime 2024 February 29 10 30 0 0);
   mk_workout (py "Riff in A") (py "01:01:01") (py "90") (mk_datetime 2024 March 1 9 0 0 0);
   mk_workout (py "Scales") (py "10:04") (py "100") (mk_datetime 2024 February 29 18 0 0 0)].

Definition empty_catalog : catalog := mk_catalog [] ∅ ∅.

(** The exercise "A" in the root list and the exercise "B" in the folder
    "F", as the commands of the program build them. *)
Definition catalog_A_B : catalog :=
  fold_left run
    [CreateFolder (py "F");
     AddExercise (py "A") (py "Root") (py "") (py "");
     AddExercise (py "B") (py "F") (py "") (py "")]
    empty_catalog.

(** ** Pausing, and the callbacks of the timer *)

Definition set_metronome_was_running_before_pause (v : bool) (a : trainer) : trainer :=
  mk_trainer (current_exercise a) (timer_running a) (elapsed_time a)
    (workout_data a) (metronome_running a) (metronome_bpm a) v
    (time_label a) (data_file a) (data_file_writes a) (messages a).

(** The state together with the number of calls of [update_timer] that
    [self.master.after(1000, self.update_timer)] has scheduled and that
    have not run yet. Nothing in the program cancels such a call. *)
Definition scheduled : Type := trainer * nat.

(** [update_timer] with its last line: a run while the timer is on
    schedules the next run. *)
Definition update_timer_after (s : scheduled) : scheduled :=
  let '(a, pending) := s in
  if timer_running a then (update_timer a, S pending) else (a, pending).

(** One of the scheduled calls comes due and runs. *)
Definition fire (s : scheduled) : scheduled :=
  let '(a, pending) := s in
  match pending with
  | O => s
  | S pending' => update_timer_after (a, pending')
  end.

(** [start_timer], from its reset of the timer on. *)
Definition start_timer_after (s : scheduled) : scheduled :=
  let '(a, pending) := s in update_timer_after (reset_timer a, pending).

(** [pause_timer]: the button that pauses a running timer and resumes a
    paused one. Starting the thread of the metronome is left out; the flag
    that the thread watches is set. *)
Definition pause_timer (s : scheduled) : scheduled :=
  let '(a, pending) := s in
  if timer_running a then
    let a := set_timer_running false a in
    let a := set_metronome_was_running_before_pause (metronome_running a) a in
    (if metronome_running a then _stop_metronome a else a, pending)
  else
    let '(a, pending) := update_timer_after (set_timer_running true a, pending) in
    if metronome_was_running_before_pause a && negb (metronome_running a)
    then (set_metronome_was_running_before_pause false (set_metronome_running true a),
          pending)
    else (a, pending).

(** [toggle_metronome], without the thread. *)
Definition toggle_metronome (a : trainer) : trainer :=
  set_metronome_running (negb (metronome_running a)) a.

(** What can happen on the timer screen between the start of an exercise
    and its end: a scheduled call of [update_timer] comes due, or the user
    presses the pause button, the button of the metronome or one of the
    tempo buttons. *)
Inductive session_event : Type :=
| CallbackDue
| PauseButton
| MetronomeButton
| TempoButton (delta : Z).

Definition session_step (s : scheduled) (e : session_event) : scheduled :=
  match e with
  | CallbackDue => fire s
  | PauseButton => pause_timer s
  | MetronomeButton => (toggle_metronome (fst s), snd s)
  | TempoButton delta => (change_bpm delta (fst s), snd s)
  end.

(** The timer screen from [start_timer] through a list of events. *)
Definition session (events : list session_event) (s : scheduled) : scheduled :=
  fold_left session_step events (start_timer_after s).

(** ** The screen that asks for the bpm *)



(** [finish_workout], on the text of the entry field. *)
Definition finish_workout (now : datetime) (text : pystr) (a : trainer) : trainer :=
  let '(a, ok) := _save_workout_data now text a in
  if ok
  then messagebox (showinfo (py "Workout Completed")
                     (py "Data saved! Returning to main menu.")) a
  else a.

(** [save_and_continue], on the text of the entry field. *)
Definition save_and_continue (now : datetime) (text : pystr) (a : trainer) : trainer :=
  let '(a, ok) := _save_workout_data now text a in
  if ok then set_elapsed_time 0 a else a.

(** ** Totals and the last session of an exercise *)

(** The sum that [get_total_training_time] formats: the parsed durations of
    all entries, added from 0. The text returned starts with a character
    outside the strings of this model and is not built. *)
Definition total_training_seconds (a : trainer) : exc Z :=
  for_each (fun total data => t ← _parse_time (time data); Return (total + t))
    (workout_data a) 0.

(** One turn of the loop of [_get_last_played_timestamp]. *)
Definition last_played_step (exercise_name : pystr)
    (last_ts : option datetime) (data : workout) : option datetime :=
  if bool_decide (exercise data = exercise_name) then
    let ts := timestamp data in
    match last_ts with
    | None => Some ts
    | Some l => if datetime_ltb l ts then Some ts else last_ts
    end
  else last_ts.

Definition _get_last_played_timestamp (exercise_name : pystr) (a : trainer)
    : option datetime :=
  fold_left (last_played_step exercise_name) (workout_data a) None.

Definition get_last_played_date (exercise_name : pystr) (a : trainer) : option pystr :=
  strftime <$> _get_last_played_timestamp exercise_name a.

(** The days before the first of January of a year, and before the first
    of a month in its year, as [datetime] counts them. *)
Definition days_before_year (y : Z) : Z :=
  (y - 1) * 365 + (y - 1) / 4 - (y - 1) / 100 + (y - 1) / 400.

Definition days_before_month (y : Z) (m : month) : Z :=
  let leap := if is_leap y then 1 else 0 in
  match m with
  | January => 0 | February => 31 | March => 59 + leap | April => 90 + leap
  | May => 120 + leap | June => 151 + leap | July => 181 + leap
  | August => 212 + leap | September => 243 + leap | October => 273 + leap
  | November => 304 + leap | December => 334 + leap
  end.

(** [dt.toordinal()]. *)
Definition toordinal (dt : datetime) : Z :=
  days_before_year (year dt) + days_before_month (year dt) (month_of dt) + day dt.

(** The microseconds from the start of day 0 to [dt]. *)
Definition microseconds_of (dt : datetime) : Z :=
  (((toordinal dt * 24 + hour dt) * 60 + minute dt) * 60 + second dt) * 1000000
  + microsecond dt.

(** [(a - b).days]: a [timedelta] keeps its days rounded down. *)
Definition timedelta_days (a b : datetime) : Z :=
  (microseconds_of a - microseconds_of b) / (86400 * 1000000).

(** The values that a [datetime] object can hold. *)
Definition valid_datetime (dt : datetime) : bool :=
  valid_date dt
  && (0 <=? hour dt) && (hour dt <? 24)
  && (0 <=? minute dt) && (minute dt <? 60)
  && (0 <=? second dt) && (second dt <? 60)
  && (0 <=? microsecond dt) && (microsecond dt <? 1000000).

(** [is_stale_exercise]; [stale_days] is [self.stale_days] and [now] the
    value of [datetime.now()]. *)
Definition is_stale_exercise (stale_days : Z) (now : datetime)
    (exercise_name : pystr) (a : trainer) : bool :=
  match _get_last_played_timestamp exercise_name a with
  | None => 0 <? stale_days
  | Some last_ts => stale_days <=? timedelta_days now last_ts
  end.

(** ** More commands of the catalog *)

(** [remove_selected_from_folder]. *)
Definition remove_selected_from_folder (text : pystr) (c : catalog) : catalog :=
  mk_catalog (root c) (discard text <$> folders c) (info c).

(** [do_delete] of [delete_folder_dialog]: the folder is popped and its
    exercises are added to the root list, each unless the list, as it has
    grown by then, holds it. *)
Definition do_delete (folder : pystr) (c : catalog) : catalog :=
  let items := default [] (folders c !! folder) in
  mk_catalog (fold_left (fun root_list ex => append_new ex root_list) items (root c))
    (delete folder (folders c)) (info c).

(** [save_selected_info], on the texts of the two fields. *)
Definition save_selected_info (text link_text note_text : pystr) (c : catalog) : catalog :=
  mk_catalog (root c) (folders c)
    (<[text := mk_info (strip link_text) (strip note_text)]> (info c)).

(** The names of one folder, and [[]] for a folder that does not exist. *)
Definition folder_items (c : catalog) (folder : pystr) : list pystr :=
  default [] (folders c !! folder).

(** The commands of the management screen: those of [command] and the
    three above. *)
Inductive screen_command : Type :=
| Basic (k : command)
| RemoveFromFolder (text : pystr)
| DeleteFolder (folder : pystr)
| SaveInfo (text link_text note_text : pystr).

Definition run_screen (c : catalog) (k : screen_command) : catalog :=
  match k with
  | Basic k => run c k
  | RemoveFromFolder text => remove_selected_from_folder text c
  | DeleteFolder folder => do_delete folder c
  | SaveInfo text link_text note_text => save_selected_info text link_text note_text c
  end.

(** A rename to a name that the catalog does not have. *)
Definition rename_is_fresh (c : catalog) (k : screen_command) : Prop :=
  match k with
  | Basic (Rename _ text) => strip text ∉ flatten_exercises c
  | _ => True
  end.

(** Every rename of a sequence of commands is to a name that the catalog
    does not have when the rename runs. *)
Fixpoint renames_are_fresh (c : catalog) (ks : list screen_command) : Prop :=
  match ks with
  | [] => True
  | k :: ks' => rename_is_fresh c k ∧ renames_are_fresh (run_screen c k) ks'
  end.

(** The container that the dialog of [add_now] names: the root list for
    ["Root"], the folder of that name otherwise. *)
Definition chosen_container (folder : pystr) : container :=
  if pystr_eqb folder (py "Root") then Root else Folder folder.


(** * Properties *)

(** ** Characters and digit strings *)

Lemma ascii_eqb_true a b : ascii_eqb a b = true ↔ a = b.
Proof. unfold ascii_eqb. apply Ascii.eqb_eq. Qed.

Lemma ascii_eqb_false a b : ascii_eqb a b = false ↔ a ≠ b.
Proof. unfold ascii_eqb. apply Ascii.eqb_neq. Qed.

Lemma pystr_eqb_true a b : pystr_eqb a b = true ↔ a = b.
Proof. unfold pystr_eqb. apply bool_decide_eq_true. Qed.

Lemma pystr_eqb_false a b : pystr_eqb a b = false ↔ a ≠ b.
Proof. unfold pystr_eqb. apply bool_decide_eq_false. Qed.

Lemma code_range c : 0 <= code c < 256.
Proof.
  unfold code. pose proof (nat_ascii_bounded c). lia.
Qed.

Lemma code_inj a b : code a = code b → a = b.
Proof.
  unfold code. intros H. apply Nat2Z.inj in H.
  rewrite <- (ascii_nat_embedding a), <- (ascii_nat_embedding b). by rewrite H.
Qed.

Lemma decimal_not_space c : is_decimal c = true → is_space c = false.
Proof. unfold is_decimal, is_space. lia. Qed.

Lemma digit_char_decimal d : 0 <= d <= 9 → is_decimal (digit_char d) = true.
Proof.
  intros H.
  assert (d = 0 ∨ d = 1 ∨ d = 2 ∨ d = 3 ∨ d = 4 ∨ d = 5 ∨ d = 6 ∨ d = 7
          ∨ d = 8 ∨ d = 9) as Hd by lia.
  repeat destruct Hd as [-> | Hd]; try subst d; reflexivity.
Qed.

Lemma digit_val_char d : 0 <= d <= 9 → digit_val (digit_char d) = d.
Proof.
  intros H.
  assert (d = 0 ∨ d = 1 ∨ d = 2 ∨ d = 3 ∨ d = 4 ∨ d = 5 ∨ d = 6 ∨ d = 7
          ∨ d = 8 ∨ d = 9) as Hd by lia.
  repeat destruct Hd as [-> | Hd]; try subst d; reflexivity.
Qed.

Lemma horner_app s c : horner (s ++ [c]) = 10 * horner s + digit_val c.
Proof. unfold horner. by rewrite fold_left_app. Qed.

Lemma all_decimal_app a b :
  all_decimal (a ++ b) = all_decimal a && all_decimal b.
Proof. unfold all_decimal. apply forallb_app. Qed.

Lemma dec_digits_S f n :
  dec_digits (S f) n =
  if n <? 10 then [digit_char n]
  else dec_digits f (n / 10) ++ [digit_char (n mod 10)].
Proof. reflexivity. Qed.

(** [dec_digits] with enough fuel writes a numeral whose value is the
    number. *)
Lemma dec_digits_spec fuel n :
  0 <= n < 2 ^ Z.of_nat (S fuel) →
  all_decimal (dec_digits (S fuel) n) = true
  ∧ dec_digits (S fuel) n ≠ []
  ∧ horner (dec_digits (S fuel) n) = n.
Proof.
  revert n. induction fuel as [|fuel IH]; intros n Hn.
  - assert (n = 0 ∨ n = 1) as [-> | ->] by (simpl in Hn; lia); by vm_compute.
  - rewrite dec_digits_S. destruct (Z.ltb_spec n 10) as [Hlt | Hge].
    + split_and!; [| done |].
      * cbn. rewrite digit_char_decimal by lia. done.
      * unfold horner. cbn. rewrite digit_val_char by lia. lia.
    + assert (0 <= n / 10 < 2 ^ Z.of_nat (S fuel)) as Hq.
      { rewrite Nat2Z.inj_succ, Z.pow_succ_r in Hn by lia.
        split; [apply Z.div_pos; lia |].
        apply Z.div_lt_upper_bound; lia. }
      destruct (IH _ Hq) as (Hd & Hne & Hv).
      split_and!.
      * rewrite all_decimal_app, Hd. cbn.
        rewrite digit_char_decimal; [done |].
        pose proof (Z.mod_pos_bound n 10). lia.
      * intros Happ. by apply app_eq_nil in Happ as [_ ?].
      * rewrite horner_app, Hv, digit_val_char.
        -- pose proof (Z.div_mod n 10 ltac:(lia)). lia.
        -- pose proof (Z.mod_pos_bound n 10). lia.
Qed.

Lemma digits_of_spec n :
  0 <= n →
  all_decimal (digits_of n) = true ∧ digits_of n ≠ [] ∧ horner (digits_of n) = n.
Proof.
  intros Hn. unfold digits_of. apply dec_digits_spec.
  destruct (decide (n = 0)) as [-> | Hne]; [by vm_compute |].
  rewrite Nat2Z.inj_succ, Z2Nat.id by apply Z.log2_nonneg.
  pose proof (Z.log2_spec n). lia.
Qed.

Lemma zfill_spec w s :
  all_decimal s = true → s ≠ [] →
  all_decimal (zfill w s) = true ∧ zfill w s ≠ [] ∧ horner (zfill w s) = horner s.
Proof.
  intros Hs Hne. unfold zfill.
  induction (w - length s)%nat as [|k IH]; [done |].
  destruct IH as (Hd & Hn & Hv). simpl. split_and!.
  - cbn. exact Hd.
  - done.
  - unfold horner in *. cbn. exact Hv.
Qed.

(** The fields that [_format_time] writes are decimal numerals. *)
Lemma format_0d_spec w n :
  0 <= n →
  all_decimal (format_0d w n) = true ∧ format_0d w n ≠ []
  ∧ horner (format_0d w n) = n.
Proof.
  intros Hn. unfold format_0d.
  destruct (Z.ltb_spec n 0); [lia |].
  destruct (digits_of_spec n Hn) as (Hd & Hne & Hv).
  destruct (zfill_spec w _ Hd Hne) as (? & ? & ?). split_and!; congruence.
Qed.

(** ** White space at the ends of a string *)

Lemma forallb_rev {A} (f : A → bool) (l : list A) :
  forallb f (rev l) = forallb f l.
Proof.
  induction l as [|x l IH]; [done |]. simpl.
  rewrite forallb_app, IH. simpl. by rewrite andb_true_r, andb_comm.
Qed.

Section stripping.
Variable p : ascii → bool.

Lemma lstrip_id c s : p c = false → lstrip_by p (c :: s) = c :: s.
Proof. intros H. cbn. by rewrite H. Qed.

Lemma rstrip_snoc s c : p c = false → rstrip_by p (s ++ [c]) = s ++ [c].
Proof.
  intros H. unfold rstrip_by. rewrite rev_app_distr.
  change (rev [c] ++ rev s) with (c :: rev s).
  rewrite lstrip_id by done. rewrite <- (rev_involutive s) at 2.
  change (c :: rev s) with ([c] ++ rev s). by rewrite rev_app_distr.
Qed.

Lemma lstrip_spaces a s :
  forallb p a = true → lstrip_by p (a ++ s) = lstrip_by p s.
Proof.
  induction a as [|c a IH]; [done |]. cbn. intros [Hc Ha]%andb_true_iff.
  rewrite Hc. by apply IH.
Qed.

Lemma rstrip_spaces s a :
  forallb p a = true → rstrip_by p (s ++ a) = rstrip_by p s.
Proof.
  intros Ha. unfold rstrip_by. rewrite rev_app_distr.
  rewrite lstrip_spaces; [done |]. by rewrite forallb_rev.
Qed.

Lemma lstrip_suffix s : ∃ a, s = a ++ lstrip_by p s ∧ forallb p a = true.
Proof.
  induction s as [|c s (a & Hs & Ha)]; [by exists [] |].
  cbn. destruct (p c) eqn:Hc.
  - exists (c :: a). cbn. rewrite Hc, Ha. split; [by f_equal | done].
  - by exists [].
Qed.

Lemma rstrip_prefix s : ∃ a, s = rstrip_by p s ++ a ∧ forallb p a = true.
Proof.
  unfold rstrip_by. destruct (lstrip_suffix (rev s)) as (a & Hs & Ha).
  exists (rev a). split.
  - rewrite <- rev_app_distr, <- Hs. by rewrite rev_involutive.
  - by rewrite forallb_rev.
Qed.

(** Padding a string that is its own [strip_by p] with characters that [p]
    accepts does not show after stripping. *)
Lemma strip_by_pad a s b :
  forallb p a = true → forallb p b = true →
  strip_by p s = s → strip_by p (a ++ s ++ b) = s.
Proof.
  intros Ha Hb Hs. unfold strip_by in *.
  rewrite lstrip_spaces by done.
  destruct s as [|c s].
  - rewrite app_nil_l. destruct (lstrip_suffix b) as (x & Hx & _).
    assert (forallb p (lstrip_by p b) = true) as Hlb.
    { rewrite Hx, forallb_app in Hb. by apply andb_true_iff in Hb as [_ ?]. }
    rewrite <- (app_nil_l (lstrip_by p b)). by rewrite rstrip_spaces.
  - destruct (p c) eqn:Hc.
    + (* such a string does not start with a character that [p] accepts *)
      exfalso. destruct (lstrip_suffix (c :: s)) as (x & Hx & Hsp).
      destruct (rstrip_prefix (lstrip_by p (c :: s))) as (y & Hy & _).
      rewrite Hs in Hy. cbn [lstrip_by] in Hy. rewrite Hc in Hy.
      destruct (lstrip_suffix s) as (z & Hz & _).
      apply (f_equal length) in Hy, Hz. rewrite length_app in Hy, Hz.
      cbn in Hy. lia.
    + change ((c :: s) ++ b) with (c :: (s ++ b)).
      rewrite lstrip_id by done. rewrite lstrip_id in Hs by done.
      change (c :: (s ++ b)) with ((c :: s) ++ b). by rewrite rstrip_spaces.
Qed.

(** A string without any character that [p] accepts is left as it is. *)
Lemma strip_by_id s :
  forallb (fun c => negb (p c)) s = true → strip_by p s = s.
Proof.
  intros H. unfold strip_by. destruct s as [|c s]; [done |].
  cbn in H. apply andb_true_iff in H as [Hc Hs]. apply negb_true_iff in Hc.
  rewrite lstrip_id by done.
  destruct (exists_last (l := c :: s) ltac:(done)) as (s' & d & Heq).
  rewrite Heq. apply rstrip_snoc.
  assert (forallb (λ c, negb (p c)) (c :: s) = true) as Hall.
  { cbn. rewrite Hs. by rewrite (proj2 (negb_true_iff _) Hc). }
  rewrite Heq, forallb_app in Hall. apply andb_true_iff in Hall as [_ Hd].
  cbn in Hd. rewrite andb_true_r in Hd. by apply negb_true_iff.
Qed.

End stripping.

Lemma strip_pad a s b :
  forallb is_space a = true → forallb is_space b = true →
  trimmed s → strip (a ++ s ++ b) = s.
Proof. apply strip_by_pad. Qed.

Lemma trimmed_no_space s :
  forallb (fun c => negb (is_space c)) s = true → trimmed s.
Proof. apply strip_by_id. Qed.

Lemma int_space_is_space c : is_int_space c = true → is_space c = true.
Proof. unfold is_int_space, is_space. lia. Qed.

(** [int] strips nothing from a string without white space. *)
Lemma int_strip_id s :
  forallb (fun c => negb (is_space c)) s = true → strip_by is_int_space s = s.
Proof.
  intros H. apply strip_by_id. rewrite forallb_forall in *. intros c Hc.
  specialize (H c Hc). apply negb_true_iff in H. apply negb_true_iff.
  destruct (is_int_space c) eqn:Hi; [| done].
  apply int_space_is_space in Hi. congruence.
Qed.

Lemma all_decimal_no_space s :
  all_decimal s = true → forallb (fun c => negb (is_space c)) s = true.
Proof.
  unfold all_decimal. rewrite !forallb_forall. intros H c Hc.
  apply negb_true_iff, decimal_not_space. by apply H.
Qed.

(** ** Reading a numeral *)

Lemma int_tail_decimal s acc :
  all_decimal s = true →
  int_tail acc s = Some (fold_left (fun acc c => 10 * acc + digit_val c) s acc).
Proof.
  revert acc. induction s as [|c s IH]; intros acc; [done |].
  cbn. intros [Hc Hs]%andb_true_iff. rewrite Hc. by apply IH.
Qed.

Lemma int_digits_decimal s :
  s ≠ [] → all_decimal s = true → int_digits s = Some (horner s).
Proof.
  destruct s as [|c s]; [done |]. intros _ H. cbn in H.
  apply andb_true_iff in H as [Hc Hs]. unfold int_digits. rewrite Hc.
  rewrite int_tail_decimal by done. unfold horner. cbn.
  by replace (10 * 0 + digit_val c) with (digit_val c) by lia.
Qed.

(** [int] reads a decimal numeral as its value. *)
Lemma int_decimal s :
  s ≠ [] → all_decimal s = true → int s = Return (horner s).
Proof.
  intros Hne Hd.
  assert (strip_by is_int_space s = s) as Htrim
    by by apply int_strip_id, all_decimal_no_space.
  unfold int. cbv zeta. rewrite Htrim.
  destruct s as [|c r]; [done |].
  assert (is_decimal c = true) as Hc.
  { cbn in Hd. by apply andb_true_iff in Hd as [? _]. }
  assert (ascii_eqb c "-" = false) as ->.
  { apply ascii_eqb_false. intros ->. done. }
  assert (ascii_eqb c "+" = false) as ->.
  { apply ascii_eqb_false. intros ->. done. }
  by rewrite int_digits_decimal.
Qed.

(** ** Splitting at a separator *)

Lemma split_on_nonempty sep s : split_on sep s ≠ [].
Proof.
  destruct s as [|c s]; [done |]. cbn.
  destruct (ascii_eqb c sep); [done |]. by destruct (split_on sep s).
Qed.

Lemma split_on_avoids sep s : avoids sep s = true → split_on sep s = [s].
Proof.
  induction s as [|c s IH]; [done |]. cbn.
  intros [Hc Hs]%andb_true_iff. apply negb_true_iff in Hc.
  by rewrite Hc, IH.
Qed.

Lemma split_on_app sep a b :
  avoids sep a = true → split_on sep (a ++ sep :: b) = a :: split_on sep b.
Proof.
  induction a as [|c a IH]; cbn.
  - intros _. by rewrite (proj2 (ascii_eqb_true sep sep)).
  - intros [Hc Ha]%andb_true_iff. apply negb_true_iff in Hc.
    by rewrite Hc, IH.
Qed.

Lemma split_on_sep sep s : split_on sep (sep :: s) = [] :: split_on sep s.
Proof. apply (split_on_app sep [] s). done. Qed.

Lemma avoids_app sep a b : avoids sep (a ++ b) = avoids sep a && avoids sep b.
Proof. apply forallb_app. Qed.

Lemma all_decimal_avoids sep s :
  is_decimal sep = false → all_decimal s = true → avoids sep s = true.
Proof.
  intros Hsep. unfold all_decimal, avoids. rewrite !forallb_forall.
  intros H c Hc. apply negb_true_iff, ascii_eqb_false. intros ->.
  specialize (H _ Hc). congruence.
Qed.

(** ** Formatting and parsing a duration *)

Lemma format_time_short s :
  s / 3600 <= 0 →
  _format_time s = format_0d 2 ((s mod 3600) / 60) ++ ":"%char :: format_0d 2 (s mod 60).
Proof.
  intros H. unfold _format_time. destruct (Z.ltb_spec 0 (s / 3600)); [lia | done].
Qed.

Lemma format_time_long s :
  0 < s / 3600 →
  _format_time s =
  format_0d 2 (s / 3600) ++ ":"%char :: format_0d 2 ((s mod 3600) / 60)
  ++ ":"%char :: format_0d 2 (s mod 60).
Proof.
  intros H. unfold _format_time. destruct (Z.ltb_spec 0 (s / 3600)); [done | lia].
Qed.

Lemma parse_time_2 a b :
  a ≠ [] → b ≠ [] → all_decimal a = true → all_decimal b = true →
  _parse_time (a ++ ":"%char :: b) = Return (horner a * 60 + horner b).
Proof.
  intros Ha Hb Hda Hdb. unfold _parse_time.
  rewrite split_on_app by by apply all_decimal_avoids.
  rewrite split_on_avoids by by apply all_decimal_avoids.
  by rewrite !int_decimal.
Qed.

Lemma parse_time_3 a b c :
  a ≠ [] → b ≠ [] → c ≠ [] →
  all_decimal a = true → all_decimal b = true → all_decimal c = true →
  _parse_time (a ++ ":"%char :: b ++ ":"%char :: c)
  = Return (horner a * 3600 + horner b * 60 + horner c).
Proof.
  intros Ha Hb Hc Hda Hdb Hdc. unfold _parse_time.
  rewrite !split_on_app by by apply all_decimal_avoids.
  rewrite split_on_avoids by by apply all_decimal_avoids.
  by rewrite !int_decimal.
Qed.

(** [_parse_time] undoes [_format_time] on every duration. *)
Lemma parse_format_time s : 0 <= s → _parse_time (_format_time s) = Return s.
Proof.
  intros Hs.
  assert (0 <= s mod 60) by (apply Z.mod_pos_bound; lia).
  assert (0 <= (s mod 3600) / 60) by (apply Z.div_pos; [apply Z.mod_pos_bound |]; lia).
  destruct (format_0d_spec 2 (s mod 60)) as (Hd1 & Hn1 & Hv1); [done |].
  destruct (format_0d_spec 2 ((s mod 3600) / 60)) as (Hd2 & Hn2 & Hv2); [done |].
  destruct (Z.ltb_spec 0 (s / 3600)) as [Hh | Hh].
  - destruct (format_0d_spec 2 (s / 3600)) as (Hd3 & Hn3 & Hv3); [lia |].
    rewrite format_time_long, parse_time_3 by done.
    rewrite Hv1, Hv2, Hv3. f_equal. 
    Z.to_euclidean_division_equations. lia.
  - rewrite format_time_short, parse_time_2 by done.
    rewrite Hv1, Hv2. f_equal. Z.to_euclidean_division_equations. lia.
Qed.

(** C5. [_format_time] gives "01:05" for 65 and "01:01:01" for 3661,
    [_parse_time] reads them back as 65 and 3661, and for every [s] with
    [0 <= s < 24*3600] parsing the formatted text gives [s]: the returned
    value is [s], no exception is raised. *)
Theorem format_parse_time_inverse :
  _format_time 65 = py "01:05"
  ∧ _format_time 3661 = py "01:01:01"
  ∧ _parse_time (py "01:05") = Return 65
  ∧ _parse_time (py "01:01:01") = Return 3661
  ∧ ∀ s, 0 <= s < 24 * 3600 → _parse_time (_format_time s) = Return s.
Proof.
  split_and!; try reflexivity.
  intros s [Hs _]. by apply parse_format_time.
Qed.

Lemma format_parse_time_inverse_witness :
  0 <= 86399 < 24 * 3600 ∧ _parse_time (_format_time 86399) = Return 86399.
Proof.
  split; [lia |].
  apply (proj2 (proj2 (proj2 (proj2 format_parse_time_inverse))) 86399). lia.
Defined.

(** C9. [_format_time (-1)] is the text "59:59": the hours are [-1], which
    is not above zero and so is left out, the minutes and the seconds are
    59. This is the text recorded when an entry is made while the elapsed
    time is 0. *)
Theorem format_time_minus_one :
  _format_time (-1) = py "59:59"
  ∧ (-1) / 3600 = -1 ∧ ((-1) mod 3600) / 60 = 59 ∧ (-1) mod 60 = 59
  ∧ ∀ now bpm a,
      time (_create_exercise_data now bpm (set_elapsed_time 0 a)) = py "59:59".
Proof. split_and!; reflexivity. Qed.

(** C10. A text whose split at the colons has neither two nor three fields
    is parsed as 0, and no exception is raised. *)
Theorem parse_time_other_field_count (time_str : pystr) :
  length (split_on ":" time_str) ≠ 2%nat →
  length (split_on ":" time_str) ≠ 3%nat →
  _parse_time time_str = Return 0.
Proof.
  unfold _parse_time. intros H2 H3.
  destruct (split_on ":" time_str) as [|p0 [|p1 [|p2 [|p3 ps]]]]; cbn in *; done.
Qed.

Lemma parse_time_other_field_count_witness :
  length (split_on ":" (py "1:2:3:4")) ≠ 2%nat
  ∧ length (split_on ":" (py "1:2:3:4")) ≠ 3%nat
  ∧ _parse_time (py "1:2:3:4") = Return 0.
Proof.
  split_and!; [vm_compute; lia | vm_compute; lia |].
  apply (parse_time_other_field_count (py "1:2:3:4")); vm_compute; lia.
Defined.

Example parse_time_empty : _parse_time (py "") = Return 0.
Proof. reflexivity. Qed.

Example parse_time_one_field : _parse_time (py "45") = Return 0.
Proof. reflexivity. Qed.

Example parse_time_four_fields : _parse_time (py "1:2:3:4") = Return 0.
Proof. reflexivity. Qed.

(** ** The session timer *)

Lemma ticks_S n a : ticks (S n) a = update_timer (ticks n a).
Proof. reflexivity. Qed.

Lemma ticks_running n a :
  timer_running a = true → timer_running (ticks n a) = true.
Proof.
  intros Hr. induction n as [|n IH]; [done |].
  rewrite ticks_S. unfold update_timer. by rewrite IH.
Qed.

Lemma ticks_elapsed n a :
  timer_running a = true →
  elapsed_time (ticks n a) = elapsed_time a + Z.of_nat n.
Proof.
  intros Hr. induction n as [|n IH]; [cbn; lia |].
  rewrite ticks_S. unfold update_timer. rewrite ticks_running by done.
  cbn. rewrite IH. lia.
Qed.

(** While the timer runs, the label shows the elapsed time from before the
    last increment. *)
Lemma ticks_label n a :
  timer_running a = true →
  time_label (ticks (S n) a) = _format_time (elapsed_time a + Z.of_nat n).
Proof.
  intros Hr. rewrite ticks_S. unfold update_timer.
  rewrite ticks_running by done. cbn. by rewrite ticks_elapsed.
Qed.

Lemma ticks_frame n a :
  current_exercise (ticks n a) = current_exercise a
  ∧ workout_data (ticks n a) = workout_data a
  ∧ data_file (ticks n a) = data_file a.
Proof.
  induction n as [|n (H1 & H2 & H3)]; [done |].
  rewrite ticks_S. unfold update_timer. by destruct (timer_running _).
Qed.

Lemma start_timer_ticks a : start_timer a = ticks 1 (reset_timer a).
Proof. reflexivity. Qed.

(** Cancelling a session leaves the log and the file alone. *)
Lemma cancel_exercise_keeps_log a :
  workout_data (cancel_exercise a) = workout_data a
  ∧ data_file (cancel_exercise a) = data_file a
  ∧ data_file_writes (cancel_exercise a) = data_file_writes a.
Proof. done. Qed.

(** C3. After [n] ticks of a session (the elapsed time went from 0 to [n],
    the label showing the value before each increment), finishing with a
    bpm that is accepted appends one entry to the log, for the current
    exercise, with the duration text of [n - 1] seconds, which is the text
    on the label and which [_parse_time] reads as [n - 1] when [n] is at
    least 1, and writes the log to the file. After five ticks on "Scales" and the bpm "80" the
    entry has the duration "00:04" and the bpm "80". *)
Theorem finish_records_elapsed_minus_one :
  (∀ (n : nat) now bpm a,
      isdigit bpm = true →
      let session := finish_exercise (ticks n (reset_timer a)) in
      let result := _save_workout_data now bpm session in
      elapsed_time session = Z.of_nat n
      ∧ ((1 <= n)%nat → time_label session = _format_time (Z.of_nat n - 1))
      ∧ snd result = true
      ∧ workout_data (fst result) =
          workout_data a
          ++ [mk_workout (current_exercise a) (_format_time (Z.of_nat n - 1)) bpm now]
      ∧ data_file (fst result) = Some (markdown_of (workout_data (fst result)))
      ∧ ((1 <= n)%nat →
         _parse_time (_format_time (Z.of_nat n - 1)) = Return (Z.of_nat n - 1)))
  ∧ (∀ now a,
      let session :=
        finish_exercise (ticks 5 (reset_timer (set_current_exercise (py "Scales") a))) in
      workout_data (fst (_save_workout_data now (py "80") session)) =
        workout_data a ++ [mk_workout (py "Scales") (py "00:04") (py "80") now]).
Proof.
  split.
  - intros n now bpm a Hb session result.
    assert (timer_running (reset_timer a) = true) as Hr by done.
    assert (elapsed_time session = Z.of_nat n) as He.
    { unfold session. cbn. rewrite ticks_elapsed by done. cbn. lia. }
    destruct (ticks_frame n (reset_timer a)) as (Hx & Hw & _).
    unfold result, _save_workout_data. rewrite Hb. cbn [negb fst snd].
    split_and!; [done | | done | | done |].
    + intros Hn. destruct n as [|n]; [lia |]. unfold session, finish_exercise.
      change (time_label (set_timer_running false ?x)) with (time_label x).
      rewrite ticks_label by done. f_equal. cbn. lia.
    + cbn. unfold _create_exercise_data. cbn.
      rewrite Hx, Hw. cbn. f_equal. f_equal. f_equal. f_equal.
      rewrite ticks_elapsed by done. cbn. lia.
    + intros Hn. apply parse_format_time. lia.
  - intros now a. reflexivity.
Qed.

Lemma finish_records_elapsed_minus_one_witness :
  isdigit (py "80") = true
  ∧ (1 <= 5)%nat
  ∧ workout_data
      (fst (_save_workout_data (midnight 2024 March 1) (py "80")
              (finish_exercise
                 (ticks 5 (reset_timer (set_current_exercise (py "Scales") (init_trainer None)))))))
    = [mk_workout (py "Scales") (_format_time (Z.of_nat 5 - 1)) (py "80") (midnight 2024 March 1)]
  ∧ _parse_time (_format_time (Z.of_nat 5 - 1)) = Return (Z.of_nat 5 - 1).
Proof.
  pose proof (proj1 finish_records_elapsed_minus_one 5%nat (midnight 2024 March 1)
                (py "80") (set_current_exercise (py "Scales") (init_trainer None))
                ltac:(reflexivity)) as H.
  cbv zeta in H. destruct H as (_ & _ & _ & Hw & _ & Hp).
  split_and!; [reflexivity | lia | exact Hw | apply Hp; lia].
Defined.

Lemma decimal_is_digit_char c : is_decimal c = true → is_digit_char c = true.
Proof. unfold is_digit_char. by intros ->. Qed.

Lemma positive_integer_isdigit b : positive_integer b = true → isdigit b = true.
Proof.
  unfold positive_integer, decimal_value, isdigit.
  destruct b as [|c b]; [done |].
  destruct (all_decimal (c :: b)) eqn:Hd; [| done]. intros _.
  unfold all_decimal in Hd. rewrite forallb_forall in *.
  intros x Hx. by apply decimal_is_digit_char, Hd.
Qed.

(** C4, as the program has it. [_save_workout_data] fails exactly when
    [bpm.isdigit()] is false; every positive integer passes. On a failure
    no entry is appended, the file is not written, and the state is the
    one before the call except that the metronome is stopped and the error
    box is shown. *)
Theorem save_workout_data_validation now bpm a :
  let result := _save_workout_data now bpm a in
  (snd result = false ↔ isdigit bpm = false)
  ∧ (positive_integer bpm = true → snd result = true)
  ∧ (isdigit bpm = false →
     fst result =
       messagebox (showerror (py "Error") (py "BPM must be a number!"))
         (set_metronome_running false a)
     ∧ workout_data (fst result) = workout_data a
     ∧ data_file (fst result) = data_file a
     ∧ data_file_writes (fst result) = data_file_writes a
     ∧ elapsed_time (fst result) = elapsed_time a
     ∧ current_exercise (fst result) = current_exercise a
     ∧ timer_running (fst result) = timer_running a
     ∧ metronome_bpm (fst result) = metronome_bpm a
     ∧ metronome_running (fst result) = false).
Proof.
  intros result. unfold result, _save_workout_data. split_and!.
  - destruct (isdigit bpm); cbn; split; done.
  - intros Hp. by rewrite (positive_integer_isdigit _ Hp).
  - intros ->. cbn. split_and!; reflexivity.
Qed.

Lemma save_workout_data_validation_witness :
  isdigit (py "fast") = false
  ∧ positive_integer (py "80") = true
  ∧ snd (_save_workout_data (midnight 2024 March 1) (py "80") (init_trainer None)) = true
  ∧ workout_data
      (fst (_save_workout_data (midnight 2024 March 1) (py "fast")
              (set_metronome_running true (init_trainer None)))) = [].
Proof.
  split_and!; [reflexivity | reflexivity | |].
  - apply (save_workout_data_validation (midnight 2024 March 1) (py "80") (init_trainer None)).
    reflexivity.
  - apply (save_workout_data_validation (midnight 2024 March 1) (py "fast")
             (set_metronome_running true (init_trainer None))).
    reflexivity.
Defined.

(** C4 as stated fails twice: "0" is not a positive integer and is
    accepted, an entry with the bpm "0" being appended; and a rejected bpm
    leaves a state that differs from the one before the call, the
    metronome having been stopped. *)
Lemma finish_validation_counterexample :
  (positive_integer (py "0") = false
   ∧ snd (_save_workout_data (midnight 2024 March 1) (py "0") (init_trainer None)) = true
   ∧ bpm <$> workout_data
       (fst (_save_workout_data (midnight 2024 March 1) (py "0") (init_trainer None)))
     = [py "0"])
  ∧ (positive_integer (py "fast") = false
     ∧ snd (_save_workout_data (midnight 2024 March 1) (py "fast")
              (set_metronome_running true (init_trainer None))) = false
     ∧ fst (_save_workout_data (midnight 2024 March 1) (py "fast")
              (set_metronome_running true (init_trainer None)))
       ≠ set_metronome_running true (init_trainer None)
     ∧ metronome_running
         (fst (_save_workout_data (midnight 2024 March 1) (py "fast")
                 (set_metronome_running true (init_trainer None)))) = false).
Proof.
  split; split_and!; try reflexivity.
  intros H. apply (f_equal metronome_running) in H. discriminate H.
Qed.

(** ** The metronome tempo *)

Lemma change_bpm_keeps_range delta a : bpm_in_range a → bpm_in_range (change_bpm delta a).
Proof.
  unfold bpm_in_range, change_bpm. intros H.
  destruct (Z.leb_spec 30 (metronome_bpm a + delta));
    destruct (Z.leb_spec (metronome_bpm a + delta) 200); cbn; lia.
Qed.

Lemma bpm_trace_in_range a deltas :
  bpm_in_range a → Forall bpm_in_range (bpm_trace a deltas).
Proof.
  revert a. induction deltas as [|delta deltas IH]; intros a Ha; cbn.
  - by constructor.
  - constructor; [done |]. by apply IH, change_bpm_keeps_range.
Qed.

(** C7. From the tempo 120 that [__init__] sets, every state that a
    sequence of calls of [change_bpm] goes through has its tempo between 30
    and 200, whatever the integers added; a change that would leave the
    range returns the state as it was, and a change that stays in the range
    is made. *)
Theorem change_bpm_stays_in_range :
  (∀ file deltas, Forall bpm_in_range (bpm_trace (init_trainer file) deltas))
  ∧ (∀ delta a,
       ¬ (30 <= metronome_bpm a + delta <= 200) → change_bpm delta a = a)
  ∧ (∀ delta a,
       30 <= metronome_bpm a + delta <= 200 →
       metronome_bpm (change_bpm delta a) = metronome_bpm a + delta).
Proof.
  split_and!.
  - intros file deltas. apply bpm_trace_in_range. unfold bpm_in_range. cbn. lia.
  - intros delta a H. unfold change_bpm.
    destruct (Z.leb_spec 30 (metronome_bpm a + delta));
      destruct (Z.leb_spec (metronome_bpm a + delta) 200); cbn; try done; lia.
  - intros delta a H. unfold change_bpm.
    destruct (Z.leb_spec 30 (metronome_bpm a + delta));
      destruct (Z.leb_spec (metronome_bpm a + delta) 200); cbn; try done; lia.
Qed.

Lemma change_bpm_stays_in_range_witness :
  ¬ (30 <= metronome_bpm (init_trainer None) + 81 <= 200)
  ∧ change_bpm 81 (init_trainer None) = init_trainer None
  ∧ 30 <= metronome_bpm (init_trainer None) + 80 <= 200
  ∧ metronome_bpm (change_bpm 80 (init_trainer None)) = metronome_bpm (init_trainer None) + 80.
Proof.
  split; [| split; [| split]].
  - cbn. lia.
  - apply (proj1 (proj2 change_bpm_stays_in_range) 81 (init_trainer None)). cbn. lia.
  - cbn. lia.
  - apply (proj2 (proj2 change_bpm_stays_in_range) 80 (init_trainer None)). cbn. lia.
Defined.

(** ** Deleting a day *)

Section remove_all.
Context {A : Type} `{EqDecision A}.
Variable P : A → Prop.
Context `{∀ x, Decision (P x)}.

Lemma list_remove_middle (x : A) (q l : list A) :
  x ∉ q → list_remove x (q ++ x :: l) = q ++ l.
Proof.
  induction q as [|y q IH]; intros Hq; cbn.
  - by rewrite decide_True.
  - apply not_elem_of_cons in Hq as [Hne Hq].
    rewrite decide_False by done. by rewrite IH.
Qed.

(** Removing, one after the other, the elements of a list that satisfy [P]
    leaves the elements that do not, in their order. *)
Lemma remove_filtered (q l : list A) :
  Forall (fun x => ¬ P x) q →
  fold_left (fun data w => list_remove w data) (filter P l) (q ++ l)
  = q ++ filter (fun x => ¬ P x) l.
Proof.
  revert q. induction l as [|x l IH]; intros q Hq; [done |].
  destruct (decide (P x)) as [Hx | Hx].
  - rewrite filter_cons_True by done.
    rewrite (filter_cons_False (λ x, ¬ P x)) by tauto. cbn [fold_left].
    rewrite list_remove_middle; [by apply IH |].
    intros Hin. rewrite Forall_forall in Hq. by apply (Hq x).
  - rewrite filter_cons_False by done.
    rewrite (filter_cons_True (λ x, ¬ P x)) by done.
    change (q ++ x :: l) with (q ++ [x] ++ l).
    change (q ++ x :: filter (λ x, ¬ P x) l) with (q ++ [x] ++ filter (λ x, ¬ P x) l).
    rewrite !app_assoc. apply IH. apply Forall_app. split; [done |].
    by repeat constructor.
Qed.

End remove_all.

(** C8. [delete_day], once the question is answered with yes, removes the
    entries whose time stamp, written as day, month name and year, is the
    date given, and keeps all the others in their order; the log is then
    written to the file. When no entry is of that date the method shows
    that there are none and changes nothing else: the log is the same and
    the file is not written. Answering no changes nothing at all. *)
Theorem delete_day_removes_the_day (date : pystr) (a : trainer) :
  let matching := filter (fun d => strftime (timestamp d) = date) (workout_data a) in
  let others := filter (fun d => strftime (timestamp d) ≠ date) (workout_data a) in
  (matching = [] →
   ∀ confirmed,
     delete_day date confirmed a =
       messagebox (showinfo (py "Information") (py "No workouts found for this day!")) a
     ∧ workout_data (delete_day date confirmed a) = workout_data a
     ∧ data_file (delete_day date confirmed a) = data_file a
     ∧ data_file_writes (delete_day date confirmed a) = data_file_writes a)
  ∧ (matching ≠ [] →
     workout_data (delete_day date true a) = others
     ∧ data_file (delete_day date true a) = Some (markdown_of others)
     ∧ data_file_writes (delete_day date true a) = S (data_file_writes a)
     ∧ delete_day date false a = a).
Proof.
  intros matching others. unfold delete_day. fold matching. split.
  - intros -> confirmed. by split_and!.
  - intros Hne. destruct matching as [|w ws] eqn:Hm; [done |].
    rewrite <- Hm. unfold matching.
    pose proof (remove_filtered (fun d => strftime (timestamp d) = date) []
                  (workout_data a) ltac:(constructor)) as Hrm.
    rewrite !app_nil_l in Hrm. cbn. rewrite Hrm. by split_and!.
Qed.

Lemma delete_day_removes_the_day_witness :
  filter (fun d => strftime (timestamp d) = py "29 February 2024") two_days ≠ []
  ∧ filter (fun d => strftime (timestamp d) = py "02 March 2024") two_days = []
  ∧ workout_data
      (delete_day (py "29 February 2024") true (set_workout_data two_days (init_trainer None)))
    = filter (fun d => strftime (timestamp d) ≠ py "29 February 2024") two_days
  ∧ workout_data
      (delete_day (py "02 March 2024") true (set_workout_data two_days (init_trainer None)))
    = two_days.
Proof.
  split; [| split; [| split]].
  - vm_compute. discriminate.
  - vm_compute. reflexivity.
  - apply (proj2 (delete_day_removes_the_day (py "29 February 2024")
                    (set_workout_data two_days (init_trainer None)))).
    vm_compute. discriminate.
  - apply (proj1 (delete_day_removes_the_day (py "02 March 2024")
                    (set_workout_data two_days (init_trainer None)))).
    vm_compute. reflexivity.
Defined.

Example delete_day_example :
  exercise <$> workout_data
    (delete_day (py "29 February 2024") true (set_workout_data two_days (init_trainer None)))
  = [py "Riff"].
Proof. reflexivity. Qed.

(** ** Statistics *)

Lemma digit_char_no_space c : is_digit_char c = true → is_space c = false.
Proof. unfold is_digit_char, is_decimal, is_space. lia. Qed.




















Example stats_two_scales :
  let a := set_workout_data two_scales (init_trainer None) in
  get_best_bpm (py "Scales") a = Return 100
  ∧ avg_bpm <$> get_exercise_stats (py "Scales") a = Return 90
  ∧ total_sessions <$> get_exercise_stats (py "Scales") a = Return 2.
Proof. by vm_compute. Qed.

(** C6, where [get_best_bpm] departs from it. The bpm "²" passes the check
    of [_save_workout_data], which uses [isdigit], and is recorded after
    five ticks on "Scales". The token is not a number, so the log has no
    numeric bpm for the exercise and its best bpm is 0 by the
    specification; [get_exercise_stats] skips the token and returns the
    mean 0, [get_best_bpm] raises [ValueError]. *)
Theorem get_best_bpm_raises_on_superscript :
  let now := mk_datetime 2024 March 1 9 0 0 0 in
  let session :=
    finish_exercise (ticks 5 (reset_timer (set_current_exercise (py "Scales") (init_trainer None)))) in
  let a := fst (_save_workout_data now superscript_two session) in
  snd (_save_workout_data now superscript_two session) = true
  ∧ workout_data a = [mk_workout (py "Scales") (py "00:04") superscript_two now]
  ∧ numeric_bpms (py "Scales") (workout_data a) = []
  ∧ spec_best_bpm (py "Scales") (workout_data a) = 0
  ∧ avg_bpm <$> get_exercise_stats (py "Scales") a = Return 0
  ∧ get_best_bpm (py "Scales") a = Raise ValueError.
Proof. by vm_compute. Qed.

(** ** The exercise catalog *)

Module CatalogFacts.
Import Catalog.

(** *** Lists of names *)

Lemma list_remove_subset (x y : pystr) l : x ∈ list_remove y l → x ∈ l.
Proof.
  induction l as [|z l IH]; cbn; [done |].
  destruct (decide (y = z)) as [-> | Hne]; intros Hin.
  - by right.
  - apply elem_of_cons in Hin as [-> | Hin]; [by left | right; by apply IH].
Qed.

Lemma list_remove_NoDup (y : pystr) l : NoDup l → NoDup (list_remove y l).
Proof.
  induction 1 as [|z l Hz Hl IH]; cbn; [constructor |].
  destruct (decide (y = z)); [done |].
  constructor; [| done]. intros Hin. by apply Hz, (list_remove_subset _ y).
Qed.

Lemma list_remove_elem_of (x y : pystr) l :
  NoDup l → x ∈ list_remove y l ↔ x ∈ l ∧ x ≠ y.
Proof.
  induction 1 as [|z l Hz Hl IH]; cbn.
  - split; [by intros ?%elem_of_nil | by intros [?%elem_of_nil _]].
  - destruct (decide (y = z)) as [-> | Hne].
    + split.
      * intros Hin. split; [by right |]. by intros ->.
      * intros [[-> | Hin]%elem_of_cons Hx]; done.
    + rewrite !elem_of_cons, IH. split.
      * intros [-> | [Hin Hx]]; [split; [by left | done] | split; [by right | done]].
      * intros [[-> | Hin] Hx]; [by left | by right].
Qed.

Lemma discard_eq (y : pystr) l : discard y l = list_remove y l.
Proof.
  unfold discard. case_bool_decide as Hin; [done |].
  induction l as [|z l IH]; [done |]. cbn.
  apply not_elem_of_cons in Hin as [Hne Hin].
  rewrite decide_False by done. by rewrite <- IH.
Qed.

Lemma discard_NoDup (y : pystr) l : NoDup l → NoDup (discard y l).
Proof. rewrite discard_eq. apply list_remove_NoDup. Qed.

Lemma discard_elem_of (x y : pystr) l :
  NoDup l → x ∈ discard y l ↔ x ∈ l ∧ x ≠ y.
Proof. rewrite discard_eq. apply list_remove_elem_of. Qed.

Lemma append_new_elem_of (x y : pystr) l : x ∈ append_new y l ↔ x ∈ l ∨ x = y.
Proof.
  unfold append_new. case_bool_decide as Hin.
  - split; [by left | by intros [? | ->]].
  - rewrite elem_of_app, list_elem_of_singleton. done.
Qed.

Lemma append_new_NoDup (y : pystr) l : NoDup l → NoDup (append_new y l).
Proof.
  intros Hl. unfold append_new. case_bool_decide as Hin; [done |].
  apply NoDup_app. split_and!; [done | | apply NoDup_singleton].
  intros x Hx ->%list_elem_of_singleton. done.
Qed.

(** *** Where a name is *)

Lemma flatten_exercises_holds c x :
  x ∈ flatten_exercises c ↔ ∃ k, holds c k x.
Proof.
  unfold flatten_exercises. rewrite elem_of_union, elem_of_list_to_set, elem_of_union_list.
  split.
  - intros [Hr | (X & HX & Hx)]; [by exists Root |].
    apply list_elem_of_fmap in HX as (items & -> & Hitems).
    apply list_elem_of_fmap in Hitems as ([f items'] & -> & Hf).
    apply elem_of_map_to_list in Hf. apply elem_of_list_to_set in Hx.
    exists (Folder f), items'. done.
  - intros [[|f] Hk]; [by left | right]. destruct Hk as (items & Hf & Hx).
    exists (list_to_set items). split; [| by apply elem_of_list_to_set].
    apply list_elem_of_fmap. exists items. split; [done |].
    apply list_elem_of_fmap. exists (f, items). split; [done |].
    by apply elem_of_map_to_list.
Qed.

Lemma without_holds text c k x :
  no_repeats c → holds (without text c) k x ↔ holds c k x ∧ x ≠ text.
Proof.
  intros [Hr Hf]. destruct k as [|f]; cbn.
  - by apply discard_elem_of.
  - rewrite lookup_fmap. split.
    + intros (items & Hl & Hx).
      destruct (folders c !! f) as [items0|] eqn:Hf0; [| done].
      cbn in Hl. injection Hl as <-.
      apply discard_elem_of in Hx as [Hx Hne]; [| by eapply Hf].
      split; [by exists items0 | done].
    + intros [(items & Hl & Hx) Hne]. exists (discard text items).
      rewrite Hl. split; [done |]. apply discard_elem_of; [by eapply Hf | done].
Qed.

Lemma without_ok text c : catalog_ok c → catalog_ok (without text c).
Proof.
  intros [Hs Hn]. split.
  - intros x k1 k2 H1 H2. apply without_holds in H1 as [H1 _]; [| done].
    apply without_holds in H2 as [H2 _]; [| done]. by eapply Hs.
  - destruct Hn as [Hr Hf]. split; [by apply discard_NoDup |].
    intros f items. cbn. rewrite lookup_fmap. intros Hl.
    destruct (folders c !! f) as [items0|] eqn:Hf0; [| done].
    cbn in Hl. injection Hl as <-. by eapply discard_NoDup, Hf.
Qed.

Lemma in_folder_holds text folder c k x :
  holds (in_folder text folder c) k x
  ↔ holds c k x ∨ (k = Folder folder ∧ x = text).
Proof.
  destruct k as [|f]; cbn.
  - split; [by left | by intros [? | [? _]]].
  - destruct (decide (folder = f)) as [-> | Hne].
    + rewrite lookup_insert_eq. split.
      * intros (items & [= <-] & Hx). apply append_new_elem_of in Hx as [Hx | ->].
        -- left. destruct (folders c !! f) as [items0|]; [by exists items0 |].
           by apply elem_of_nil in Hx.
        -- by right.
      * intros [(items & Hl & Hx) | [_ ->]]; eexists; (split; [done |]);
          apply append_new_elem_of; [left | by right].
        by rewrite Hl.
    + rewrite lookup_insert_ne by done. split; [by left |].
      intros [? | [[= ?] _]]; done.
Qed.

Lemma in_folder_ok text folder c :
  catalog_ok c → (∀ k, ¬ holds c k text) → catalog_ok (in_folder text folder c).
Proof.
  intros [Hs [Hr Hf]] Hfree. split.
  - intros x k1 k2 H1 H2. apply in_folder_holds in H1, H2.
    destruct H1 as [H1 | [E1 X1]], H2 as [H2 | [E2 X2]]; subst;
      [by eapply Hs | by destruct (Hfree k1) | by destruct (Hfree k2) | done].
  - split; [done |]. intros f items. cbn.
    destruct (decide (folder = f)) as [-> | Hne].
    + rewrite lookup_insert_eq. intros [= <-]. apply append_new_NoDup.
      destruct (folders c !! f) as [items0|] eqn:Hl; [by eapply Hf | constructor].
    + rewrite lookup_insert_ne by done. apply Hf.
Qed.

Lemma in_root_ok text c :
  catalog_ok c → (∀ k, ¬ holds c k text) → catalog_ok (in_root text c).
Proof.
  intros [Hs [Hr Hf]] Hfree.
  assert (∀ k x, holds (in_root text c) k x ↔ holds c k x ∨ (k = Root ∧ x = text)) as Hh.
  { intros [|f] x; cbn.
    - rewrite append_new_elem_of. split.
      + intros [? | ->]; [by left | by right].
      + intros [? | [_ ->]]; [by left | by right].
    - split; [by left |]. intros [? | [[=] _]]. done. }
  split.
  - intros x k1 k2 H1 H2. apply Hh in H1, H2.
    destruct H1 as [H1 | [E1 X1]], H2 as [H2 | [E2 X2]]; subst;
      [by eapply Hs | by destruct (Hfree k1) | by destruct (Hfree k2) | done].
  - split; [by apply append_new_NoDup | done].
Qed.

Lemma without_free text c k : no_repeats c → ¬ holds (without text c) k text.
Proof. intros Hn Hk. apply without_holds in Hk as [_ ?]; done. Qed.

(** The invariant does not look at the notes. *)
Lemma catalog_ok_info c i :
  catalog_ok c → catalog_ok (mk_catalog (root c) (folders c) i).
Proof. done. Qed.

(** *** The commands other than renaming keep the invariant *)

Lemma create_folder_ok text c : catalog_ok c → catalog_ok (create_folder text c).
Proof.
  intros Hc. unfold create_folder. destruct (strip text) as [|ch name]; [done |].
  destruct (folders c !! (ch :: name)) as [items|] eqn:Hl; [done |].
  destruct Hc as [Hs [Hr Hf]].
  assert (∀ k x, holds (mk_catalog (root c) (<[ch :: name := []]> (folders c)) (info c)) k x
                 → holds c k x) as Hh.
  { intros [|f] x; cbn; [done |]. intros (items & Hi & Hx).
    apply lookup_insert_Some in Hi as [[_ <-] | [_ Hi]]; [by apply elem_of_nil in Hx |].
    by exists items. }
  split.
  - intros x k1 k2 H1 H2. eapply Hs; by apply Hh.
  - split; [done |]. intros f items. cbn.
    intros [[_ <-] | [_ Hi]]%lookup_insert_Some; [constructor | by eapply Hf].
Qed.

Lemma append_new_fresh (x : pystr) l : x ∉ l → l ++ [x] = append_new x l.
Proof. intros Hx. unfold append_new. by rewrite bool_decide_eq_false_2. Qed.

Lemma add_now_ok name_text folder link_text note_text c :
  catalog_ok c → catalog_ok (add_now name_text folder link_text note_text c).
Proof.
  intros Hc. unfold add_now. destruct (strip name_text) as [|ch name]; [done |].
  case_bool_decide as Hin; [done |].
  assert (∀ k, ¬ holds c k (ch :: name)) as Hfree.
  { intros k Hk. apply Hin, flatten_exercises_holds. by exists k. }
  destruct (pystr_eqb folder (py "Root")).
  - rewrite append_new_fresh by apply (Hfree Root).
    by apply (catalog_ok_info (in_root (ch :: name) c)), in_root_ok.
  - rewrite append_new_fresh.
    + by apply (catalog_ok_info (in_folder (ch :: name) folder c)), in_folder_ok.
    + destruct (folders c !! folder) as [items|] eqn:Hl; [| by apply not_elem_of_nil].
      intros Hx. apply (Hfree (Folder folder)). by exists items.
Qed.

Lemma confirm_ok text folder c : catalog_ok c → catalog_ok (confirm text folder c).
Proof.
  intros Hc. change (confirm text folder c) with (in_folder text folder (without text c)).
  apply in_folder_ok; [by apply without_ok |].
  intros k. apply without_free, Hc.
Qed.

Lemma on_drag_release_ok dragged_text t c :
  catalog_ok c → catalog_ok (on_drag_release dragged_text t c).
Proof.
  intros Hc. destruct t as [|name].
  - change (on_drag_release dragged_text AllExercises c)
      with (in_root dragged_text (without dragged_text c)).
    apply in_root_ok; [by apply without_ok |]. intros k. apply without_free, Hc.
  - change (on_drag_release dragged_text (FolderNode name) c)
      with (in_folder dragged_text (strip name) (without dragged_text c)).
    apply in_folder_ok; [by apply without_ok |]. intros k. apply without_free, Hc.
Qed.

Lemma delete_exercise_ok exercise confirmed c :
  catalog_ok c → catalog_ok (delete_exercise exercise confirmed c).
Proof.
  intros Hc. destruct confirmed; [| done].
  by apply (catalog_ok_info (without exercise c)), without_ok.
Qed.

(** After [delete_exercise] the name is in no container. *)
Lemma delete_exercise_gone exercise c k :
  catalog_ok c → ¬ holds (delete_exercise exercise true c) k exercise.
Proof. intros Hc. apply (without_free exercise c k), Hc. Qed.

(** After [confirm] the name is in the folder chosen and nowhere else. *)
Lemma confirm_holds text folder c k :
  catalog_ok c → holds (confirm text folder c) k text ↔ k = Folder folder.
Proof.
  intros Hc. change (confirm text folder c) with (in_folder text folder (without text c)).
  rewrite in_folder_holds. split.
  - intros [Hk | [-> _]]; [| done]. by apply without_free in Hk; [| apply Hc].
  - intros ->. by right.
Qed.

(** *** Renaming *)

Lemma replace_first_elem_of (old new x : pystr) l :
  NoDup l →
  x ∈ replace_first old new l ↔ (x ∈ l ∧ x ≠ old) ∨ (x = new ∧ old ∈ l).
Proof.
  induction 1 as [|z l Hz Hl IH]; cbn.
  - split; [by intros ?%elem_of_nil |].
    intros [[?%elem_of_nil _] | [_ ?%elem_of_nil]]; done.
  - destruct (decide (z = old)) as [-> | Hne].
    + rewrite !elem_of_cons. split.
      * intros [-> | Hx]; [right; split; [done | by left] |].
        left. split; [by right |]. by intros ->.
      * intros [[[-> | Hx] Hne] | [-> _]]; [done | by right | by left].
    + rewrite !elem_of_cons, IH. split.
      * intros [-> | [[Hx Hxo] | [-> Ho]]].
        -- left. split; [by left | done].
        -- left. split; [by right | done].
        -- right. split; [done | by right].
      * intros [[[-> | Hx] Hxo] | [-> [-> | Ho]]].
        -- by left.
        -- right. by left.
        -- done.
        -- right. by right.
Qed.

Lemma replace_first_NoDup (old new : pystr) l :
  NoDup l → new ∉ l → NoDup (replace_first old new l).
Proof.
  induction 1 as [|z l Hz Hl IH]; cbn; [constructor |].
  intros [Hnz Hnl]%not_elem_of_cons.
  destruct (decide (z = old)) as [-> | Hne]; [by constructor |].
  constructor; [| by apply IH].
  intros [[Hx _] | [-> _]]%replace_first_elem_of; done.
Qed.

(** [do_rename] keeps the invariant when the new name is not in the
    catalog yet. *)
Lemma do_rename_fresh_ok old_name text c :
  catalog_ok c → strip text ∉ flatten_exercises c →
  catalog_ok (do_rename old_name text c).
Proof.
  intros [Hs [Hr Hf]] Hfresh. unfold do_rename.
  destruct (pystr_eqb (strip text) [] || pystr_eqb (strip text) old_name);
    [done |].
  set (new_name := strip text) in *.
  set (i := match info c !! old_name with
            | Some i => <[new_name := i]> (delete old_name (info c))
            | None => info c
            end).
  assert (∀ k, ¬ holds c k new_name) as Hfree.
  { intros k Hk. apply Hfresh, flatten_exercises_holds. by exists k. }
  assert (∀ k x,
            holds (mk_catalog (replace_first old_name new_name (root c))
                     (replace_first old_name new_name <$> folders c) i) k x
            → (holds c k x ∧ x ≠ new_name) ∨ (x = new_name ∧ holds c k old_name)) as Hh.
  { intros [|f] x; cbn.
    - intros [[Hx Hne] | [-> Ho]]%replace_first_elem_of; [| by right | done].
      left. split; [done |]. intros ->. by apply (Hfree Root).
    - rewrite lookup_fmap. intros (items & Hl & Hx).
      destruct (folders c !! f) as [items0|] eqn:Hf0; [| done].
      cbn in Hl. injection Hl as <-.
      apply replace_first_elem_of in Hx as [[Hx Hne] | [-> Ho]]; [| | by eapply Hf].
      + left. split; [by exists items0 |]. intros ->.
        apply (Hfree (Folder f)). by exists items0.
      + right. split; [done |]. by exists items0. }
  split.
  - intros x k1 k2 H1%Hh H2%Hh.
    destruct H1 as [[H1 N1] | [-> H1]], H2 as [[H2 N2] | [E2 H2]];
      [by eapply Hs | done | done | by eapply Hs].
  - split.
    + apply replace_first_NoDup; [done | apply (Hfree Root)].
    + intros f items. cbn. rewrite lookup_fmap. intros Hl.
      destruct (folders c !! f) as [items0|] eqn:Hf0; [| done].
      cbn in Hl. injection Hl as <-.
      apply replace_first_NoDup; [by eapply Hf |].
      intros Hx. apply (Hfree (Folder f)). by exists items0.
Qed.

(** Every sequence of commands without a renaming keeps the invariant. *)
Lemma run_ok c k : is_rename k = false → catalog_ok c → catalog_ok (run c k).
Proof.
  destruct k; cbn; intros Hk Hc; [| | | | | done].
  - by apply create_folder_ok.
  - by apply add_now_ok.
  - by apply confirm_ok.
  - by apply on_drag_release_ok.
  - by apply delete_exercise_ok.
Qed.

Lemma commands_ok ks c :
  forallb (fun k => negb (is_rename k)) ks = true →
  catalog_ok c → catalog_ok (fold_left run ks c).
Proof.
  revert c. induction ks as [|k ks IH]; intros c Hks Hc; [done |].
  cbn in Hks. apply andb_true_iff in Hks as [Hk Hks]. apply negb_true_iff in Hk.
  cbn. apply IH; [done |]. by apply run_ok.
Qed.

End CatalogFacts.

Lemma empty_catalog_ok : catalog_ok empty_catalog.
Proof.
  split; [| split; [constructor | done]].
  intros x [|f1] k2; cbn.
  - by intros ?%elem_of_nil.
  - by intros (? & ? & ?).
Qed.

(** C1, where [do_rename] departs from it. In a catalog built by the
    commands, with "A" in the root list and "B" in the folder "F", no name
    is in two containers; after renaming "A" to "B" the name "B" is both in
    the root list and in the folder "F". [add_now] refuses a name that is
    in the catalog already; [do_rename] does not look. *)
Theorem rename_puts_name_in_two_containers :
  let c := do_rename (py "A") (py "B") catalog_A_B in
  catalog_ok catalog_A_B
  ∧ root catalog_A_B = [py "A"]
  ∧ folders catalog_A_B !! py "F" = Some [py "B"]
  ∧ root c = [py "B"]
  ∧ folders c !! py "F" = Some [py "B"]
  ∧ holds c Root (py "B")
  ∧ holds c (Folder (py "F")) (py "B")
  ∧ ¬ single_location c.
Proof.
  intros c.
  assert (root c = [py "B"]) as Hr by by vm_compute.
  assert (folders c !! py "F" = Some [py "B"]) as Hf by by vm_compute.
  assert (holds c Root (py "B")) as H1.
  { cbn [holds]. rewrite Hr. by left. }
  assert (holds c (Folder (py "F")) (py "B")) as H2.
  { exists [py "B"]. split; [done | by left]. }
  assert (catalog_ok catalog_A_B) as Hok.
  { apply CatalogFacts.commands_ok; [reflexivity | apply empty_catalog_ok]. }
  assert (¬ single_location c) as Hno.
  { intros Hs. specialize (Hs _ _ _ H1 H2). discriminate Hs. }
  repeat (split; [first [exact Hok | exact Hr | exact Hf | exact H1 | exact H2
                         | vm_compute; reflexivity] |]).
  exact Hno.
Qed.

(** ** The markdown file *)

Lemma startswith_app_sep c p a b :
  avoids c p = true → startswith p (a ++ c :: b) = startswith p a.
Proof.
  revert p. induction a as [|y a IH]; intros p Hp.
  - destruct p as [|x p]; [done |]. cbn in *.
    apply andb_true_iff in Hp as [Hx _]. apply negb_true_iff in Hx. by rewrite Hx.
  - destruct p as [|x p]; [done |]. cbn in *.
    apply andb_true_iff in Hp as [_ Hp]. by rewrite IH.
Qed.

Lemma contains_app_sep c p a b :
  p ≠ [] → avoids c p = true →
  contains p (a ++ c :: b) = contains p a || contains p b.
Proof.
  intros Hne Hp. induction a as [|y a IH].
  - rewrite app_nil_l. destruct p as [|x p]; [done |]. cbn in *.
    apply andb_true_iff in Hp as [Hx _]. apply negb_true_iff in Hx. by rewrite Hx.
  - change ((y :: a) ++ c :: b) with (y :: (a ++ c :: b)).
    cbn [contains]. rewrite IH.
    change (y :: (a ++ c :: b)) with ((y :: a) ++ c :: b).
    rewrite startswith_app_sep by done. by rewrite orb_assoc.
Qed.

Lemma contains_cons_sep c p y b :
  p ≠ [] → avoids c p = true →
  contains p (y :: c :: b) = contains p [y] || contains p b.
Proof. apply (contains_app_sep c p [y] b). Qed.

Lemma contains_absent p s :
  match p with
  | x :: _ => avoids x s = true
  | [] => False
  end → contains p s = false.
Proof.
  destruct p as [|x p]; [done |]. induction s as [|y s IH]; [done |].
  cbn. intros [Hy Hs]%andb_true_iff. apply negb_true_iff in Hy.
  rewrite (proj2 (ascii_eqb_false x y)).
  - by apply IH.
  - intros ->. by apply ascii_eqb_false in Hy.
Qed.

Lemma plain_avoids c s :
  plain_char c = false → forallb plain_char s = true → avoids c s = true.
Proof.
  intros Hc. unfold avoids. rewrite !forallb_forall. intros H x Hx.
  apply negb_true_iff, ascii_eqb_false. intros ->. specialize (H _ Hx). congruence.
Qed.

Lemma plain_trimmed s : forallb plain_char s = true → trimmed s.
Proof.
  intros H. apply trimmed_no_space. rewrite forallb_forall in *. intros x Hx.
  specialize (H _ Hx). unfold plain_char in H.
  by apply andb_true_iff in H as [[? _]%andb_true_iff _].
Qed.

Lemma decimal_plain c : is_decimal c = true → plain_char c = true.
Proof.
  intros H. unfold plain_char. rewrite decimal_not_space by done.
  rewrite (proj2 (ascii_eqb_false c "|")) by (intros ->; by vm_compute in H).
  rewrite (proj2 (ascii_eqb_false c "B")) by (intros ->; by vm_compute in H).
  done.
Qed.

Lemma digit_char_plain c : is_digit_char c = true → plain_char c = true.
Proof.
  intros H. unfold plain_char. rewrite digit_char_no_space by done.
  rewrite (proj2 (ascii_eqb_false c "|")) by (intros ->; by vm_compute in H).
  rewrite (proj2 (ascii_eqb_false c "B")) by (intros ->; by vm_compute in H).
  done.
Qed.

Lemma valid_bpm_plain b : valid_bpm b = true → b ≠ [] ∧ forallb plain_char b = true.
Proof.
  unfold valid_bpm, isdigit. destruct b as [|c b]; [done |]. intros H.
  split; [done |]. rewrite forallb_forall in *. intros x Hx.
  by apply digit_char_plain, H.
Qed.

(** The characters of a string are those of its fields and the
    separator. *)
Lemma split_on_chars (P : ascii → bool) sep s :
  P sep = true → forallb (forallb P) (split_on sep s) = true → forallb P s = true.
Proof.
  intros Hsep. induction s as [|c s IH]; [done |]. cbn.
  destruct (ascii_eqb c sep) eqn:Hc.
  - apply ascii_eqb_true in Hc as ->. cbn. rewrite Hsep. exact IH.
  - destruct (split_on sep s) as [|f fs] eqn:Hs; [by destruct (split_on_nonempty sep s) |].
    cbn in *. intros [[Hc' Hf]%andb_true_iff Hfs]%andb_true_iff.
    rewrite Hc'. apply IH. by rewrite Hf.
Qed.

Lemma digits_field_plain f : digits_field f = true → forallb plain_char f = true.
Proof.
  unfold digits_field. intros [_ Hd]%andb_true_iff.
  unfold all_decimal in Hd. rewrite forallb_forall in *. intros x Hx.
  by apply decimal_plain, Hd.
Qed.

Lemma valid_duration_plain t :
  valid_duration t = true → t ≠ [] ∧ forallb plain_char t = true.
Proof.
  unfold valid_duration. intros H.
  assert (forallb (forallb plain_char) (split_on ":" t) = true) as Hf.
  { destruct (split_on ":" t) as [|a [|b [|c [|d fs]]]]; try done; cbn.
    - apply andb_true_iff in H as [Ha Hb].
      by rewrite !digits_field_plain.
    - apply andb_true_iff in H as [[Ha Hb]%andb_true_iff Hc].
      by rewrite !digits_field_plain. }
  split.
  - intros ->. done.
  - by apply (split_on_chars plain_char ":").
Qed.

Lemma row_line_shape w :
  row_line w =
  "|"%char :: " "%char ::
    (exercise w ++ " "%char :: "|"%char :: " "%char ::
       (time w ++ " "%char :: "|"%char :: " "%char :: (bpm w ++ [" "%char; "|"%char]))).
Proof. reflexivity. Qed.

Lemma cell_split x rest :
  avoids "|" x = true →
  split_on "|" (" "%char :: (x ++ " "%char :: "|"%char :: rest))
  = (" "%char :: x ++ [" "%char]) :: split_on "|" rest.
Proof.
  intros Hx.
  replace (" "%char :: (x ++ " "%char :: "|"%char :: rest))
    with ((" "%char :: x ++ [" "%char]) ++ "|"%char :: rest)
    by (cbn; by rewrite <- app_assoc).
  apply split_on_app. unfold avoids in *. cbn. by rewrite forallb_app, Hx.
Qed.

Lemma cell_strip x : trimmed x → strip (" "%char :: x ++ [" "%char]) = x.
Proof. intros Hx. by apply (strip_pad [" "%char] x [" "%char]). Qed.

Lemma row_safe_name_spec n :
  row_safe_name n = true →
  n ≠ [] ∧ avoids "|" n = true ∧ avoids NL n = true ∧ trimmed n
  ∧ contains (py "BPM") n = false ∧ startswith (py "-") n = false
  ∧ n ≠ py "Exercise Name".
Proof.
  unfold row_safe_name. rewrite !andb_true_iff, !negb_true_iff.
  intros (((((Hne & Hch) & Htr) & Hbpm) & Hhy) & Hti).
  apply pystr_eqb_false in Hne, Hti. apply pystr_eqb_true in Htr.
  split_and!; try done.
  - unfold avoids. rewrite forallb_forall in *. intros x Hx.
    specialize (Hch _ Hx). by apply andb_true_iff in Hch as [[? _]%andb_true_iff _].
  - unfold avoids. rewrite forallb_forall in *. intros x Hx.
    specialize (Hch _ Hx). by apply andb_true_iff in Hch as [[_ ?]%andb_true_iff _].
Qed.

(** Reading back one row of the table under a day header. *)
Lemma load_line_row now date acc ex t b ts dt :
  date ≠ [] → strptime date = Some dt →
  row_safe_name ex = true →
  t ≠ [] → forallb plain_char t = true →
  b ≠ [] → forallb plain_char b = true →
  load_line now (Some date, acc) (row_line (mk_workout ex t b ts))
  = (Some date, acc ++ [mk_workout ex t b dt]).
Proof.
  intros Hdate Hdt Hex Ht Hpt Hb Hpb.
  destruct (row_safe_name_spec ex Hex) as (Hne & Hbar & _ & Htrim & Hbpm & Hhy & Hti).
  assert (contains (py "BPM") (row_line (mk_workout ex t b ts)) = false) as Hc.
  { rewrite row_line_shape. cbn [exercise time bpm].
    rewrite (contains_cons_sep " " (py "BPM") "|") by done.
    rewrite (contains_app_sep " " (py "BPM") ex) by done.
    rewrite (contains_cons_sep " " (py "BPM") "|") by done.
    rewrite (contains_app_sep " " (py "BPM") t) by done.
    rewrite (contains_cons_sep " " (py "BPM") "|") by done.
    rewrite (contains_app_sep " " (py "BPM") b) by done.
    rewrite Hbpm.
    rewrite (contains_absent (py "BPM") t) by by apply plain_avoids.
    rewrite (contains_absent (py "BPM") b) by by apply plain_avoids.
    reflexivity. }
  assert (split_on "|" (row_line (mk_workout ex t b ts))
          = [[]; " "%char :: ex ++ [" "%char]; " "%char :: t ++ [" "%char];
             " "%char :: b ++ [" "%char]; []]) as Hs.
  { rewrite row_line_shape. cbn [exercise time bpm].
    rewrite split_on_sep.
    rewrite cell_split by done.
    rewrite cell_split by by apply plain_avoids.
    rewrite (cell_split b []) by by apply plain_avoids.
    reflexivity. }
  unfold load_line. rewrite Hc, Hs.
  destruct date as [|d0 date']; [done |].
  rewrite !cell_strip by (done || by apply plain_trimmed).
  rewrite Hhy, Hdt.
  rewrite (proj2 (pystr_eqb_false ex [])) by done.
  rewrite (proj2 (pystr_eqb_false ex (py "Exercise Name"))) by done.
  rewrite row_line_shape. cbn [exercise time bpm].
  destruct ex as [|e0 ex']; [done |].
  cbn in Hhy. rewrite andb_true_r in Hhy.
  cbn. rewrite Hhy. reflexivity.
Qed.

(** ** Writing and reading a day header *)

Lemma words_aux_word cur a rest :
  no_space a = true → words_aux cur (a ++ rest) = words_aux (rev a ++ cur) rest.
Proof.
  revert cur. induction a as [|x a IH]; intros cur Ha; [done |].
  cbn in Ha. apply andb_true_iff in Ha as [Hx Ha]. apply negb_true_iff in Hx.
  cbn. rewrite Hx, IH by done. by rewrite <- app_assoc.
Qed.

Lemma words_aux_cons a sp rest :
  a ≠ [] → no_space a = true → is_space sp = true →
  words_aux [] (a ++ sp :: rest) = a :: words_aux [] rest.
Proof.
  intros Hne Ha Hsp. rewrite words_aux_word by done. rewrite app_nil_r.
  cbn. rewrite Hsp. destruct (rev a) as [|x r] eqn:Hr.
  - apply (f_equal (@rev ascii)) in Hr. rewrite rev_involutive in Hr. done.
  - by rewrite <- Hr, rev_involutive.
Qed.

Lemma words_aux_last a : a ≠ [] → no_space a = true → words_aux [] a = [a].
Proof.
  intros Hne Ha. rewrite <- (app_nil_r a) at 1.
  rewrite words_aux_word by done. rewrite app_nil_r. cbn.
  destruct (rev a) as [|x r] eqn:Hr.
  - apply (f_equal (@rev ascii)) in Hr. rewrite rev_involutive in Hr. done.
  - by rewrite <- Hr, rev_involutive.
Qed.

Lemma dec_digits_length fuel n (k : nat) :
  0 <= n < 10 ^ Z.of_nat k → (1 <= k)%nat → (length (dec_digits fuel n) <= k)%nat.
Proof.
  revert n k. induction fuel as [|fuel IH]; intros n k Hn Hk; [cbn; lia |].
  rewrite dec_digits_S. destruct (Z.ltb_spec n 10) as [Hlt | Hge]; [cbn; lia |].
  rewrite length_app. cbn.
  destruct k as [|[|k]]; [lia | cbn in Hn; lia |].
  assert (length (dec_digits fuel (n / 10)) <= S k)%nat; [| lia].
  apply IH; [| lia].
  rewrite (Nat2Z.inj_succ (S k)), Z.pow_succ_r in Hn by lia.
  split; [apply Z.div_pos; lia |].
  apply Z.div_lt_upper_bound; lia.
Qed.

Lemma format_0d_length w n :
  0 <= n < 10 ^ Z.of_nat w → (1 <= w)%nat → length (format_0d w n) = w.
Proof.
  intros Hn Hw. unfold format_0d. destruct (Z.ltb_spec n 0); [lia |].
  unfold zfill. rewrite length_app, repeat_length.
  pose proof (dec_digits_length (S (Z.to_nat (Z.log2 n))) n w Hn Hw).
  unfold digits_of. lia.
Qed.

Lemma month_name_facts m :
  month_name m ≠ [] ∧ no_space (month_name m) = true
  ∧ avoids NL (month_name m) = true ∧ parse_month (month_name m) = Some m.
Proof. destruct m; by vm_compute. Qed.

Lemma days_in_month_bound y m : 28 <= days_in_month y m <= 31.
Proof. unfold days_in_month. destruct m; try destruct (is_leap y); lia. Qed.

Lemma valid_date_bounds dt :
  valid_date dt = true → 1 <= year dt <= 9999 ∧ 1 <= day dt <= 31.
Proof.
  unfold valid_date. pose proof (days_in_month_bound (year dt) (month_of dt)). lia.
Qed.

Lemma all_decimal_no_NL s : all_decimal s = true → avoids NL s = true.
Proof. by apply all_decimal_avoids. Qed.

Lemma strftime_shape dt :
  strftime dt =
  format_0d 2 (day dt) ++ " "%char :: (month_name (month_of dt) ++ " "%char :: format_0d 4 (year dt)).
Proof. reflexivity. Qed.

(** [strptime] reads the day that [strftime] wrote. *)
Lemma strptime_strftime dt :
  valid_date dt = true →
  strptime (strftime dt) = Some (midnight (year dt) (month_of dt) (day dt)).
Proof.
  intros Hv. destruct (valid_date_bounds dt Hv) as [Hy Hd].
  destruct (format_0d_spec 2 (day dt)) as (Hd1 & Hd2 & Hd3); [lia |].
  destruct (format_0d_spec 4 (year dt)) as (Hy1 & Hy2 & Hy3); [lia |].
  destruct (month_name_facts (month_of dt)) as (Hm1 & Hm2 & _ & Hm4).
  unfold strptime, words. rewrite strftime_shape.
  rewrite words_aux_cons by (done || by apply all_decimal_no_space).
  rewrite words_aux_cons by done.
  rewrite words_aux_last by (done || by apply all_decimal_no_space).
  rewrite Hd1, Hy1, Hm4.
  rewrite !format_0d_length by (cbn; lia).
  rewrite !int_digits_decimal by done. rewrite Hd3, Hy3.
  cbn [andb Z.leb Z.eqb Z.of_nat]. cbn.
  change (valid_date (midnight (year dt) (month_of dt) (day dt)))
    with (valid_date dt). by rewrite Hv.
Qed.

Lemma strftime_facts dt :
  valid_date dt = true →
  strftime dt ≠ [] ∧ trimmed (strftime dt) ∧ avoids NL (strftime dt) = true.
Proof.
  intros Hv. destruct (valid_date_bounds dt Hv) as [Hy Hd].
  destruct (format_0d_spec 2 (day dt)) as (Hd1 & Hd2 & Hd3); [lia |].
  destruct (format_0d_spec 4 (year dt)) as (Hy1 & Hy2 & Hy3); [lia |].
  destruct (month_name_facts (month_of dt)) as (Hm1 & Hm2 & Hm3 & _).
  rewrite strftime_shape. split_and!.
  - destruct (format_0d 2 (day dt)); done.
  - (* a digit at each end *)
    destruct (format_0d 2 (day dt)) as [|c0 d] eqn:Hday; [done |].
    destruct (exists_last Hy2) as (y' & c1 & Hyear).
    assert (is_space c0 = false) as Hc0.
    { cbn in Hd1. apply andb_true_iff in Hd1 as [? _]. by apply decimal_not_space. }
    assert (is_space c1 = false) as Hc1.
    { rewrite Hyear, all_decimal_app in Hy1. apply andb_true_iff in Hy1 as [_ H1].
      cbn in H1. rewrite andb_true_r in H1. by apply decimal_not_space. }
    unfold trimmed, strip. rewrite Hyear.
    change ((c0 :: d) ++ " "%char :: (month_name (month_of dt) ++ " "%char :: (y' ++ [c1])))
      with (c0 :: (d ++ " "%char :: (month_name (month_of dt) ++ " "%char :: (y' ++ [c1])))).
    rewrite lstrip_id by done.
    replace (c0 :: (d ++ " "%char :: (month_name (month_of dt) ++ " "%char :: (y' ++ [c1]))))
      with ((c0 :: (d ++ " "%char :: (month_name (month_of dt) ++ " "%char :: y'))) ++ [c1]).
    + by apply rstrip_snoc.
    + cbn. f_equal. rewrite <- !app_assoc. cbn. f_equal. f_equal.
      by rewrite <- app_assoc.
  - apply all_decimal_no_NL in Hd1, Hy1.
    rewrite avoids_app, Hd1. change (avoids NL (?c :: ?s)) with
      (negb (ascii_eqb c NL) && avoids NL s).
    by rewrite avoids_app, Hm3.
Qed.

(** ** Grouping by day and sorting the days *)

(** Both outcomes of a comparison of strings. *)
Ltac case_pystr_eqb :=
  repeat match goal with
    | |- context [pystr_eqb ?a ?b] =>
        let E := fresh "E" in
        destruct (pystr_eqb a b) eqn:E;
        [apply pystr_eqb_true in E | apply pystr_eqb_false in E]
    end.

Lemma getitem_setdefault_append k v d k' :
  getitem (setdefault_append k v d) k' =
  if decide (k = k') then getitem d k ++ [v] else getitem d k'.
Proof.
  induction d as [|[k0 vs] d IH]; cbn [setdefault_append getitem].
  - case_pystr_eqb; destruct (decide (k = k')); subst; done.
  - destruct (pystr_eqb k k0) eqn:Ek;
      [apply pystr_eqb_true in Ek | apply pystr_eqb_false in Ek];
      cbn [getitem]; rewrite ?IH; case_pystr_eqb;
      destruct (decide (k = k')); subst; done.
Qed.

Lemma keys_setdefault_append k v d x :
  x ∈ keys (setdefault_append k v d) ↔ x ∈ keys d ∨ x = k.
Proof.
  unfold keys. induction d as [|[k0 vs] d IH]; cbn [setdefault_append].
  - cbn. rewrite list_elem_of_singleton. split; [by right | by intros [?%elem_of_nil | ?]].
  - case_pystr_eqb; cbn.
    + subst k0. rewrite !elem_of_cons. split; [by left |]. intros [? | ->]; [done | by left].
    + rewrite !elem_of_cons, IH. split.
      * intros [? | [? | ?]]; [left; by left | left; by right | by right].
      * intros [[? | ?] | ?]; [by left | right; by left | right; by right].
Qed.

Lemma group_getitem data acc k :
  getitem (fold_left (fun days_data w => setdefault_append (strftime (timestamp w)) w days_data)
             data acc) k
  = getitem acc k ++ filter (fun w => day_of w = k) data.
Proof.
  revert acc. induction data as [|w data IH]; intros acc; cbn [fold_left].
  - by rewrite app_nil_r.
  - rewrite IH, getitem_setdefault_append. fold (day_of w).
    destruct (decide (day_of w = k)) as [He | Hne].
    + rewrite filter_cons_True by done. by rewrite He, <- app_assoc.
    + by rewrite filter_cons_False.
Qed.

Lemma group_keys data acc x :
  x ∈ keys (fold_left (fun days_data w => setdefault_append (strftime (timestamp w)) w days_data)
              data acc)
  ↔ x ∈ keys acc ∨ ∃ w, w ∈ data ∧ day_of w = x.
Proof.
  revert acc. induction data as [|w data IH]; intros acc; cbn [fold_left].
  - split; [by left |]. intros [? | (w & ?%elem_of_nil & _)]; done.
  - rewrite IH, keys_setdefault_append. split.
    + intros [[? | ->] | (w' & Hw' & <-)].
      * by left.
      * right. exists w. split; [by left | done].
      * right. exists w'. split; [by right | done].
    + intros [? | (w' & [-> | Hw']%elem_of_cons & <-)].
      * left. by left.
      * left. by right.
      * right. by exists w'.
Qed.

(** The list of a day holds the entries of that day, in their order. *)
Lemma group_data_getitem data k :
  getitem (_group_data_by_days data) k = filter (fun w => day_of w = k) data.
Proof. unfold _group_data_by_days. by rewrite group_getitem. Qed.

Lemma group_data_keys data x :
  x ∈ keys (_group_data_by_days data) ↔ ∃ w, w ∈ data ∧ day_of w = x.
Proof.
  unfold _group_data_by_days. rewrite group_keys. split; [| by right].
  intros [?%elem_of_nil | ?]; done.
Qed.

Lemma insert_desc_elem_of x y l : y ∈ insert_desc x l ↔ y = x ∨ y ∈ l.
Proof.
  induction l as [|z l IH]; cbn [insert_desc].
  - rewrite list_elem_of_singleton. split; [by left | by intros [? | ?%elem_of_nil]].
  - destruct (datetime_ltb (date_key x) (date_key z)).
    + rewrite !elem_of_cons, IH. split.
      * intros [? | [? | ?]]; [right; by left | by left | right; by right].
      * intros [? | [? | ?]]; [right; by left | by left | right; by right].
    + by rewrite !elem_of_cons.
Qed.

(** Sorting the days keeps them all. *)
Lemma sort_dates_elem_of l y : y ∈ _sort_dates l ↔ y ∈ l.
Proof.
  unfold _sort_dates. induction l as [|x l IH]; [done |]. cbn [fold_right].
  by rewrite insert_desc_elem_of, elem_of_cons, IH.
Qed.

(** ** The lines of the file *)

Lemma unlines_app a b : unlines (a ++ b) = unlines a ++ unlines b.
Proof. unfold unlines. by rewrite map_app, concat_app. Qed.

Lemma unlines_cons l ls : unlines (l :: ls) = l ++ NL :: unlines ls.
Proof. unfold unlines. cbn [map concat]. by rewrite <- app_assoc. Qed.

Lemma unlines_concat lss : unlines (concat lss) = concat (map unlines lss).
Proof.
  induction lss as [|ls lss IH]; [done |]. cbn [concat map].
  by rewrite unlines_app, IH.
Qed.

Lemma row_text_line w : row_text w = row_line w ++ [NL].
Proof. unfold row_text, row_line. by rewrite <- !app_assoc. Qed.

Lemma concat_row_text rows : concat (map row_text rows) = unlines (map row_line rows).
Proof.
  induction rows as [|w rows IH]; [done |]. cbn [map concat].
  rewrite unlines_cons, IH, row_text_line. by rewrite <- app_assoc.
Qed.

Lemma day_text_unlines days_data date :
  day_text days_data date = unlines (day_lines days_data date).
Proof.
  unfold day_text, day_lines. rewrite concat_row_text.
  rewrite !unlines_app. rewrite !unlines_cons. cbn [unlines map concat].
  rewrite <- !app_assoc. reflexivity.
Qed.

Lemma markdown_unlines data : markdown_of data = unlines (file_lines data).
Proof.
  unfold markdown_of, file_lines. rewrite unlines_app.
  rewrite (app_assoc (py "# Guitar Exercises") [NL; NL]).
  apply (f_equal2 (@List.app ascii)); [reflexivity |].
  destruct (_group_data_by_days data) as [|d ds] eqn:Hd; [reflexivity |].
  rewrite unlines_concat, map_map. f_equal.
  apply map_ext. intros date. apply day_text_unlines.
Qed.

Lemma split_unlines ls :
  Forall (fun l => avoids NL l = true) ls → split_on NL (unlines ls) = ls ++ [[]].
Proof.
  induction 1 as [|l ls Hl Hls IH]; [done |].
  rewrite unlines_cons, split_on_app by done. by rewrite IH.
Qed.

(** ** Reading the lines back *)

Lemma load_line_blank now st : load_line now st [] = st.
Proof. destruct st as [[[|c d]|] acc]; reflexivity. Qed.

Lemma load_line_no_date now acc line :
  startswith (py "## ") line = false → load_line now (None, acc) line = (None, acc).
Proof. intros H. unfold load_line. by rewrite H. Qed.

Lemma load_line_header now cd acc date :
  trimmed date → load_line now (cd, acc) (py "## " ++ date) = (Some date, acc).
Proof.
  intros Hd. unfold load_line.
  change (startswith (py "## ") (py "## " ++ date)) with true.
  change (drop 3 (py "## " ++ date)) with date.
  cbv iota. by rewrite Hd.
Qed.

Lemma load_line_titles now date acc :
  load_line now (Some date, acc) (py "| Exercise Name | Time  | BPM |") = (Some date, acc)
  ∧ load_line now (Some date, acc) (py "| ------------------- | ------ | --- |")
    = (Some date, acc).
Proof. destruct date; split; reflexivity. Qed.

Lemma row_ok_spec w :
  row_ok w = true →
  row_safe_name (exercise w) = true
  ∧ time w ≠ [] ∧ forallb plain_char (time w) = true
  ∧ bpm w ≠ [] ∧ forallb plain_char (bpm w) = true
  ∧ valid_date (timestamp w) = true.
Proof.
  unfold row_ok. rewrite !andb_true_iff. intros [[[Hn Ht] Hb] Hv].
  apply valid_duration_plain in Ht as [? ?]. apply valid_bpm_plain in Hb as [? ?].
  done.
Qed.

Lemma row_line_avoids_NL w : row_ok w = true → avoids NL (row_line w) = true.
Proof.
  intros (Hn & _ & Ht & _ & Hb & _)%row_ok_spec.
  apply row_safe_name_spec in Hn as (_ & _ & Hn & _).
  apply (plain_avoids NL) in Ht, Hb; [| done | done].
  rewrite row_line_shape.
  change (avoids NL (?a :: ?b :: ?s)) with
    (negb (ascii_eqb a NL) && (negb (ascii_eqb b NL) && avoids NL s)).
  rewrite avoids_app, Hn.
  change (avoids NL (?a :: ?b :: ?c :: ?s)) with
    (negb (ascii_eqb a NL) && (negb (ascii_eqb b NL)
       && (negb (ascii_eqb c NL) && avoids NL s))).
  rewrite avoids_app, Ht.
  change (avoids NL (?a :: ?b :: ?c :: ?s)) with
    (negb (ascii_eqb a NL) && (negb (ascii_eqb b NL)
       && (negb (ascii_eqb c NL) && avoids NL s))).
  by rewrite avoids_app, Hb.
Qed.

(** The rows of a day are read back one by one. *)
Lemma load_rows now date dt rows acc :
  date ≠ [] → strptime date = Some dt →
  Forall (fun w => row_ok w = true) rows →
  fold_left (load_line now) (map row_line rows) (Some date, acc)
  = (Some date, acc ++ map (relabel dt) rows).
Proof.
  intros Hne Hdt Hrows. revert acc.
  induction Hrows as [|w rows Hw Hrows IH]; intros acc.
  - cbn. by rewrite app_nil_r.
  - cbn [map fold_left].
    destruct (row_ok_spec w Hw) as (Hn & Ht1 & Ht2 & Hb1 & Hb2 & _).
    destruct w as [ex t b ts]. cbn [exercise time bpm] in *.
    rewrite (load_line_row now date acc ex t b ts dt) by done.
    rewrite IH. by rewrite <- app_assoc.
Qed.

(** The block of a day is read back as the entries of the day, stamped
    with the day of the header. *)
Lemma load_day now cd acc days_data date dt :
  date ≠ [] → trimmed date → strptime date = Some dt →
  Forall (fun w => row_ok w = true) (getitem days_data date) →
  fold_left (load_line now) (day_lines days_data date) (cd, acc)
  = (Some date, acc ++ map (relabel dt) (getitem days_data date)).
Proof.
  intros Hne Htrim Hdt Hrows. unfold day_lines.
  rewrite !fold_left_app. cbn [fold_left].
  rewrite load_line_header by done. rewrite !load_line_blank.
  destruct (load_line_titles now date acc) as [-> ->].
  by rewrite (load_rows now date dt).
Qed.

Lemma load_days now days_data dates cd acc :
  Forall (fun date =>
            date ≠ [] ∧ trimmed date ∧ (∃ dt, strptime date = Some dt)
            ∧ Forall (fun w => row_ok w = true) (getitem days_data date)) dates →
  snd (fold_left (load_line now) (concat (map (day_lines days_data) dates)) (cd, acc))
  = acc ++ concat (map (fun date => map (relabel (stamp now date)) (getitem days_data date))
                     dates).
Proof.
  intros Hdates. revert cd acc.
  induction Hdates as [|date dates (Hne & Htr & [dt Hdt] & Hrows) Hdates IH];
    intros cd acc.
  - cbn. by rewrite app_nil_r.
  - cbn [map concat]. rewrite fold_left_app.
    rewrite (load_day now cd acc days_data date dt) by done.
    rewrite IH. unfold stamp at 2. rewrite Hdt. by rewrite <- app_assoc.
Qed.

Lemma day_facts data date :
  Forall (fun w => row_ok w = true) data →
  date ∈ keys (_group_data_by_days data) →
  date ≠ [] ∧ trimmed date ∧ avoids NL date = true
  ∧ (∃ dt, strptime date = Some dt)
  ∧ Forall (fun w => row_ok w = true) (getitem (_group_data_by_days data) date).
Proof.
  intros Hdata (w & Hw & <-)%group_data_keys.
  rewrite Forall_forall in Hdata.
  destruct (row_ok_spec w (Hdata w Hw)) as (_ & _ & _ & _ & _ & Hv).
  destruct (strftime_facts (timestamp w) Hv) as (Hne & Htr & Hnl).
  split_and!; try done.
  - eexists. by apply strptime_strftime.
  - rewrite group_data_getitem. apply Forall_forall.
    intros w' [_ Hw']%list_elem_of_filter. by apply Hdata.
Qed.

Lemma day_lines_avoid_NL data date :
  Forall (fun w => row_ok w = true) data →
  date ∈ keys (_group_data_by_days data) →
  Forall (fun l => avoids NL l = true) (day_lines (_group_data_by_days data) date).
Proof.
  intros Hdata Hdate.
  destruct (day_facts data date Hdata Hdate) as (_ & _ & Hnl & _ & Hrows).
  unfold day_lines. apply Forall_app. split.
  - repeat constructor. exact Hnl.
  - apply Forall_app. split; [| by repeat constructor].
    apply Forall_map. eapply Forall_impl; [exact Hrows |].
    intros w Hw. by apply row_line_avoids_NL.
Qed.

Lemma file_lines_avoid_NL data :
  Forall (fun w => row_ok w = true) data →
  Forall (fun l => avoids NL l = true) (file_lines data).
Proof.
  intros Hdata. unfold file_lines. apply Forall_app. split; [by repeat constructor |].
  destruct (_group_data_by_days data) as [|d ds] eqn:Hd; [by repeat constructor |].
  rewrite <- Hd. apply Forall_concat, Forall_map, Forall_forall.
  intros date Hdate. apply (proj1 (sort_dates_elem_of _ _)) in Hdate. by apply day_lines_avoid_NL.
Qed.

(** What [load_data] reads from the file that [save_data] wrote: day by
    day, in the order of the file, the entries of the day in their order,
    each with the time stamp of its day. *)
Lemma parse_markdown_of now data :
  Forall (fun w => row_ok w = true) data →
  parse_markdown now (markdown_of data) =
  concat (map (fun date => map (relabel (stamp now date))
                             (filter (fun w => day_of w = date) data))
            (_sort_dates (keys (_group_data_by_days data)))).
Proof.
  intros Hdata. unfold parse_markdown.
  rewrite markdown_unlines, split_unlines by by apply file_lines_avoid_NL.
  rewrite fold_left_app. cbn [fold_left]. rewrite load_line_blank.
  unfold file_lines. rewrite fold_left_app. cbn [fold_left].
  rewrite !load_line_no_date by done.
  destruct (_group_data_by_days data) as [|d ds] eqn:Hd; [done |].
  rewrite <- Hd. rewrite load_days.
  - rewrite app_nil_l. f_equal. apply map_ext. intros date.
    by rewrite group_data_getitem.
  - apply Forall_forall. intros date Hdate. apply (proj1 (sort_dates_elem_of _ _)) in Hdate.
    destruct (day_facts data date Hdata Hdate) as (? & ? & _ & ? & ?). done.
Qed.

(** C2, as the program has it. When every entry of the log has a valid
    date, a duration text of two or three colon-separated fields of
    digits, a bpm that [isdigit] accepts, and an exercise name that is safe
    in a row of the table, then saving the log and loading the file gives,
    for every entry of the log, an entry with the same exercise name,
    duration text, bpm token and calendar day. *)
Theorem save_load_round_trip now (a : trainer) :
  Forall (fun w => row_ok w = true) (workout_data a) →
  ∀ w, w ∈ workout_data a →
       ∃ w', w' ∈ workout_data (load_data now (save_data a)) ∧ same_row w w'.
Proof.
  intros Hdata w Hw.
  change (workout_data (load_data now (save_data a)))
    with (parse_markdown now (markdown_of (workout_data a))).
  rewrite parse_markdown_of by done.
  rewrite Forall_forall in Hdata.
  destruct (row_ok_spec w (Hdata w Hw)) as (_ & _ & _ & _ & _ & Hv).
  exists (relabel (stamp now (day_of w)) w). split.
  - apply list_elem_of_In, in_concat.
    exists (map (relabel (stamp now (day_of w)))
              (filter (fun w' => day_of w' = day_of w) (workout_data a))).
    split; apply list_elem_of_In.
    + apply list_elem_of_fmap. exists (day_of w). split; [reflexivity |].
      apply sort_dates_elem_of, group_data_keys. by exists w.
    + apply list_elem_of_fmap_2. by apply list_elem_of_filter.
  - unfold same_row, stamp, day_of. rewrite strptime_strftime by done. done.
Qed.

(** Nothing else is read: every entry loaded is an entry of the log with
    the time stamp of its day. *)
Lemma load_save_sound now (a : trainer) :
  Forall (fun w => row_ok w = true) (workout_data a) →
  ∀ w', w' ∈ workout_data (load_data now (save_data a)) →
        ∃ w, w ∈ workout_data a ∧ same_row w w'.
Proof.
  intros Hdata w' Hw'.
  change (workout_data (load_data now (save_data a)))
    with (parse_markdown now (markdown_of (workout_data a))) in Hw'.
  rewrite parse_markdown_of in Hw' by done.
  apply list_elem_of_In, in_concat in Hw' as (ws & Hws & Hw').
  apply list_elem_of_In, list_elem_of_fmap in Hws as (date & -> & _).
  apply list_elem_of_In, list_elem_of_fmap in Hw' as (w & -> & [Hday Hw]%list_elem_of_filter).
  exists w. split; [done |].
  rewrite Forall_forall in Hdata.
  destruct (row_ok_spec w (Hdata w Hw)) as (_ & _ & _ & _ & _ & Hv).
  unfold same_row, stamp. rewrite <- Hday. unfold day_of.
  by rewrite strptime_strftime.
Qed.

Lemma save_load_round_trip_witness :
  Forall (fun w => row_ok w = true) three_rows
  ∧ ∃ w', w' ∈ workout_data
             (load_data (mk_datetime 2024 March 2 8 0 0 0)
                (save_data (set_workout_data three_rows (init_trainer None))))
          ∧ same_row
              (mk_workout (py "Riff in A") (py "01:01:01") (py "90")
                 (mk_datetime 2024 March 1 9 0 0 0)) w'.
Proof.
  assert (Forall (fun w => row_ok w = true) three_rows) as H.
  { repeat constructor. }
  split; [exact H |].
  apply (save_load_round_trip (mk_datetime 2024 March 2 8 0 0 0)
           (set_workout_data three_rows (init_trainer None)) H).
  right. left.
Defined.

(** C2 as stated fails: an entry with a valid time stamp, duration and bpm
    whose exercise is called "BPM drill" is written to the file and is not
    read back, since [load_data] passes over every line with "BPM" in it. *)
Lemma round_trip_counterexample :
  let w := mk_workout (py "BPM drill") (py "00:04") (py "80")
             (mk_datetime 2024 March 1 9 0 0 0) in
  let a := set_workout_data [w] (init_trainer None) in
  valid_date (timestamp w) = true
  ∧ valid_duration (time w) = true
  ∧ valid_bpm (bpm w) = true
  ∧ data_file (save_data a) =
      Some (py "# Guitar Exercises" ++ [NL; NL] ++ py "## 01 March 2024" ++ [NL; NL]
            ++ py "| Exercise Name | Time  | BPM |" ++ [NL]
            ++ py "| ------------------- | ------ | --- |" ++ [NL]
            ++ py "| BPM drill | 00:04 | 80 |" ++ [NL; NL])
  ∧ workout_data (load_data (mk_datetime 2024 March 2 8 0 0 0) (save_data a)) = []
  ∧ ¬ ∃ w', w' ∈ workout_data (load_data (mk_datetime 2024 March 2 8 0 0 0) (save_data a))
            ∧ same_row w w'.
Proof.
  intros w a.
  assert (workout_data (load_data (mk_datetime 2024 March 2 8 0 0 0) (save_data a)) = [])
    as Hload by by vm_compute.
  split_and!; try by vm_compute.
  rewrite Hload. intros (w' & Hw' & _). by apply elem_of_nil in Hw'.
Qed.

(** * Further properties *)

(** ** Duration texts *)



Lemma digits_field_intro f : f ≠ [] → all_decimal f = true → digits_field f = true.
Proof.
  intros Hne Hd. unfold digits_field. rewrite Hd.
  by rewrite (proj2 (pystr_eqb_false f [])).
Qed.



Lemma format_time_valid s : 0 <= s → valid_duration (_format_time s) = true.
Proof.
  intros Hs.
  assert (0 <= s mod 60) by (apply Z.mod_pos_bound; lia).
  assert (0 <= (s mod 3600) / 60) by (apply Z.div_pos; [apply Z.mod_pos_bound |]; lia).
  destruct (format_0d_spec 2 (s mod 60)) as (Hd1 & Hn1 & _); [done |].
  destruct (format_0d_spec 2 ((s mod 3600) / 60)) as (Hd2 & Hn2 & _); [done |].
  unfold valid_duration.
  destruct (Z.ltb_spec 0 (s / 3600)) as [Hh | Hh].
  - destruct (format_0d_spec 2 (s / 3600)) as (Hd3 & Hn3 & _); [lia |].
    rewrite format_time_long by done.
    rewrite !split_on_app by by apply all_decimal_avoids.
    rewrite split_on_avoids by by apply all_decimal_avoids.
    by rewrite !digits_field_intro.
  - rewrite format_time_short by done.
    rewrite split_on_app by by apply all_decimal_avoids.
    rewrite split_on_avoids by by apply all_decimal_avoids.
    by rewrite !digits_field_intro.
Qed.





(** X3. Below one hour, and so for every negative number, [_format_time]
    leaves the hours out: the text is that of the seconds modulo 3600, and
    [_parse_time] reads it back as that remainder, not as the number. *)
Theorem format_time_wraps_below_one_hour (s : Z) :
  s < 3600 →
  _format_time s = _format_time (s mod 3600)
  ∧ _parse_time (_format_time s) = Return (s mod 3600).
Proof.
  intros Hs.
  assert (0 <= s mod 3600 < 3600) as Hm by (apply Z.mod_pos_bound; lia).
  assert (_format_time s = _format_time (s mod 3600)) as Heq.
  { rewrite (format_time_short s), (format_time_short (s mod 3600)).
    - rewrite Z.mod_mod by lia.
      replace ((s mod 3600) mod 60) with (s mod 60); [done |].
      Z.to_euclidean_division_equations. lia.
    - rewrite Z.div_small; lia.
    - Z.to_euclidean_division_equations. lia. }
  split; [done |]. rewrite Heq. apply parse_format_time. lia.
Qed.

Lemma format_time_wraps_below_one_hour_witness :
  -7205 < 3600
  ∧ _format_time (-7205) = _format_time ((-7205) mod 3600)
  ∧ _parse_time (_format_time (-7205)) = Return ((-7205) mod 3600).
Proof. split; [lia | apply (format_time_wraps_below_one_hour (-7205)); lia]. Defined.

(** ** Pausing and resuming *)

(** X4. Pausing a running timer stops the clock and the metronome; the
    resume that follows starts the clock again, counts one second at once,
    and leaves the metronome as it was before the pause. The log, the
    tempo and the exercise are not touched. *)
Theorem pause_resume_restores_metronome (a : trainer) (pending : nat) :
  timer_running a = true →
  let paused := pause_timer (a, pending) in
  let resumed := pause_timer paused in
  timer_running (fst paused) = false
  ∧ metronome_running (fst paused) = false
  ∧ elapsed_time (fst paused) = elapsed_time a
  ∧ timer_running (fst resumed) = true
  ∧ metronome_running (fst resumed) = metronome_running a
  ∧ elapsed_time (fst resumed) = elapsed_time a + 1
  ∧ workout_data (fst resumed) = workout_data a
  ∧ metronome_bpm (fst resumed) = metronome_bpm a
  ∧ current_exercise (fst resumed) = current_exercise a.
Proof.
  intros Hr. unfold pause_timer. rewrite Hr.
  destruct (metronome_running a) eqn:Hm; cbn; rewrite ?Hm; cbn; done.
Qed.

Lemma pause_resume_restores_metronome_witness :
  metronome_running
    (fst (pause_timer (pause_timer
       (set_metronome_running true (reset_timer (init_trainer None)), 1%nat)))) = true.
Proof.
  apply (pause_resume_restores_metronome
           (set_metronome_running true (reset_timer (init_trainer None))) 1).
  reflexivity.
Defined.

Lemma fire_running a pending :
  timer_running a = true →
  fire (a, S pending) = (update_timer a, S pending).
Proof. intros Hr. cbn. by rewrite Hr. Qed.

Lemma fire_stopped a pending :
  timer_running a = false → fire (a, S pending) = (a, pending).
Proof. intros Hr. cbn. by rewrite Hr. Qed.

Lemma update_timer_running a :
  timer_running a = true →
  timer_running (update_timer a) = true
  ∧ elapsed_time (update_timer a) = elapsed_time a + 1.
Proof. intros Hr. unfold update_timer. by rewrite Hr. Qed.

Lemma fires_running n a pending :
  timer_running a = true →
  Nat.iter n fire (a, S pending) = (ticks n a, S pending).
Proof.
  intros Hr. induction n as [|n IH]; [done |].
  rewrite Nat.iter_succ, IH, ticks_S. apply fire_running. by apply ticks_running.
Qed.

Lemma fires_stopped (k : nat) a pending :
  timer_running a = false →
  (k <= pending)%nat →
  Nat.iter k fire (a, pending) = (a, (pending - k)%nat).
Proof.
  intros Hr. induction k as [|k IH]; intros Hk.
  - cbn. do 2 f_equal. lia.
  - rewrite Nat.iter_succ, IH by lia.
    destruct (pending - k)%nat as [|m] eqn:Hm; [lia |].
    rewrite fire_stopped by done. do 2 f_equal. lia.
Qed.

(** X5. Nothing cancels a scheduled call of [update_timer]. Of the
    [pending] calls that a running timer has, the [k] that come due during
    a pause lapse, and the resume schedules one more: [pending - k + 1]
    calls are pending after it. From then on every call that comes due
    counts one second and schedules its successor, so the number of
    pending calls stays, and the elapsed time goes up by one with each of
    them: after a pause shorter than the second of the pending call, two
    calls count the time. *)
Theorem resume_adds_a_timer_callback (a : trainer) (pending k n : nat) :
  timer_running a = true →
  (k <= pending)%nat →
  let resumed := pause_timer (Nat.iter k fire (pause_timer (a, pending))) in
  snd resumed = S (pending - k)
  ∧ snd (Nat.iter n fire resumed) = S (pending - k)
  ∧ elapsed_time (fst (Nat.iter n fire resumed)) = elapsed_time a + 1 + Z.of_nat n.
Proof.
  intros Hr Hk.
  set (paused := pause_timer (a, pending)).
  assert (∃ a', paused = (a', pending) ∧ timer_running a' = false
                ∧ elapsed_time a' = elapsed_time a) as (a' & Hp & Hr' & He').
  { unfold paused, pause_timer. rewrite Hr. cbn.
    destruct (metronome_running a); eexists; split; try reflexivity; done. }
  rewrite Hp, fires_stopped by done. cbv zeta.
  assert (∃ a'', pause_timer (a', (pending - k)%nat) = (a'', S (pending - k))
                 ∧ timer_running a'' = true
                 ∧ elapsed_time a'' = elapsed_time a + 1) as (a'' & Hp' & Hr'' & He'').
  { unfold pause_timer. rewrite Hr'. cbn.
    destruct (_ && _); eexists; split; try reflexivity; cbn; rewrite He'; done. }
  rewrite Hp', fires_running by done. cbn [fst snd].
  split_and!; [done | done |].
  rewrite ticks_elapsed by done. lia.
Qed.

Lemma resume_adds_a_timer_callback_witness :
  snd (pause_timer (Nat.iter 0 fire (pause_timer (reset_timer (init_trainer None), 1%nat))))
  = 2%nat.
Proof.
  apply (resume_adds_a_timer_callback (reset_timer (init_trainer None)) 1 0 0);
    [reflexivity | lia].
Defined.

Lemma session_step_invariant s e :
  1 <= elapsed_time (fst s) →
  (timer_running (fst s) = true → (1 <= snd s)%nat) →
  1 <= elapsed_time (fst (session_step s e))
  ∧ (timer_running (fst (session_step s e)) = true → (1 <= snd (session_step s e))%nat)
  ∧ current_exercise (fst (session_step s e)) = current_exercise (fst s)
  ∧ workout_data (fst (session_step s e)) = workout_data (fst s).
Proof.
  destruct s as [a pending]. cbn [fst snd]. intros He Hp.
  destruct e as [| | |delta]; cbn [session_step fst snd].
  - destruct pending as [|pending]; [done |].
    destruct (timer_running a) eqn:Hr.
    + rewrite fire_running by done. cbn [fst snd].
      destruct (update_timer_running a Hr) as [-> ->].
      split_and!; [lia | lia | by unfold update_timer; rewrite Hr
                  | by unfold update_timer; rewrite Hr].
    + rewrite fire_stopped by done. cbn [fst snd]. by rewrite Hr.
  - unfold pause_timer. destruct (timer_running a) eqn:Hr.
    + cbn. destruct (metronome_running a); split_and!; first [exact He | done].
    + cbn. destruct (_ && _); cbn; split_and!; first [done | lia].
  - done.
  - unfold change_bpm. by destruct (_ && _).
Qed.

(** X6. From [start_timer] on, whatever the callbacks and the buttons of
    the timer screen do in whatever order, the elapsed time is at least 1
    and a running timer has a call of [update_timer] pending. The exercise
    and the log stay, so the entry that is then saved has a duration text
    of two or three fields of digits, never the wrapped text of a negative
    number, and [_parse_time] reads the recorded seconds back. *)
Theorem session_records_a_valid_duration
    (events : list session_event) (s : scheduled) (now : datetime) (bpm : pystr) :
  let ended := fst (session events s) in
  let entry := _create_exercise_data now bpm (finish_exercise ended) in
  1 <= elapsed_time ended
  ∧ (timer_running ended = true → (1 <= snd (session events s))%nat)
  ∧ exercise entry = current_exercise (fst s)
  ∧ valid_duration (time entry) = true
  ∧ _parse_time (time entry) = Return (elapsed_time ended - 1).
Proof.
  cbv zeta.
  assert (1 <= elapsed_time (fst (session events s))
          ∧ (timer_running (fst (session events s)) = true
             → (1 <= snd (session events s))%nat)
          ∧ current_exercise (fst (session events s)) = current_exercise (fst s))
    as (He & Hp & Hx).
  { unfold session.
    assert (1 <= elapsed_time (fst (start_timer_after s))
            ∧ (timer_running (fst (start_timer_after s)) = true
               → (1 <= snd (start_timer_after s))%nat)
            ∧ current_exercise (fst (start_timer_after s)) = current_exercise (fst s))
      as Hstart by (destruct s as [a pending]; cbn; split_and!; [lia | lia | done]).
    revert Hstart. generalize (start_timer_after s) as s0.
    induction events as [|e events IH]; intros s0 (He & Hp & Hx); [done |].
    cbn [fold_left]. apply IH.
    destruct (session_step_invariant s0 e He Hp) as (? & ? & ? & ?).
    split_and!; [done | done | congruence]. }
  split_and!; [done | done | done | |].
  - apply format_time_valid. cbn. lia.
  - apply parse_format_time. cbn. lia.
Qed.

(** ** Statistics of an exercise *)

Lemma for_each_app {A S} (body : S → A → exc S) (l l' : list A) (s : S) :
  for_each body (l ++ l') s = s' ← for_each body l s; for_each body l' s'.
Proof.
  revert s. induction l as [|x l IH]; intros s; [done |].
  cbn [for_each List.app]. destruct (body s x) as [s' | e]; [apply IH | done].
Qed.

Lemma best_step_other name best w :
  exercise w ≠ name → best_step name best w = Return best.
Proof. intros Hne. unfold best_step. by rewrite bool_decide_eq_false_2. Qed.

Lemma best_loop_filter name log best :
  for_each (best_step name) log best
  = for_each (best_step name) (filter (fun w => exercise w = name) log) best.
Proof.
  revert best. induction log as [|w log IH]; intros best; [done |].
  destruct (decide (exercise w = name)) as [He | He].
  - rewrite filter_cons_True by done. cbn [for_each].
    destruct (best_step name best w); [apply IH | done].
  - rewrite filter_cons_False by done. cbn [for_each].
    rewrite best_step_other by done. apply IH.
Qed.








(** X9. The best bpm and the statistics of an exercise depend on the
    entries of that exercise alone: two logs with the same entries of the
    exercise, in the same order, give the same results, the raised error
    included. An entry of another exercise, whatever its texts, changes
    neither. *)
Theorem stats_depend_on_own_entries (name : pystr) (a a' : trainer) :
  filter (fun w => exercise w = name) (workout_data a)
  = filter (fun w => exercise w = name) (workout_data a') →
  get_best_bpm name a = get_best_bpm name a'
  ∧ get_exercise_stats name a = get_exercise_stats name a'.
Proof.
  intros Hf. split.
  - unfold get_best_bpm. by rewrite (best_loop_filter name (workout_data a)),
      (best_loop_filter name (workout_data a')), Hf.
  - unfold get_exercise_stats. by rewrite Hf.
Qed.

Lemma stats_depend_on_own_entries_witness :
  get_best_bpm (py "Scales")
    (set_workout_data
       (mk_workout (py "Chords") (py "x") superscript_two (midnight 2024 March 1)
        :: two_scales) (init_trainer None))
  = get_best_bpm (py "Scales") (set_workout_data two_scales (init_trainer None)).
Proof.
  apply (stats_depend_on_own_entries (py "Scales")
           (set_workout_data
              (mk_workout (py "Chords") (py "x") superscript_two (midnight 2024 March 1)
               :: two_scales) (init_trainer None))
           (set_workout_data two_scales (init_trainer None))).
  reflexivity.
Defined.

(** ** The bpm that the entry field proposes *)





(** ** The total training time *)




(** X12. A session that ends with an accepted bpm, by [finish_workout] or
    by [save_and_continue], adds its recorded seconds, one less than the
    elapsed time, to the total training time; [save_and_continue] also
    sets the elapsed time back to 0, and [finish_workout] tells that the
    data is saved. *)
Theorem finished_session_adds_to_total (now : datetime) (text : pystr) (a : trainer) (n : Z) :
  total_training_seconds a = Return n →
  isdigit text = true →
  1 <= elapsed_time a →
  total_training_seconds (finish_workout now text a) = Return (n + (elapsed_time a - 1))
  ∧ total_training_seconds (save_and_continue now text a)
    = Return (n + (elapsed_time a - 1))
  ∧ elapsed_time (save_and_continue now text a) = 0
  ∧ messages (finish_workout now text a)
    = messages a ++ [showinfo (py "Workout Completed")
                       (py "Data saved! Returning to main menu.")].
Proof.
  intros Htotal Hdg He.
  assert (total_training_seconds (fst (_save_workout_data now text a))
          = Return (n + (elapsed_time a - 1))) as Hsaved.
  { unfold _save_workout_data. rewrite Hdg. cbn [negb fst].
    unfold total_training_seconds in *.
    change (workout_data (save_data ?x)) with (workout_data x).
    cbn [workout_data set_workout_data _stop_metronome set_metronome_running].
    rewrite for_each_app, Htotal. cbn [mbind exc_bind for_each].
    unfold _create_exercise_data.
    cbn [time elapsed_time set_metronome_running _stop_metronome].
    rewrite parse_format_time by lia. done. }
  unfold finish_workout, save_and_continue.
  unfold _save_workout_data in *. rewrite Hdg in *. cbn [negb fst] in *.
  split_and!; [exact Hsaved | exact Hsaved | done | done].
Qed.

Lemma finished_session_adds_to_total_witness :
  total_training_seconds
    (finish_workout (midnight 2024 March 3) (py "80")
       (set_elapsed_time 5 (set_workout_data two_scales (init_trainer None))))
  = Return (672 + (5 - 1)).
Proof.
  apply (finished_session_adds_to_total (midnight 2024 March 3) (py "80")
           (set_elapsed_time 5 (set_workout_data two_scales (init_trainer None))) 672);
    [reflexivity | reflexivity | cbn; lia].
Defined.

(** ** The order of time stamps *)

Lemma lex_ltb_irrefl a : lex_ltb a a = false.
Proof.
  induction a as [|x a IH]; [done |]. cbn [lex_ltb].
  rewrite Z.ltb_irrefl, Z.eqb_refl, IH. done.
Qed.

Lemma lex_ltb_asym a b : lex_ltb a b = true → lex_ltb b a = false.
Proof.
  revert b. induction a as [|x a IH]; intros [|y b]; cbn [lex_ltb]; try done.
  destruct (Z.ltb_spec x y), (Z.ltb_spec y x), (Z.eqb_spec x y), (Z.eqb_spec y x);
    cbn; try done; try lia. apply IH.
Qed.

Lemma lex_ltb_between a b c :
  lex_ltb a c = true → lex_ltb a b = true ∨ lex_ltb b c = true.
Proof.
  revert b c. induction a as [|x a IH]; intros [|y b] [|z c]; cbn [lex_ltb];
    try done; try (by left); try (by right).
  destruct (Z.ltb_spec x z), (Z.ltb_spec x y), (Z.ltb_spec y z),
    (Z.eqb_spec x z), (Z.eqb_spec x y), (Z.eqb_spec y z);
    cbn; try lia; try (by left); try (by right); try done.
  apply IH.
Qed.

Lemma lex_ltb_total a b :
  length a = length b → lex_ltb a b = false → lex_ltb b a = false → a = b.
Proof.
  revert b. induction a as [|x a IH]; intros [|y b]; cbn [lex_ltb length]; try done.
  intros Hlen. injection Hlen as Hlen.
  destruct (Z.ltb_spec x y), (Z.ltb_spec y x), (Z.eqb_spec x y), (Z.eqb_spec y x);
    cbn; try done; try lia.
  intros H1 H2. subst. f_equal. by apply IH.
Qed.

Lemma month_number_inj m m' : month_number m = month_number m' → m = m'.
Proof. by destruct m, m'. Qed.

Lemma fields_inj a b : fields a = fields b → a = b.
Proof.
  destruct a, b. unfold fields. cbn. intros H. injection H as -> Hm -> -> -> -> ->.
  by apply month_number_inj in Hm as ->.
Qed.

Lemma datetime_ltb_irrefl a : datetime_ltb a a = false.
Proof. apply lex_ltb_irrefl. Qed.

Lemma datetime_ltb_asym a b : datetime_ltb a b = true → datetime_ltb b a = false.
Proof. apply lex_ltb_asym. Qed.

(** Not earlier than: when [a] is not before [b] and [b] not before [c],
    [a] is not before [c]. *)
Lemma datetime_geb_trans a b c :
  datetime_ltb a b = false → datetime_ltb b c = false → datetime_ltb a c = false.
Proof.
  intros Hab Hbc. destruct (datetime_ltb a c) eqn:Hac; [| done].
  destruct (lex_ltb_between _ (fields b) _ Hac) as [H | H];
    unfold datetime_ltb in *; congruence.
Qed.

Lemma datetime_ltb_total a b :
  datetime_ltb a b = false → datetime_ltb b a = false → a = b.
Proof. intros H1 H2. apply fields_inj. by apply lex_ltb_total. Qed.

(** *** The order and the timeline *)

Lemma days_before_year_S y :
  days_before_year (y + 1) = days_before_year y + 365 + (if is_leap y then 1 else 0).
Proof.
  unfold days_before_year, is_leap.
  replace (y + 1 - 1) with y by lia.
  destruct (Z.eqb_spec (y mod 4) 0), (Z.eqb_spec (y mod 100) 0),
    (Z.eqb_spec (y mod 400) 0); cbn [andb orb negb];
    Z.to_euclidean_division_equations; lia.
Qed.

Lemma days_before_year_mono y y' :
  y <= y' → days_before_year y <= days_before_year y'.
Proof.
  intros H. unfold days_before_year. Z.to_euclidean_division_equations. lia.
Qed.

Lemma days_before_month_next y m m' :
  month_number m < month_number m' →
  days_before_month y m + days_in_month y m <= days_before_month y m'.
Proof.
  unfold days_before_month, days_in_month.
  destruct (is_leap y), m, m'; cbn [month_number]; lia.
Qed.

Lemma days_before_month_year y m :
  days_before_month y m + days_in_month y m
  <= 365 + (if is_leap y then 1 else 0).
Proof. unfold days_before_month, days_in_month. destruct (is_leap y), m; lia. Qed.

Lemma days_before_month_nonneg y m : 0 <= days_before_month y m.
Proof. unfold days_before_month. destruct (is_leap y), m; lia. Qed.

Lemma valid_datetime_spec dt :
  valid_datetime dt = true →
  1 <= day dt <= days_in_month (year dt) (month_of dt)
  ∧ 0 <= hour dt < 24 ∧ 0 <= minute dt < 60 ∧ 0 <= second dt < 60
  ∧ 0 <= microsecond dt < 1000000.
Proof.
  unfold valid_datetime, valid_date. rewrite !andb_true_iff.
  rewrite !Z.leb_le, !Z.ltb_lt. lia.
Qed.

Lemma toordinal_lt a b :
  valid_datetime a = true → valid_datetime b = true →
  lex_ltb [year a; month_number (month_of a); day a]
          [year b; month_number (month_of b); day b] = true →
  toordinal a < toordinal b.
Proof.
  intros Ha%valid_datetime_spec Hb%valid_datetime_spec. unfold toordinal. cbn [lex_ltb].
  pose proof (days_before_month_nonneg (year b) (month_of b)).
  pose proof (days_before_month_year (year a) (month_of a)).
  destruct (Z.ltb_spec (year a) (year b)) as [Hy | Hy].
  - intros _. pose proof (days_before_year_S (year a)).
    pose proof (days_before_year_mono (year a + 1) (year b) ltac:(lia)). lia.
  - destruct (Z.eqb_spec (year a) (year b)) as [Hy' | Hy']; [| done]. cbn [orb andb].
    rewrite <- Hy' in *.
    destruct (Z.ltb_spec (month_number (month_of a)) (month_number (month_of b)))
      as [Hm | Hm].
    + intros _. pose proof (days_before_month_next (year a) _ _ Hm). lia.
    + destruct (Z.eqb_spec (month_number (month_of a)) (month_number (month_of b)))
        as [Hm' | Hm']; [| done]. cbn [orb andb].
      apply month_number_inj in Hm'. rewrite <- Hm'.
      destruct (Z.ltb_spec (day a) (day b)); [intros _; lia |].
      by destruct (day a =? day b).
Qed.

Lemma microseconds_of_lt a b :
  valid_datetime a = true → valid_datetime b = true →
  datetime_ltb a b = true → microseconds_of a < microseconds_of b.
Proof.
  intros Ha Hb Hlt.
  pose proof (toordinal_lt a b Ha Hb) as Hord.
  pose proof (valid_datetime_spec a Ha) as Hva.
  pose proof (valid_datetime_spec b Hb) as Hvb.
  assert (toordinal a < toordinal b
          ∨ toordinal a = toordinal b
            ∧ lex_ltb [hour a; minute a; second a; microsecond a]
                      [hour b; minute b; second b; microsecond b] = true) as Hcases.
  { unfold datetime_ltb, fields in Hlt. cbn [lex_ltb] in Hlt, Hord.
    destruct (Z.ltb_spec (year a) (year b)); [left; by apply Hord |].
    destruct (Z.eqb_spec (year a) (year b)) as [Hy | ?]; [| done].
    cbn [orb andb] in Hlt, Hord.
    destruct (Z.ltb_spec (month_number (month_of a)) (month_number (month_of b)));
      [left; by apply Hord |].
    destruct (Z.eqb_spec (month_number (month_of a)) (month_number (month_of b)))
      as [Hm | ?]; [| done].
    cbn [orb andb] in Hlt, Hord.
    destruct (Z.ltb_spec (day a) (day b)); [left; by apply Hord |].
    destruct (Z.eqb_spec (day a) (day b)) as [Hd | ?]; [| done].
    cbn [orb andb] in Hlt. right. split; [| exact Hlt].
    unfold toordinal. apply month_number_inj in Hm. by rewrite Hy, Hm, Hd. }
  unfold microseconds_of. destruct Hcases as [Hlt' | [Heq Hlt']]; [lia |].
  rewrite Heq. cbn [lex_ltb] in Hlt'.
  destruct (Z.ltb_spec (hour a) (hour b)); [lia |].
  destruct (Z.eqb_spec (hour a) (hour b)); [| done]. cbn [orb andb] in Hlt'.
  destruct (Z.ltb_spec (minute a) (minute b)); [lia |].
  destruct (Z.eqb_spec (minute a) (minute b)); [| done]. cbn [orb andb] in Hlt'.
  destruct (Z.ltb_spec (second a) (second b)); [lia |].
  destruct (Z.eqb_spec (second a) (second b)); [| done]. cbn [orb andb] in Hlt'.
  destruct (Z.ltb_spec (microsecond a) (microsecond b)); [lia |].
  by destruct (microsecond a =? microsecond b).
Qed.

Lemma microseconds_of_le a b :
  valid_datetime a = true → valid_datetime b = true →
  datetime_ltb b a = false → microseconds_of a <= microseconds_of b.
Proof.
  intros Ha Hb Hge. destruct (datetime_ltb a b) eqn:Hlt.
  - pose proof (microseconds_of_lt a b Ha Hb Hlt). lia.
  - by rewrite (datetime_ltb_total a b Hlt Hge).
Qed.

(** ** The last session of an exercise *)

Lemma last_played_loop name log acc :
  match fold_left (last_played_step name) log acc with
  | None => acc = None ∧ ∀ w, w ∈ log → exercise w ≠ name
  | Some ts =>
      (acc = Some ts ∨ ∃ w, w ∈ log ∧ exercise w = name ∧ timestamp w = ts)
      ∧ (∀ l, acc = Some l → datetime_ltb ts l = false)
      ∧ (∀ w, w ∈ log → exercise w = name → datetime_ltb ts (timestamp w) = false)
  end.
Proof.
  revert acc. induction log as [|w log IH]; intros acc.
  - cbn [fold_left]. destruct acc as [ts|].
    + split_and!; [by left | | by intros w Hw%elem_of_nil].
      intros l [= <-]. apply datetime_ltb_irrefl.
    + split; [done | by intros w Hw%elem_of_nil].
  - cbn [fold_left]. specialize (IH (last_played_step name acc w)).
    unfold last_played_step in IH at 2 3 4.
    destruct (fold_left _ log _) as [ts|].
    + destruct IH as (Horigin & Hacc & Hlog).
      case_bool_decide as He.
      * assert (datetime_ltb ts (timestamp w) = false
                ∧ (∀ l, acc = Some l → datetime_ltb ts l = false)
                ∧ (acc = Some ts ∨ timestamp w = ts
                   ∨ ∃ w', w' ∈ log ∧ exercise w' = name ∧ timestamp w' = ts))
          as (Hw & Hl & Ho).
        { destruct acc as [l|].
          - destruct (datetime_ltb l (timestamp w)) eqn:Hlt.
            + specialize (Hacc _ eq_refl). split_and!; [done | |].
              * intros l' [= <-]. eapply datetime_geb_trans; [exact Hacc |].
                by apply datetime_ltb_asym.
              * destruct Horigin as [[= <-] | H]; [right; by left | by do 2 right].
            + specialize (Hacc _ eq_refl). split_and!.
              * by eapply datetime_geb_trans.
              * by intros l' [= <-].
              * destruct Horigin as [[= <-] | H]; [by left | by do 2 right].
          - specialize (Hacc _ eq_refl). split_and!; [done | done |].
            destruct Horigin as [[= <-] | H]; [right; by left | by do 2 right]. }
        split_and!; [| done |].
        -- destruct Ho as [? | [? | (w' & ? & ? & ?)]]; [by left | right | right].
           ++ exists w. split_and!; [by left | done | done].
           ++ exists w'. split_and!; [by right | done | done].
        -- intros w' Hw' Hx. apply elem_of_cons in Hw' as [-> | Hw']; [done | by apply Hlog].
      * split_and!; [| done |].
        -- destruct Horigin as [? | (w' & ? & ? & ?)]; [by left | right].
           exists w'. split_and!; [by right | done | done].
        -- intros w' Hw' Hx. apply elem_of_cons in Hw' as [-> | Hw']; [done | by apply Hlog].
    + destruct IH as [Hacc Hlog]. unfold last_played_step in Hacc.
      case_bool_decide as He.
      * destruct acc as [l|]; [by destruct (datetime_ltb l (timestamp w)) | done].
      * split; [done |]. intros w' Hw'. apply elem_of_cons in Hw' as [-> | Hw']; [done | by apply Hlog].
Qed.

Lemma last_played_spec (name : pystr) (a : trainer) :
  (_get_last_played_timestamp name a = None
   ↔ ∀ w, w ∈ workout_data a → exercise w ≠ name)
  ∧ (get_last_played_date name a = None
     ↔ ∀ w, w ∈ workout_data a → exercise w ≠ name)
  ∧ (∀ ts, _get_last_played_timestamp name a = Some ts →
       (∃ w, w ∈ workout_data a ∧ exercise w = name ∧ timestamp w = ts)
       ∧ (∀ w, w ∈ workout_data a → exercise w = name →
               datetime_ltb ts (timestamp w) = false)
       ∧ get_last_played_date name a = Some (strftime ts)).
Proof.
  pose proof (last_played_loop name (workout_data a) None) as H.
  unfold get_last_played_date, _get_last_played_timestamp.
  destruct (fold_left _ _ _) as [ts|].
  - destruct H as ([? | (w & Hw & He & Ht)] & _ & Hmax); [done |].
    split_and!.
    + split; [done |]. intros Hnone. by destruct (Hnone w Hw).
    + split; [done |]. intros Hnone. by destruct (Hnone w Hw).
    + intros ts' [= <-]. split_and!; [by exists w | done | done].
  - destruct H as [_ Hnone]. split_and!; [done | done | done].
Qed.

(** X13. [_get_last_played_timestamp] returns [None] exactly when the log
    has no entry of the exercise, and [get_last_played_date] with it.
    Otherwise it returns the time stamp of an entry of the exercise that
    no entry of the exercise is later than, wherever that entry stands in
    the log. *)
Theorem last_played_is_the_latest (name : pystr) (a : trainer) :
  (_get_last_played_timestamp name a = None
   ↔ ∀ w, w ∈ workout_data a → exercise w ≠ name)
  ∧ (get_last_played_date name a = None
     ↔ ∀ w, w ∈ workout_data a → exercise w ≠ name)
  ∧ (∀ ts, _get_last_played_timestamp name a = Some ts →
       (∃ w, w ∈ workout_data a ∧ exercise w = name ∧ timestamp w = ts)
       ∧ (∀ w, w ∈ workout_data a → exercise w = name →
               datetime_ltb ts (timestamp w) = false)
       ∧ get_last_played_date name a = Some (strftime ts)).
Proof. apply last_played_spec. Qed.

Lemma last_played_is_the_latest_witness :
  get_last_played_date (py "Scales") (set_workout_data two_scales (init_trainer None))
  = Some (py "02 March 2024").
Proof.
  apply (proj2 (proj2 (last_played_is_the_latest (py "Scales")
                         (set_workout_data two_scales (init_trainer None))))
           (mk_datetime 2024 March 2 18 0 0 0)).
  reflexivity.
Defined.

Lemma last_played_after_save now bpm a :
  isdigit bpm = true →
  (∀ w, w ∈ workout_data a → exercise w = current_exercise a →
        datetime_ltb now (timestamp w) = false) →
  _get_last_played_timestamp (current_exercise a) (fst (_save_workout_data now bpm a))
  = Some now.
Proof.
  intros Hdg Hpast.
  set (a' := fst (_save_workout_data now bpm a)).
  assert (workout_data a'
          = workout_data a ++ [mk_workout (current_exercise a)
                                 (_format_time (elapsed_time a - 1)) bpm now]) as Hlog.
  { unfold a', _save_workout_data. by rewrite Hdg. }
  destruct (last_played_spec (current_exercise a) a') as (Hnone & _ & Hsome).
  destruct (_get_last_played_timestamp (current_exercise a) a') as [ts|] eqn:Hts.
  - destruct (Hsome ts eq_refl) as ((w & Hw & He & Ht) & Hmax & _).
    f_equal. apply datetime_ltb_total.
    + apply (Hmax (mk_workout (current_exercise a)
                     (_format_time (elapsed_time a - 1)) bpm now)); [| done].
      rewrite Hlog. apply elem_of_app. right. by apply list_elem_of_singleton.
    + rewrite Hlog in Hw. apply elem_of_app in Hw as [Hw | Hw].
      * rewrite <- Ht. by apply Hpast.
      * apply list_elem_of_singleton in Hw. subst w. cbn in Ht. subst ts.
        apply datetime_ltb_irrefl.
  - exfalso. apply (proj1 Hnone eq_refl
                      (mk_workout (current_exercise a)
                         (_format_time (elapsed_time a - 1)) bpm now)); [| done].
    rewrite Hlog. apply elem_of_app. right. by apply list_elem_of_singleton.
Qed.

(** X14. After an exercise is saved at the time [now], with no entry of
    it in the log later than [now], the exercise is stale at a time [later]
    exactly when the whole days from [now] to [later] reach the threshold.
    At [now] itself it is not stale for a threshold of at least one day. *)
Theorem saved_exercise_is_stale_after_threshold
    (stale_days : Z) (now later : datetime) (bpm : pystr) (a : trainer) :
  isdigit bpm = true →
  (∀ w, w ∈ workout_data a → exercise w = current_exercise a →
        datetime_ltb now (timestamp w) = false) →
  let saved := fst (_save_workout_data now bpm a) in
  is_stale_exercise stale_days later (current_exercise a) saved
  = (stale_days <=? timedelta_days later now)
  ∧ (1 <= stale_days →
     is_stale_exercise stale_days now (current_exercise a) saved = false).
Proof.
  intros Hdg Hpast saved. unfold is_stale_exercise, saved.
  rewrite last_played_after_save by done. split; [done |].
  intros Hsd. unfold timedelta_days. rewrite Z.sub_diag, Z.div_0_l by lia.
  apply Z.leb_gt. lia.
Qed.

Lemma saved_exercise_is_stale_after_threshold_witness :
  is_stale_exercise 7 (mk_datetime 2024 March 9 17 59 59 0) (py "Scales")
    (fst (_save_workout_data (mk_datetime 2024 March 2 18 0 0 0) (py "80")
            (set_current_exercise (py "Scales") (init_trainer None))))
  = (7 <=? timedelta_days (mk_datetime 2024 March 9 17 59 59 0)
             (mk_datetime 2024 March 2 18 0 0 0)).
Proof.
  refine (proj1 (saved_exercise_is_stale_after_threshold 7
                   (mk_datetime 2024 March 2 18 0 0 0)
                   (mk_datetime 2024 March 9 17 59 59 0) (py "80")
                   (set_current_exercise (py "Scales") (init_trainer None)) _ _));
    [reflexivity |].
  intros w Hw. by apply elem_of_nil in Hw.
Defined.

Lemma timedelta_days_mono now later ts :
  microseconds_of now <= microseconds_of later →
  timedelta_days now ts <= timedelta_days later ts.
Proof. intros H. unfold timedelta_days. apply Z.div_le_mono; lia. Qed.

(** X15. Staleness does not go away with time: an exercise that is stale
    at one time is stale at every time that is not earlier, as long as the
    log stays the same. *)
Theorem stale_exercise_stays_stale
    (stale_days : Z) (now later : datetime) (name : pystr) (a : trainer) :
  valid_datetime now = true →
  valid_datetime later = true →
  datetime_ltb later now = false →
  is_stale_exercise stale_days now name a = true →
  is_stale_exercise stale_days later name a = true.
Proof.
  intros Hn Hl Hle. unfold is_stale_exercise.
  destruct (_get_last_played_timestamp name a) as [ts|]; [| done].
  rewrite !Z.leb_le.
  pose proof (timedelta_days_mono now later ts (microseconds_of_le _ _ Hn Hl Hle)). lia.
Qed.

Lemma stale_exercise_stays_stale_witness :
  is_stale_exercise 7 (mk_datetime 2024 March 12 8 0 0 0) (py "Scales")
    (set_workout_data two_scales (init_trainer None)) = true.
Proof.
  apply (stale_exercise_stays_stale 7 (mk_datetime 2024 March 9 18 0 0 0)
           (mk_datetime 2024 March 12 8 0 0 0) (py "Scales")
           (set_workout_data two_scales (init_trainer None)));
    reflexivity.
Defined.



(** ** The days of the log *)

Lemma keys_setdefault_append_eq k v d :
  keys (setdefault_append k v d) = if decide (k ∈ keys d) then keys d else keys d ++ [k].
Proof.
  unfold keys. induction d as [|[k0 vs] d IH]; cbn [setdefault_append map fst].
  - rewrite decide_False; [done | by intros ?%elem_of_nil].
  - case_pystr_eqb; cbn [map fst].
    + subst k0. rewrite decide_True; [done | by left].
    + rewrite IH. destruct (decide (k ∈ map fst d)) as [Hin | Hin].
      * rewrite decide_True; [done | by right].
      * rewrite decide_False; [done |].
        intros [? | ?]%elem_of_cons; done.
Qed.

Lemma keys_setdefault_append_NoDup k v d :
  NoDup (keys d) → NoDup (keys (setdefault_append k v d)).
Proof.
  intros Hd. rewrite keys_setdefault_append_eq. destruct (decide (k ∈ keys d)); [done |].
  apply NoDup_app. split_and!; [done | | apply NoDup_singleton].
  intros x Hx ->%list_elem_of_singleton. done.
Qed.

Lemma group_keys_NoDup data acc :
  NoDup (keys acc) →
  NoDup (keys (fold_left
                 (fun days_data w => setdefault_append (strftime (timestamp w)) w days_data)
                 data acc)).
Proof.
  revert acc. induction data as [|w data IH]; intros acc Hacc; [done |].
  cbn [fold_left]. by apply IH, keys_setdefault_append_NoDup.
Qed.

Lemma group_data_keys_NoDup data : NoDup (keys (_group_data_by_days data)).
Proof. apply group_keys_NoDup. constructor. Qed.

(** X17. [_group_data_by_days] splits the log by the day of the time
    stamp: every day that has an entry is a key, once, and no other text
    is; under a day stand the entries of that day, all of them, in the
    order of the log. *)
Theorem group_data_by_days_partitions_the_log (data : list workout) :
  NoDup (keys (_group_data_by_days data))
  ∧ (∀ date, date ∈ keys (_group_data_by_days data)
             ↔ ∃ w, w ∈ data ∧ strftime (timestamp w) = date)
  ∧ (∀ date, getitem (_group_data_by_days data) date
             = filter (fun w => strftime (timestamp w) = date) data).
Proof.
  split_and!.
  - apply group_data_keys_NoDup.
  - intros date. apply group_data_keys.
  - intros date. apply group_data_getitem.
Qed.

(** *** Sorting the days *)

Lemma insert_desc_Permutation x l : insert_desc x l ≡ₚ x :: l.
Proof.
  induction l as [|y l IH]; [done |]. cbn [insert_desc].
  destruct (datetime_ltb (date_key x) (date_key y)); [| done].
  rewrite IH. apply Permutation_swap.
Qed.

Lemma sort_dates_Permutation l : _sort_dates l ≡ₚ l.
Proof.
  unfold _sort_dates. induction l as [|x l IH]; [done |]. cbn [fold_right].
  by rewrite insert_desc_Permutation, IH.
Qed.

Lemma insert_desc_sorted x l :
  StronglySorted (fun a b => datetime_ltb (date_key a) (date_key b) = false) l →
  StronglySorted (fun a b => datetime_ltb (date_key a) (date_key b) = false)
    (insert_desc x l).
Proof.
  induction 1 as [|y l Hl IH Hy]; cbn [insert_desc].
  - by repeat constructor.
  - destruct (datetime_ltb (date_key x) (date_key y)) eqn:Hlt.
    + constructor; [done |]. apply Forall_forall. intros z Hz.
      apply insert_desc_elem_of in Hz as [-> | Hz].
      * by apply datetime_ltb_asym.
      * rewrite Forall_forall in Hy. by apply Hy.
    + constructor; [by constructor |]. constructor; [done |].
      eapply Forall_impl; [exact Hy |]. cbn. intros z Hz.
      by eapply datetime_geb_trans.
Qed.

Lemma sort_dates_sorted l :
  StronglySorted (fun a b => datetime_ltb (date_key a) (date_key b) = false)
    (_sort_dates l).
Proof.
  unfold _sort_dates. induction l as [|x l IH]; [constructor |].
  cbn [fold_right]. by apply insert_desc_sorted.
Qed.

Lemma insert_desc_front x l :
  Forall (fun y => datetime_ltb (date_key x) (date_key y) = false) l →
  insert_desc x l = x :: l.
Proof. destruct 1 as [|y l Hy _]; cbn [insert_desc]; [done | by rewrite Hy]. Qed.

Lemma sort_dates_sorted_id l :
  StronglySorted (fun a b => datetime_ltb (date_key a) (date_key b) = false) l →
  _sort_dates l = l.
Proof.
  unfold _sort_dates. induction 1 as [|x l Hl IH Hx]; [done |].
  cbn [fold_right]. rewrite IH. by apply insert_desc_front.
Qed.


(** ** Files without a day *)

Lemma load_line_without_day now cd line :
  (cd = None ∨ cd = Some []) →
  (startswith (py "## ") line = true → strip (drop 3 line) = []) →
  ∃ cd', load_line now (cd, []) line = (cd', []) ∧ (cd' = None ∨ cd' = Some []).
Proof.
  intros Hcd Hline. unfold load_line.
  destruct (startswith (py "## ") line).
  - rewrite Hline by done. eexists. split; [done | by right].
  - destruct Hcd as [-> | ->]; eexists; (split; [done |]); [by left | by right].
Qed.

Lemma load_lines_without_day now cd lines :
  (cd = None ∨ cd = Some []) →
  Forall (fun line => startswith (py "## ") line = true → strip (drop 3 line) = []) lines →
  snd (fold_left (load_line now) lines (cd, [])) = [].
Proof.
  intros Hcd Hlines. revert cd Hcd.
  induction Hlines as [|line lines Hline Hlines IH]; intros cd Hcd; [done |].
  cbn [fold_left].
  destruct (load_line_without_day now cd line Hcd Hline) as (cd' & -> & Hcd').
  by apply IH.
Qed.

(** X19. [load_data] reads no entry from a file in whose text, as it is
    read, no line starts a day, or every line that starts with ["## "] has
    only white space after it: the rows of such a file, however many, are
    dropped. The file that [save_data] writes for an empty log is one of
    them. *)
Theorem load_without_day_header_is_empty (now : datetime) (content : pystr) :
  (∀ line, line ∈ split_on NL content →
           startswith (py "## ") line = true → strip (drop 3 line) = []) →
  parse_markdown now content = []
  ∧ ∀ a, data_file a = Some content → workout_data (load_data now a) = [].
Proof.
  intros Hlines.
  assert (parse_markdown now content = []) as Hp.
  { unfold parse_markdown. apply load_lines_without_day; [by left |].
    by apply Forall_forall. }
  split; [done |]. intros a Hfile. unfold load_data. rewrite Hfile. exact Hp.
Qed.

Lemma load_without_day_header_is_empty_witness :
  parse_markdown (midnight 2024 March 1) (markdown_of []) = []
  ∧ parse_markdown (midnight 2024 March 1)
      (py "| Scales | 00:04 | 80 |" ++ [NL] ++ py "##  " ++ [NL]
       ++ py "| Riff | 01:04 | 90 |" ++ [NL]) = [].
Proof.
  split.
  - refine (proj1 (load_without_day_header_is_empty (midnight 2024 March 1)
                     (markdown_of []) _)).
    intros line Hline. vm_compute in Hline.
    repeat (apply elem_of_cons in Hline as [-> | Hline]; [by vm_compute |]).
    by apply elem_of_nil in Hline.
  - refine (proj1 (load_without_day_header_is_empty (midnight 2024 March 1) _ _)).
    intros line Hline. vm_compute in Hline.
    repeat (apply elem_of_cons in Hline as [-> | Hline]; [by vm_compute |]).
    by apply elem_of_nil in Hline.
Defined.

(** ** Deleting a day twice *)

Lemma filter_filter_not {A} (P : A → Prop) `{∀ x, Decision (P x)} (l : list A) :
  filter P (filter (fun x => ¬ P x) l) = [].
Proof.
  induction l as [|x l IH]; [done |].
  destruct (decide (P x)) as [Hx | Hx].
  - by rewrite (filter_cons_False (λ x, ¬ P x)) by tauto.
  - rewrite (filter_cons_True (λ x, ¬ P x)) by done. by rewrite filter_cons_False.
Qed.

Lemma delete_day_log date a :
  filter (fun d => strftime (timestamp d) = date) (workout_data (delete_day date true a)) = [].
Proof.
  unfold delete_day.
  destruct (filter _ (workout_data a)) as [|w ws] eqn:Hm; [done |].
  rewrite <- Hm.
  pose proof (remove_filtered (fun d => strftime (timestamp d) = date) []
                (workout_data a) ltac:(constructor)) as Hrm.
  rewrite !app_nil_l in Hrm. cbn. rewrite Hrm. apply filter_filter_not.
Qed.

(** X20. Once a day is deleted, no entry of the log is of that day:
    deleting the same day again finds nothing, whatever the answer to the
    question would be; it says so and leaves the log and the file as they
    are. *)
Theorem delete_day_a_second_time (date : pystr) (confirmed : bool) (a : trainer) :
  let deleted := delete_day date true a in
  (∀ w, w ∈ workout_data deleted → strftime (timestamp w) ≠ date)
  ∧ delete_day date confirmed deleted
    = messagebox (showinfo (py "Information") (py "No workouts found for this day!"))
        deleted.
Proof.
  intros deleted. pose proof (delete_day_log date a) as Hnone. fold deleted in Hnone.
  split.
  - intros w Hw Hd.
    assert (w ∈ filter (fun d => strftime (timestamp d) = date) (workout_data deleted))
      as Hin by by apply list_elem_of_filter.
    rewrite Hnone in Hin. by apply elem_of_nil in Hin.
  - unfold delete_day at 1. by rewrite Hnone.
Qed.

(** ** What a saved file gives back *)

Lemma day_of_at_midnight w : day_of (at_midnight w) = day_of w.
Proof. done. Qed.

Lemma row_text_at_midnight w : row_text (at_midnight w) = row_text w.
Proof. done. Qed.

Lemma concat_filter_Permutation (ks : list pystr) (data : list workout) :
  NoDup ks →
  (∀ w, w ∈ data → day_of w ∈ ks) →
  concat (map (fun d => filter (fun w => day_of w = d) data) ks) ≡ₚ data.
Proof.
  intros Hks. revert data. induction Hks as [|k ks Hk Hks IH]; intros data Hdata.
  - destruct data as [|w data]; [done |].
    specialize (Hdata w ltac:(by left)). by apply elem_of_nil in Hdata.
  - cbn [map concat].
    assert (map (fun d => filter (fun w => day_of w = d) data) ks
            = map (fun d => filter (fun w => day_of w = d)
                              (filter (fun w => day_of w ≠ k) data)) ks) as ->.
    { apply map_ext_in. intros d Hd%list_elem_of_In.
      rewrite list_filter_filter. apply list_filter_iff. intros w. split; [| tauto].
      intros ->. split; [done |]. by intros ->. }
    rewrite IH.
    + clear. induction data as [|w data IH]; [done |].
      destruct (decide (day_of w = k)) as [He | He].
      * rewrite filter_cons_True by done.
        rewrite (filter_cons_False (λ w, day_of w ≠ k)) by tauto.
        cbn [List.app]. by rewrite IH.
      * rewrite filter_cons_False by done.
        rewrite (filter_cons_True (λ w, day_of w ≠ k)) by done.
        rewrite <- Permutation_middle. by rewrite IH.
    + intros w [Hne Hw]%list_elem_of_filter.
      specialize (Hdata w Hw). apply elem_of_cons in Hdata as [? | ?]; done.
Qed.

Lemma loaded_blocks now data :
  Forall (fun w => row_ok w = true) data →
  parse_markdown now (markdown_of data) =
  concat (map (fun date => map at_midnight (filter (fun w => day_of w = date) data))
            (_sort_dates (keys (_group_data_by_days data)))).
Proof.
  intros Hdata. rewrite parse_markdown_of by done. f_equal.
  apply map_ext. intros date. apply map_ext_in.
  intros w [Hday Hw]%list_elem_of_In%list_elem_of_filter.
  rewrite Forall_forall in Hdata.
  destruct (row_ok_spec w (Hdata w Hw)) as (_ & _ & _ & _ & _ & Hv).
  unfold at_midnight, stamp. rewrite <- Hday. unfold day_of.
  by rewrite strptime_strftime.
Qed.

(** X21. Saving a log whose entries all go through the table unchanged
    and loading the file gives back every entry as often as the log has
    it, none more and none less, each at midnight of its day: the loaded
    log is a rearrangement of the saved one, of the same length, and does
    not depend on the time of loading. *)
Theorem save_load_keeps_every_entry (now : datetime) (a : trainer) :
  Forall (fun w => row_ok w = true) (workout_data a) →
  workout_data (load_data now (save_data a)) ≡ₚ map at_midnight (workout_data a)
  ∧ length (workout_data (load_data now (save_data a))) = length (workout_data a).
Proof.
  intros Hdata.
  change (workout_data (load_data now (save_data a)))
    with (parse_markdown now (markdown_of (workout_data a))).
  assert (parse_markdown now (markdown_of (workout_data a))
          ≡ₚ map at_midnight (workout_data a)) as Hperm.
  { rewrite loaded_blocks by done.
    rewrite <- (concat_filter_Permutation
                  (_sort_dates (keys (_group_data_by_days (workout_data a))))
                  (workout_data a)) at 2.
    - rewrite concat_map, map_map. done.
    - rewrite sort_dates_Permutation. apply group_data_keys_NoDup.
    - intros w Hw. apply sort_dates_elem_of, group_data_keys. by exists w. }
  split; [done |]. by rewrite Hperm, length_map.
Qed.

Lemma save_load_keeps_every_entry_witness :
  workout_data (load_data (midnight 2024 March 1)
                  (save_data (set_workout_data three_rows (init_trainer None))))
  ≡ₚ map at_midnight three_rows.
Proof.
  refine (proj1 (save_load_keeps_every_entry (midnight 2024 March 1)
                   (set_workout_data three_rows (init_trainer None)) _)).
  cbn. repeat constructor.
Defined.

(** *** Saving what was loaded *)

Lemma group_block_keys_in b d acc :
  Forall (fun w => day_of w = d) b →
  d ∈ keys acc →
  keys (fold_left
          (fun days_data w => setdefault_append (strftime (timestamp w)) w days_data) b acc)
  = keys acc.
Proof.
  intros Hb. revert acc. induction Hb as [|w b Hw Hb IH]; intros acc Hd; [done |].
  cbn [fold_left]. fold (day_of w). rewrite Hw.
  assert (keys (setdefault_append d w acc) = keys acc) as Hk
    by (rewrite keys_setdefault_append_eq; by rewrite decide_True).
  rewrite IH; [done |]. by rewrite Hk.
Qed.

Lemma group_block_keys b d acc :
  b ≠ [] →
  Forall (fun w => day_of w = d) b →
  d ∉ keys acc →
  keys (fold_left
          (fun days_data w => setdefault_append (strftime (timestamp w)) w days_data) b acc)
  = keys acc ++ [d].
Proof.
  intros Hne Hb Hd. destruct Hb as [|w b Hw Hb]; [done |].
  cbn [fold_left]. fold (day_of w). rewrite Hw.
  assert (keys (setdefault_append d w acc) = keys acc ++ [d]) as Hk
    by (rewrite keys_setdefault_append_eq; by rewrite decide_False).
  rewrite (group_block_keys_in b d); [done | done |].
  rewrite Hk. apply elem_of_app. right. by apply list_elem_of_singleton.
Qed.

Lemma group_blocks_keys (block : pystr → list workout) ks acc :
  NoDup ks →
  (∀ k, k ∈ ks → k ∉ keys acc) →
  (∀ k, k ∈ ks → block k ≠ [] ∧ Forall (fun w => day_of w = k) (block k)) →
  keys (fold_left
          (fun days_data w => setdefault_append (strftime (timestamp w)) w days_data)
          (concat (map block ks)) acc)
  = keys acc ++ ks.
Proof.
  intros Hks. revert acc. induction Hks as [|k ks Hk Hks IH]; intros acc Hacc Hblock.
  - cbn. by rewrite app_nil_r.
  - cbn [map concat]. rewrite fold_left_app.
    destruct (Hblock k ltac:(by left)) as [Hne Hb].
    pose proof (group_block_keys (block k) k acc Hne Hb (Hacc k ltac:(by left))) as Hkeys.
    rewrite IH.
    + rewrite Hkeys. by rewrite <- app_assoc.
    + intros k' Hk'. rewrite Hkeys. intros [Hin | Hin%list_elem_of_singleton]%elem_of_app.
      * by apply (Hacc k' ltac:(by right)).
      * by subst k'.
    + intros k' Hk'. apply Hblock. by right.
Qed.

Lemma filter_all {A} (P : A → Prop) `{∀ x, Decision (P x)} (l : list A) :
  Forall P l → filter P l = l.
Proof.
  induction 1 as [|x l Hx Hl IH]; [done |]. by rewrite filter_cons_True, IH.
Qed.

Lemma filter_none {A} (P : A → Prop) `{∀ x, Decision (P x)} (l : list A) :
  Forall (fun x => ¬ P x) l → filter P l = [].
Proof.
  induction 1 as [|x l Hx Hl IH]; [done |]. by rewrite filter_cons_False.
Qed.

Lemma filter_blocks (block : pystr → list workout) ks d :
  NoDup ks →
  (∀ k, k ∈ ks → Forall (fun w => day_of w = k) (block k)) →
  d ∈ ks →
  filter (fun w => day_of w = d) (concat (map block ks)) = block d.
Proof.
  intros Hks. induction Hks as [|k ks Hk Hks IH]; intros Hblock Hd.
  - by apply elem_of_nil in Hd.
  - cbn [map concat]. rewrite filter_app.
    apply elem_of_cons in Hd as [-> | Hd].
    + rewrite filter_all by (apply Hblock; by left).
      rewrite filter_none; [by rewrite app_nil_r |].
      apply Forall_concat, Forall_map, Forall_forall. intros k' Hk'.
      eapply Forall_impl; [apply Hblock; by right |]. cbn. intros w -> ->. done.
    + rewrite filter_none.
      * apply IH; [| done]. intros k' Hk'. apply Hblock. by right.
      * eapply Forall_impl; [apply Hblock; by left |]. cbn. intros w -> ->. done.
Qed.

Lemma markdown_of_loaded now data :
  Forall (fun w => row_ok w = true) data →
  markdown_of (parse_markdown now (markdown_of data)) = markdown_of data.
Proof.
  intros Hdata. rewrite loaded_blocks by done.
  set (ks := _sort_dates (keys (_group_data_by_days data))).
  set (block := fun date => map at_midnight (filter (fun w => day_of w = date) data)).
  assert (NoDup ks) as Hks
    by (unfold ks; rewrite sort_dates_Permutation; apply group_data_keys_NoDup).
  assert (∀ k, k ∈ ks → block k ≠ [] ∧ Forall (fun w => day_of w = k) (block k))
    as Hblock.
  { intros k Hk. apply (proj1 (sort_dates_elem_of _ _)) in Hk.
    apply group_data_keys in Hk as (w & Hw & Hday). unfold block. split.
    - intros Hnil. apply (f_equal length) in Hnil. rewrite length_map in Hnil.
      assert (w ∈ filter (fun w => day_of w = k) data) as Hin
        by by apply list_elem_of_filter.
      destruct (filter _ data); [by apply elem_of_nil in Hin | done].
    - apply Forall_map, Forall_forall. by intros w' [? _]%list_elem_of_filter. }
  assert (keys (_group_data_by_days (concat (map block ks))) = ks) as Hkeys.
  { unfold _group_data_by_days. rewrite group_blocks_keys; [done | done | | done].
    intros k _ Hin. by apply elem_of_nil in Hin. }
  assert (_sort_dates ks = ks) as Hsorted by apply sort_dates_sorted_id, sort_dates_sorted.
  assert (_group_data_by_days data = [] ↔ ks = []) as Hnil.
  { split.
    - intros Hg. unfold ks. by rewrite Hg.
    - intros Hk.
      assert (keys (_group_data_by_days data) ≡ₚ []) as Hp
        by (rewrite <- sort_dates_Permutation; fold ks; by rewrite Hk).
      apply Permutation_nil_r in Hp. by destruct (_group_data_by_days data). }
  assert (∀ d, d ∈ ks →
            day_text (_group_data_by_days (concat (map block ks))) d
            = day_text (_group_data_by_days data) d) as Hday.
  { intros d Hd. unfold day_text.
    rewrite !group_data_getitem.
    rewrite filter_blocks; [| done | intros k Hk; by apply Hblock | done].
    unfold block. rewrite map_map.
    by rewrite (map_ext (fun x => row_text (at_midnight x)) row_text
                  row_text_at_midnight). }
  unfold markdown_of. cbv zeta. fold ks. rewrite Hkeys, Hsorted.
  clearbody ks. do 2 f_equal.
  destruct (_group_data_by_days data) as [|g gs] eqn:Hg.
  - rewrite (proj1 Hnil eq_refl). cbn [map concat].
    by destruct (_group_data_by_days []) eqn:Hg'.
  - destruct (_group_data_by_days (concat (map block ks))) as [|g' gs'] eqn:Hg'.
    + cbn in Hkeys. subst ks. by destruct (proj2 Hnil eq_refl).
    + f_equal. apply map_ext_in. intros d Hd%list_elem_of_In. by apply Hday.
Qed.

(** X22. After a log whose entries all go through the table unchanged is
    saved and loaded, saving again writes the text that the file has:
    nothing more is lost with a second round. The log loaded from that
    file is the log loaded the first time. *)
Theorem saving_a_loaded_log_rewrites_the_file (now later : datetime) (a : trainer) :
  Forall (fun w => row_ok w = true) (workout_data a) →
  let loaded := load_data now (save_data a) in
  data_file (save_data loaded) = data_file (save_data a)
  ∧ workout_data (load_data later (save_data loaded)) = workout_data loaded.
Proof.
  intros Hdata loaded.
  assert (data_file (save_data loaded) = data_file (save_data a)) as Hfile.
  { change (Some (markdown_of (parse_markdown now (markdown_of (workout_data a))))
            = Some (markdown_of (workout_data a))).
    f_equal. by apply markdown_of_loaded. }
  split; [done |].
  change (parse_markdown later (markdown_of (workout_data loaded)) = workout_data loaded).
  change (workout_data loaded) with (parse_markdown now (markdown_of (workout_data a))).
  rewrite markdown_of_loaded by done.
  by rewrite !loaded_blocks.
Qed.

Lemma saving_a_loaded_log_rewrites_the_file_witness :
  data_file (save_data (load_data (midnight 2024 March 1)
                          (save_data (set_workout_data three_rows (init_trainer None)))))
  = data_file (save_data (set_workout_data three_rows (init_trainer None))).
Proof.
  refine (proj1 (saving_a_loaded_log_rewrites_the_file (midnight 2024 March 1)
                   (midnight 2024 March 2)
                   (set_workout_data three_rows (init_trainer None)) _)).
  cbn. repeat constructor.
Defined.

(** ** More of the exercise catalog *)

Section more_catalog.
Import CatalogFacts.

Lemma discard_subset (x y : pystr) l : x ∈ discard y l → x ∈ l.
Proof. rewrite discard_eq. apply list_remove_subset. Qed.

Lemma discard_absent (y : pystr) l : y ∉ l → discard y l = l.
Proof. intros Hy. unfold discard. by rewrite bool_decide_eq_false_2. Qed.

Lemma discard_other (x y : pystr) l : x ≠ y → x ∈ discard y l ↔ x ∈ l.
Proof.
  intros Hne. rewrite discard_eq. induction l as [|z l IH]; cbn; [done |].
  destruct (decide (y = z)) as [-> | Hyz].
  - rewrite elem_of_cons. split; [by right | by intros [? | ?]].
  - by rewrite !elem_of_cons, IH.
Qed.

Lemma discard_snoc (y : pystr) l : y ∉ l → discard y (l ++ [y]) = l.
Proof.
  intros Hy. unfold discard. rewrite bool_decide_eq_true_2
    by (apply elem_of_app; right; by apply list_elem_of_singleton).
  induction l as [|z l IH]; cbn.
  - by rewrite decide_True.
  - apply not_elem_of_cons in Hy as [Hne Hy]. rewrite decide_False by done.
    by rewrite IH.
Qed.

Lemma holds_Folder c f x :
  holds c (Folder f) x ↔ x ∈ default [] (folders c !! f).
Proof.
  cbn. destruct (folders c !! f) as [items|]; cbn.
  - split; [by intros (? & [= <-] & ?) | intros ?; by exists items].
  - split; [by intros (? & ? & ?) | by intros ?%elem_of_nil].
Qed.

Lemma fold_append_new_elem_of (x : pystr) items l :
  x ∈ fold_left (fun root_list ex => append_new ex root_list) items l
  ↔ x ∈ l ∨ x ∈ items.
Proof.
  revert l. induction items as [|y items IH]; intros l; cbn [fold_left].
  - split; [by left | by intros [? | ?%elem_of_nil]].
  - rewrite IH, append_new_elem_of, elem_of_cons. split.
    + intros [[? | ->] | ?]; [by left | right; by left | right; by right].
    + intros [? | [-> | ?]]; [left; by left | left; by right | by right].
Qed.

Lemma fold_append_new_NoDup (items l : list pystr) :
  NoDup l → NoDup (fold_left (fun root_list ex => append_new ex root_list) items l).
Proof.
  revert l. induction items as [|y items IH]; intros l Hl; [done |].
  cbn [fold_left]. by apply IH, append_new_NoDup.
Qed.

(** *** The folders themselves *)


Lemma flatten_exercises_ext c c' :
  (∀ k x, holds c' k x ↔ holds c k x) → flatten_exercises c' = flatten_exercises c.
Proof.
  intros Hh. apply set_eq. intros x. rewrite !flatten_exercises_holds.
  split; intros [k Hk]; exists k; by apply Hh.
Qed.


Lemma do_delete_holds folder c k x :
  holds (do_delete folder c) k x
  ↔ match k with
    | Root => holds c Root x ∨ holds c (Folder folder) x
    | Folder f => f ≠ folder ∧ holds c (Folder f) x
    end.
Proof.
  destruct k as [|f].
  - cbn [holds do_delete root]. rewrite fold_append_new_elem_of.
    by rewrite <- holds_Folder.
  - rewrite !holds_Folder. cbn [do_delete folders].
    destruct (decide (folder = f)) as [-> | Hne].
    + rewrite lookup_delete_eq. cbn. split; [by intros ?%elem_of_nil | by intros [? _]].
    + rewrite lookup_delete_ne by done.
      split; [intros ?; split; [congruence | done] | by intros [_ ?]].
Qed.

Lemma do_delete_ok folder c : catalog_ok c → catalog_ok (do_delete folder c).
Proof.
  intros [Hs [Hr Hf]]. split.
  - intros x k1 k2 H1%do_delete_holds H2%do_delete_holds.
    destruct k1 as [|f1], k2 as [|f2]; [done | | |].
    + destruct H2 as [Hne H2]. destruct H1 as [H1 | H1].
      * by specialize (Hs _ _ _ H1 H2).
      * specialize (Hs _ _ _ H1 H2). congruence.
    + destruct H1 as [Hne H1]. destruct H2 as [H2 | H2].
      * by specialize (Hs _ _ _ H1 H2).
      * specialize (Hs _ _ _ H1 H2). congruence.
    + destruct H1 as [_ H1], H2 as [_ H2]. by apply (Hs x).
  - split; [by apply fold_append_new_NoDup |].
    intros f items. cbn [do_delete folders].
    intros [_ Hl]%lookup_delete_Some. by eapply Hf.
Qed.

(** X24. Deleting a folder loses no exercise: the folder is gone, its
    exercises are in the root list, the names of the catalog are the same,
    every other folder is as it was, and no name is in two places
    afterwards when none was before. *)
Theorem delete_folder_keeps_exercises (folder : pystr) (c : catalog) :
  folders (do_delete folder c) !! folder = None
  ∧ flatten_exercises (do_delete folder c) = flatten_exercises c
  ∧ (∀ x, holds c (Folder folder) x → holds (do_delete folder c) Root x)
  ∧ (∀ f, f ≠ folder → folders (do_delete folder c) !! f = folders c !! f)
  ∧ info (do_delete folder c) = info c
  ∧ (catalog_ok c → catalog_ok (do_delete folder c)).
Proof.
  split_and!.
  - cbn. apply lookup_delete_eq.
  - apply set_eq. intros x. rewrite !flatten_exercises_holds. split.
    + intros [[|f] Hk%do_delete_holds].
      * destruct Hk as [Hk | Hk]; [by exists Root | by exists (Folder folder)].
      * destruct Hk as [_ Hk]. by exists (Folder f).
    + intros [[|f] Hk].
      * exists Root. apply do_delete_holds. by left.
      * destruct (decide (f = folder)) as [-> | Hne].
        -- exists Root. apply do_delete_holds. by right.
        -- exists (Folder f). by apply do_delete_holds.
  - intros x Hx. apply do_delete_holds. by right.
  - intros f Hne. cbn. by apply lookup_delete_ne.
  - done.
  - apply do_delete_ok.
Qed.

Lemma remove_selected_from_folder_holds text c k x :
  no_repeats c →
  holds (remove_selected_from_folder text c) k x
  ↔ holds c k x ∧ (k = Root ∨ x ≠ text).
Proof.
  intros Hn. destruct k as [|f].
  - cbn. split; [intros ?; split; [done | by left] | by intros [? _]].
  - change (holds (remove_selected_from_folder text c) (Folder f) x)
      with (holds (without text c) (Folder f) x).
    rewrite without_holds by done. split.
    + intros [? ?]. split; [done | by right].
    + intros [? [? | ?]]; done.
Qed.

Lemma remove_selected_from_folder_ok text c :
  catalog_ok c → catalog_ok (remove_selected_from_folder text c).
Proof.
  intros [Hs Hn]. split.
  - intros x k1 k2 [H1 _]%remove_selected_from_folder_holds
      [H2 _]%remove_selected_from_folder_holds; [| done | done]. by eapply Hs.
  - destruct Hn as [Hr Hf]. split; [done |]. intros f items. cbn.
    rewrite lookup_fmap. intros Hl.
    destruct (folders c !! f) as [items0|] eqn:Hf0; [| done].
    cbn in Hl. injection Hl as <-. apply discard_NoDup. by eapply Hf.
Qed.



Lemma run_screen_ok c k :
  rename_is_fresh c k → catalog_ok c → catalog_ok (run_screen c k).
Proof.
  destruct k as [k | text | folder | text l n]; cbn [run_screen rename_is_fresh].
  - destruct k; intros Hk Hc; try (by apply run_ok).
    by apply do_rename_fresh_ok.
  - intros _. apply remove_selected_from_folder_ok.
  - intros _. apply do_delete_ok.
  - by intros _ Hc.
Qed.

(** X26. Starting from a catalog in which no name is in two containers or
    twice in one, every sequence of commands of the management screen
    (creating and deleting folders, adding, moving, dragging, removing
    from a folder, deleting and renaming exercises, saving a note) leaves
    such a catalog, provided that each rename is to a name that the
    catalog does not have at that moment. *)
Theorem screen_commands_keep_one_place_per_name
    (ks : list screen_command) (c : catalog) :
  catalog_ok c →
  renames_are_fresh c ks →
  catalog_ok (fold_left run_screen ks c).
Proof.
  revert c. induction ks as [|k ks IH]; intros c Hc Hks; [done |].
  destruct Hks as [Hk Hks]. cbn [fold_left]. apply IH; [| done].
  by apply run_screen_ok.
Qed.

Lemma screen_commands_keep_one_place_per_name_witness :
  catalog_ok
    (fold_left run_screen
       [Basic (Rename (py "A") (py " C ")); RemoveFromFolder (py "B");
        DeleteFolder (py "F"); SaveInfo (py "C") (py "") (py "slowly")]
       catalog_A_B).
Proof.
  apply (screen_commands_keep_one_place_per_name
           [Basic (Rename (py "A") (py " C ")); RemoveFromFolder (py "B");
            DeleteFolder (py "F"); SaveInfo (py "C") (py "") (py "slowly")]
           catalog_A_B).
  - apply commands_ok; [reflexivity | apply empty_catalog_ok].
  - cbn [renames_are_fresh rename_is_fresh]. split; [| done].
    rewrite flatten_exercises_holds. intros [[|f] Hk].
    + vm_compute in Hk. apply elem_of_cons in Hk as [Hk | Hk]; [discriminate Hk |].
      by apply elem_of_nil in Hk.
    + destruct Hk as (items & Hl & Hk).
      destruct (decide (f = py "F")) as [-> | Hne].
      * assert (folders catalog_A_B !! py "F" = Some [py "B"]) as HF by by vm_compute.
        rewrite HF in Hl. injection Hl as <-.
        apply elem_of_cons in Hk as [Hk | Hk]; [discriminate Hk |].
        by apply elem_of_nil in Hk.
      * assert (folders catalog_A_B = {[py "F" := [py "B"]]}) as HF by by vm_compute.
        rewrite HF, lookup_singleton_ne in Hl by done. discriminate Hl.
Defined.

(** *** Moving, adding and renaming an exercise *)

Lemma in_root_holds text c k x :
  holds (in_root text c) k x ↔ holds c k x ∨ (k = Root ∧ x = text).
Proof.
  destruct k as [|f]; cbn.
  - rewrite append_new_elem_of. split.
    + intros [? | ->]; [by left | by right].
    + intros [? | [_ ->]]; [by left | by right].
  - split; [by left | by intros [? | [? _]]].
Qed.




Lemma fresh_in_no_container c name k : name ∉ flatten_exercises c → ¬ holds c k name.
Proof. intros Hfresh Hk. apply Hfresh, flatten_exercises_holds. by exists k. Qed.

Lemma add_now_fresh name_text folder link_text note_text c :
  strip name_text ≠ [] →
  strip name_text ∉ flatten_exercises c →
  add_now name_text folder link_text note_text c
  = mk_catalog (root (match chosen_container folder with
                      | Root => in_root (strip name_text) c
                      | Folder f => in_folder (strip name_text) f c
                      end))
      (folders (match chosen_container folder with
                | Root => in_root (strip name_text) c
                | Folder f => in_folder (strip name_text) f c
                end))
      (<[strip name_text := mk_info (strip link_text) (strip note_text)]> (info c)).
Proof.
  intros Hne Hfresh. unfold add_now, chosen_container.
  destruct (strip name_text) as [|ch name] eqn:Hs; [done |].
  rewrite bool_decide_eq_false_2 by done.
  destruct (pystr_eqb folder (py "Root")); cbn [in_root in_folder root folders].
  - rewrite append_new_fresh; [done |]. apply (fresh_in_no_container c _ Root Hfresh).
  - rewrite append_new_fresh; [done |]. intros Hin.
    apply (fresh_in_no_container c _ (Folder folder) Hfresh). by apply holds_Folder.
Qed.

Lemma add_now_holds name_text folder link_text note_text c k x :
  strip name_text ≠ [] →
  strip name_text ∉ flatten_exercises c →
  holds (add_now name_text folder link_text note_text c) k x
  ↔ holds c k x ∨ (k = chosen_container folder ∧ x = strip name_text).
Proof.
  intros Hne Hfresh. rewrite add_now_fresh by done.
  destruct (chosen_container folder) as [|f].
  - apply (in_root_holds (strip name_text) c).
  - apply (in_folder_holds (strip name_text) f c).
Qed.

(** X28. [add_now] changes nothing when the name is empty once stripped
    or when the catalog has it already, in the root list or in any
    folder. Otherwise the stripped name is put in the container chosen,
    the root list for ["Root"] and the folder of that name for any other
    text, and nowhere else, its link and note are stored stripped, and
    every other exercise stays where it is. *)
Theorem add_exercise_places_a_new_name
    (name_text folder link_text note_text : pystr) (c : catalog) :
  let name := strip name_text in
  let c' := add_now name_text folder link_text note_text c in
  ((name = [] ∨ name ∈ flatten_exercises c) → c' = c)
  ∧ (name ≠ [] → name ∉ flatten_exercises c →
     (∀ k, holds c' k name ↔ k = chosen_container folder)
     ∧ info c' !! name = Some (mk_info (strip link_text) (strip note_text))
     ∧ (∀ k x, x ≠ name → (holds c' k x ↔ holds c k x))
     ∧ flatten_exercises c' = flatten_exercises c ∪ {[name]}).
Proof.
  intros name c'. split.
  - intros Hcase. unfold c', add_now. fold name.
    destruct name as [|ch name'] eqn:Hs; [done |].
    destruct Hcase as [? | Hin]; [done |]. by rewrite bool_decide_eq_true_2.
  - intros Hne Hfresh. split_and!.
    + intros k. unfold c'. rewrite add_now_holds by done. split.
      * intros [Hk | [-> _]]; [| done]. by apply fresh_in_no_container in Hk.
      * intros ->. by right.
    + unfold c'. rewrite add_now_fresh by done. cbn [info]. apply lookup_insert_eq.
    + intros k x Hx. unfold c'. rewrite add_now_holds by done. split.
      * intros [? | [_ ?]]; done.
      * intros ?. by left.
    + apply set_eq. intros x. rewrite elem_of_union, elem_of_singleton.
      rewrite !flatten_exercises_holds. split.
      * intros [k Hk]. unfold c' in Hk. rewrite add_now_holds in Hk by done.
        destruct Hk as [Hk | [_ ->]]; [left; by exists k | by right].
      * intros [[k Hk] | ->].
        -- exists k. unfold c'. rewrite add_now_holds by done. by left.
        -- exists (chosen_container folder). unfold c'. rewrite add_now_holds by done.
           by right.
Qed.

(** X29. Deleting an exercise that was just added takes back the
    addition: the root list is the one before, every container holds what
    it held, the names of the catalog are the same and the info map has no
    entry for the name. *)
Theorem add_then_delete_restores_the_containers
    (name_text folder link_text note_text : pystr) (c : catalog) :
  strip name_text ≠ [] →
  (strip name_text ∉ flatten_exercises c) →
  let c' := delete_exercise (strip name_text) true
              (add_now name_text folder link_text note_text c) in
  root c' = root c
  ∧ (∀ k x, holds c' k x ↔ holds c k x)
  ∧ flatten_exercises c' = flatten_exercises c
  ∧ info c' = delete (strip name_text) (info c).
Proof.
  intros Hne Hfresh c'. set (name := strip name_text) in *.
  assert (name ∉ root c) as Hroot by apply (fresh_in_no_container c _ Root Hfresh).
  assert (∀ f, name ∉ default [] (folders c !! f)) as Hfold.
  { intros f Hin. apply (fresh_in_no_container c _ (Folder f) Hfresh).
    by apply holds_Folder. }
  assert (root c' = root c) as Hr.
  { unfold c'. rewrite add_now_fresh by done. fold name. cbn [delete_exercise root].
    destruct (chosen_container folder) as [|f]; cbn [in_root in_folder root].
    - rewrite <- append_new_fresh by done. by apply discard_snoc.
    - by apply discard_absent. }
  assert (∀ k x, holds c' k x ↔ holds c k x) as Hh.
  { intros [|f] x; [cbn [holds]; by rewrite Hr |].
    rewrite !holds_Folder. unfold c'. rewrite add_now_fresh by done. fold name.
    cbn [delete_exercise folders]. rewrite lookup_fmap.
    destruct (chosen_container folder) as [|f0]; cbn [in_root in_folder folders].
    - specialize (Hfold f). destruct (folders c !! f) as [items|]; [| done].
      cbn in *. by rewrite discard_absent.
    - destruct (decide (f0 = f)) as [-> | Hf].
      + rewrite lookup_insert_eq. cbn [fmap option_fmap option_map default].
        rewrite <- append_new_fresh by apply Hfold. by rewrite discard_snoc by apply Hfold.
      + rewrite lookup_insert_ne by done. specialize (Hfold f).
        destruct (folders c !! f) as [items|]; [| done]. cbn in *.
        by rewrite discard_absent. }
  split_and!; [done | done | by apply flatten_exercises_ext |].
  unfold c'. rewrite add_now_fresh by done. fold name. cbn [delete_exercise info].
  apply delete_insert_eq.
Qed.

Lemma add_then_delete_restores_the_containers_witness :
  root (delete_exercise (strip (py " C ")) true
          (add_now (py " C ") (py "Root") (py "") (py "") catalog_A_B))
  = root catalog_A_B.
Proof.
  refine (proj1 (add_then_delete_restores_the_containers (py " C ") (py "Root")
                   (py "") (py "") catalog_A_B _ _)).
  - discriminate.
  - rewrite flatten_exercises_holds. intros [[|f] Hk].
    + vm_compute in Hk. apply elem_of_cons in Hk as [Hk | Hk]; [discriminate Hk |].
      by apply elem_of_nil in Hk.
    + apply holds_Folder in Hk.
      assert (folders catalog_A_B = {[py "F" := [py "B"]]}) as HF by by vm_compute.
      rewrite HF in Hk. destruct (decide (f = py "F")) as [-> | Hf].
      * rewrite lookup_singleton_eq in Hk. cbn in Hk.
        apply elem_of_cons in Hk as [Hk | Hk]; [discriminate Hk |].
        by apply elem_of_nil in Hk.
      * rewrite lookup_singleton_ne in Hk by done. by apply elem_of_nil in Hk.
Defined.

Lemma replace_first_other (old new x : pystr) l :
  x ≠ old → x ≠ new → x ∈ replace_first old new l ↔ x ∈ l.
Proof.
  intros Ho Hn. induction l as [|z l IH]; cbn; [done |].
  destruct (decide (z = old)) as [-> | Hz].
  - rewrite !elem_of_cons. split; intros [? | ?]; try done; by right.
  - by rewrite !elem_of_cons, IH.
Qed.





End more_catalog.
